(** * LPU output visualizer: a shallow embedding of [visualizer.py]

    The development follows [neurokernel/LPU/utils/visualizer.py] (the
    class [visualizer]) and, where the two differ, the older sibling
    [utils/visualizer.py].  Python objects are modelled as they are used:

    - a [dict] with string keys is a [gmap string value];
    - the plot configurations are objects on a heap, because [add_plot]
      copies the caller's dictionary and [_initialize]/[_update] mutate the
      stored copy in place;
    - an exception is an [Err] result, threaded through a small error monad;
    - the data matrix is a shape and a cell function, floats are idealised
      as rationals;
    - file reading ([nx.read_gexf], [sio.read_array]) and the matplotlib
      calls are collaborators: the arrays and graphs they return are
      parameters, the drawables only record the data handed to them. *)

From Stdlib Require Import ZArith QArith Ascii String.
From stdpp Require Import base numbers gmap strings list sorting pretty.

Local Open Scope Z_scope.
Set Warnings "-register-all".

(** ** Exceptions and the error monad *)

Inductive exn :=
| AssertionError
| ValueError (msg : string)
| KeyError
| IndexError
| TypeError
| AttributeError
| ZeroDivisionError.

Inductive result (A : Type) :=
| Ok (a : A)
| Err (e : exn).
Arguments Ok {A} a.
Arguments Err {A} e.

#[global] Instance result_ret : MRet result := fun A a => Ok a.
#[global] Instance result_bind : MBind result := fun A B f m =>
  match m with
  | Ok a => f a
  | Err e => Err e
  end.

Definition raise {A} (e : exn) : result A := Err e.

(** [for x in l: body] over a state: the first exception ends the loop. *)
Fixpoint for_each {A S} (l : list A) (body : A -> S -> result S) (s : S)
  : result S :=
  match l with
  | [] => Ok s
  | x :: l' => s' ← body x s; for_each l' body s'
  end.

(** [[f(x) for x in l]] where [f] may raise. *)
Fixpoint map_result {A B} (f : A -> result B) (l : list A) : result (list B) :=
  match l with
  | [] => Ok []
  | x :: l' => y ← f x; ys ← map_result f l'; Ok (y :: ys)
  end.

(** ** Python built-ins *)

(** [len(range(start, stop, step))] as CPython computes it. *)
Definition range_len (start stop step : Z) : nat :=
  if 0 <? step then
    if start <? stop then Z.to_nat ((stop - start - 1) / step + 1) else 0%nat
  else
    if stop <? start then Z.to_nat ((start - stop - 1) / (- step) + 1) else 0%nat.

(** [range(start, stop, step)]; a zero step raises [ValueError]. *)
Definition py_range (start stop step : Z) : result (list Z) :=
  if step =? 0 then raise (ValueError "range() step argument must not be zero")
  else Ok (map (fun i : nat => start + Z.of_nat i * step)
               (seq 0 (range_len start stop step))).

(** [slice(start, stop, step).indices(length)], then the indices selected. *)
Definition slice_indices (start stop step : option Z) (length : Z)
  : result (list Z) :=
  let step := default 1 step in
  if step =? 0 then raise (ValueError "slice step cannot be zero")
  else
    let lower := if step <? 0 then -1 else 0 in
    let upper := if step <? 0 then length - 1 else length in
    let adjust (i : Z) :=
      if i <? 0 then Z.max (i + length) lower else Z.min i upper in
    let start := match start with
                 | None => if step <? 0 then upper else lower
                 | Some i => adjust i
                 end in
    let stop := match stop with
                | None => if step <? 0 then lower else upper
                | Some i => adjust i
                end in
    py_range start stop step.

(** [sorted(l)] on integers. *)
Definition sorted (l : list Z) : list Z := merge_sort Z.le l.

(** [enumerate(l)]. *)
Definition enumerate {A} (l : list A) : list (nat * A) :=
  zip (seq 0 (length l)) l.

(** ** The data matrix *)

Record ndarray := {
  shape0 : nat;
  shape1 : nat;
  cells : nat -> nat -> Q
}.

Definition np_transpose (a : ndarray) : ndarray :=
  {| shape0 := shape1 a; shape1 := shape0 a;
     cells := fun i j => cells a j i |}.

(** An integer index into a dimension of size [n]: negative indices count
    from the end, anything else out of range raises [IndexError]. *)
Definition np_index (n : nat) (i : Z) : result nat :=
  if (0 <=? i) && (i <? Z.of_nat n) then Ok (Z.to_nat i)
  else if (- Z.of_nat n <=? i) && (i <? 0) then Ok (Z.to_nat (i + Z.of_nat n))
  else raise IndexError.

(** The columns selected by [lo:hi]. *)
Definition np_cols (n : nat) (lo hi : Z) : list nat :=
  match slice_indices (Some lo) (Some hi) None (Z.of_nat n) with
  | Ok l => map Z.to_nat l
  | Err _ => []
  end.

(** [a[:, win]] for an index list [win]. *)
Definition np_take_cols (a : ndarray) (win : list nat) : ndarray :=
  {| shape0 := shape0 a; shape1 := length win;
     cells := fun i j => cells a i (nth j win 0%nat) |}.

(** [a[ids, t]]: one sample per selected row. *)
Definition np_rows_at (a : ndarray) (ids : list Z) (t : Z) : result (list Q) :=
  rows ← map_result (np_index (shape0 a)) ids;
  c ← np_index (shape1 a) t;
  Ok (map (fun r => cells a r c) rows).

(** [a[ids, lo:hi]]: one row of samples per selected row. *)
Definition np_rows_slice (a : ndarray) (ids : list Z) (lo hi : Z)
  : result (list (list Q)) :=
  rows ← map_result (np_index (shape0 a)) ids;
  Ok (map (fun r => map (cells a r) (np_cols (shape1 a) lo hi)) rows).

(** [a[idx, lo:hi]]. *)
Definition np_row_slice (a : ndarray) (idx : Z) (lo hi : Z) : result (list Q) :=
  r ← np_index (shape0 a) idx;
  Ok (map (cells a r) (np_cols (shape1 a) lo hi)).

(** [np.where(v)[0]]: the positions of the nonzero entries. *)
Definition np_where (v : list Q) : list nat :=
  map fst (filter (fun p => negb (Qeq_bool (snd p) 0)) (enumerate v)).


(** ** Python values, drawables and dictionaries *)

(** What the drawing collaborator was last handed.  [Axes] is a raster
    panel: its x limits and the vertical marks [(x, ymin, ymax)] drawn so
    far. *)
Inductive drawable :=
| Quiver (U V : list Q)
| AxesImage (channels : list (list Q)) (transposed : bool)
| Line2D (xdata ydata : list Q)
| Axes (xlim : Q * Q) (vlines : list (Q * Q * Q))
| Axes3D (colors : list Q).

Inductive value :=
| VNone
| VBool (b : bool)
| VInt (z : Z)
| VFloat (q : Q)
| VStr (s : string)
| VList (l : list value)
| VDict (d : list (Z * value))
| VHandle (h : drawable).

(** A dictionary with string keys, and the heap of such objects. *)
Abbreviation dict := (gmap string value).
Abbreviation loc := nat.
Abbreviation heap_t := (gmap nat (gmap string value)).

(** [d[k]]. *)
Definition dict_get (d : dict) (k : string) : result value :=
  match d !! k with
  | Some v => Ok v
  | None => raise KeyError
  end.

Fixpoint assoc_get (d : list (Z * value)) (k : Z) : option value :=
  match d with
  | [] => None
  | (k', v) :: d' => if k' =? k then Some v else assoc_get d' k
  end.

(** [len(v)]. *)
Definition py_len (v : value) : result Z :=
  match v with
  | VList l => Ok (Z.of_nat (length l))
  | VDict d => Ok (Z.of_nat (length d))
  | VStr s => Ok (Z.of_nat (String.length s))
  | _ => raise TypeError
  end.

(** [v[i]] for an integer [i]. *)
Definition py_getitem (v : value) (i : Z) : result value :=
  match v with
  | VList l =>
      k ← np_index (length l) i;
      match l !! k with Some x => Ok x | None => raise IndexError end
  | VDict d =>
      match assoc_get d i with Some x => Ok x | None => raise KeyError end
  | VStr s =>
      k ← np_index (String.length s) i;
      match String.get k s with
      | Some c => Ok (VStr (String c EmptyString))
      | None => raise IndexError
      end
  | _ => raise TypeError
  end.

(** A list of integers used as an array index.  Only integer lists are
    covered, which is what [add_plot] builds and its docstring asks for. *)
Definition as_index_list (v : value) : result (list Z) :=
  match v with
  | VList l =>
      map_result (fun x => match x with
                           | VInt z => Ok z
                           | _ => raise IndexError
                           end) l
  | _ => raise IndexError
  end.

Definition as_int (v : value) : result Z :=
  match v with
  | VInt z => Ok z
  | _ => raise TypeError
  end.

(** Truth value of an object. *)
Definition truthy (v : value) : bool :=
  match v with
  | VNone => false
  | VBool b => b
  | VInt z => negb (z =? 0)
  | VFloat q => negb (Qeq_bool q 0)
  | VStr s => negb (String.eqb s "")
  | VList l => match l with [] => false | _ => true end
  | VDict d => match d with [] => false | _ => true end
  | VHandle _ => true
  end.

(** [v == s] for a string literal [s]. *)
Definition eq_str (v : value) (s : string) : bool :=
  match v with
  | VStr s' => String.eqb s' s
  | _ => false
  end.

(** ** Topology *)

(** A node of the graph: the [spiking] flag is required, [name] is
    optional.  (The attributes [extern], [lat] and [long] are read by the
    dome panels only and are not modelled.) *)
Record node := {
  spiking : bool;
  name : option string
}.

(** The node dictionary of a graph.  GEXF identifiers are decimal strings;
    the key is the integer they denote ([int(n)], [str(id)]). *)
Abbreviation graph_t := (gmap Z node).

(** The key under which a source is stored: [None], a string, or an
    integer (the number of sources so far). *)
Inductive lpu_key :=
| LNone
| LStr (s : string)
| LInt (n : Z).

#[global] Instance lpu_key_eq_dec : EqDecision lpu_key.
Proof. solve_decision. Defined.

#[global] Instance lpu_key_countable : Countable lpu_key.
Proof.
  refine (inj_countable'
    (fun k => match k with
              | LNone => inl ()
              | LStr s => inr (inl s)
              | LInt n => inr (inr n)
              end)
    (fun x => match x with
              | inl _ => LNone
              | inr (inl s) => LStr s
              | inr (inr n) => LInt n
              end) _).
  by intros [].
Defined.

(** [str(LPU)]. *)
Definition str_lpu (k : lpu_key) : string :=
  match k with
  | LNone => "None"
  | LStr s => s
  | LInt n => pretty n
  end.

Definition truthy_lpu (k : lpu_key) : bool :=
  match k with
  | LNone => false
  | LStr s => negb (String.eqb s "")
  | LInt n => negb (n =? 0)
  end.

(** ** The visualizer object *)

Record visualizer := {
  _update_interval : option Z;
  _t : Z;
  _dt : Q;
  _data : gmap lpu_key ndarray;
  _graph : gmap lpu_key (gmap Z node);
  _id_to_data_idx : gmap lpu_key (gmap Z nat);
  _maxt : option Z;
  _config : list (lpu_key * list nat);
  heap : gmap nat (gmap string value);
  canvas_draws : list Z
}.

(** [visualizer.__init__]. *)
Definition __init__ : visualizer :=
  {| _update_interval := Some 50;
     _t := 1;
     _dt := 1%Q;
     _data := ∅;
     _graph := ∅;
     _id_to_data_idx := ∅;
     _maxt := None;
     _config := [];
     heap := ∅;
     canvas_draws := [] |}.

Definition with_data (v : gmap lpu_key ndarray) (self : visualizer) :=
  {| _update_interval := _update_interval self; _t := _t self;
     _dt := _dt self; _data := v; _graph := _graph self;
     _id_to_data_idx := _id_to_data_idx self; _maxt := _maxt self;
     _config := _config self; heap := heap self;
     canvas_draws := canvas_draws self |}.

Definition with_graph (v : gmap lpu_key (gmap Z node)) (self : visualizer) :=
  {| _update_interval := _update_interval self; _t := _t self;
     _dt := _dt self; _data := _data self; _graph := v;
     _id_to_data_idx := _id_to_data_idx self; _maxt := _maxt self;
     _config := _config self; heap := heap self;
     canvas_draws := canvas_draws self |}.

Definition with_id_to_data_idx (v : gmap lpu_key (gmap Z nat))
  (self : visualizer) :=
  {| _update_interval := _update_interval self; _t := _t self;
     _dt := _dt self; _data := _data self; _graph := _graph self;
     _id_to_data_idx := v; _maxt := _maxt self;
     _config := _config self; heap := heap self;
     canvas_draws := canvas_draws self |}.

Definition with_maxt (v : option Z) (self : visualizer) :=
  {| _update_interval := _update_interval self; _t := _t self;
     _dt := _dt self; _data := _data self; _graph := _graph self;
     _id_to_data_idx := _id_to_data_idx self; _maxt := v;
     _config := _config self; heap := heap self;
     canvas_draws := canvas_draws self |}.

Definition with_config (v : list (lpu_key * list nat)) (self : visualizer) :=
  {| _update_interval := _update_interval self; _t := _t self;
     _dt := _dt self; _data := _data self; _graph := _graph self;
     _id_to_data_idx := _id_to_data_idx self; _maxt := _maxt self;
     _config := v; heap := heap self;
     canvas_draws := canvas_draws self |}.

Definition with_heap (v : gmap nat (gmap string value)) (self : visualizer) :=
  {| _update_interval := _update_interval self; _t := _t self;
     _dt := _dt self; _data := _data self; _graph := _graph self;
     _id_to_data_idx := _id_to_data_idx self; _maxt := _maxt self;
     _config := _config self; heap := v;
     canvas_draws := canvas_draws self |}.

Definition with_update_interval (v : option Z) (self : visualizer) :=
  {| _update_interval := v; _t := _t self;
     _dt := _dt self; _data := _data self; _graph := _graph self;
     _id_to_data_idx := _id_to_data_idx self; _maxt := _maxt self;
     _config := _config self; heap := heap self;
     canvas_draws := canvas_draws self |}.

Definition with_t (v : Z) (self : visualizer) :=
  {| _update_interval := _update_interval self; _t := v;
     _dt := _dt self; _data := _data self; _graph := _graph self;
     _id_to_data_idx := _id_to_data_idx self; _maxt := _maxt self;
     _config := _config self; heap := heap self;
     canvas_draws := canvas_draws self |}.

Definition with_canvas_draws (v : list Z) (self : visualizer) :=
  {| _update_interval := _update_interval self; _t := _t self;
     _dt := _dt self; _data := _data self; _graph := _graph self;
     _id_to_data_idx := _id_to_data_idx self; _maxt := _maxt self;
     _config := _config self; heap := heap self;
     canvas_draws := v |}.

(** ** [add_LPU] *)

(** Truth value of the [graph] argument: a networkx graph is false when it
    has no nodes. *)
Definition truthy_graph (g : option (gmap Z node)) : bool :=
  match g with
  | Some g => negb (Nat.eqb (size g) 0)
  | None => false
  end.

(** The three-way choice between [gexf_file] and [graph].  [gexf_file] is
    the graph [nx.read_gexf] returns for the file, [None] when no file
    name is given. *)
Definition store_graph (LPU : lpu_key) (gexf_file graph : option (gmap Z node))
  (self : visualizer) : result visualizer :=
  match gexf_file, truthy_graph graph with
  | Some g, false => Ok (with_graph (<[LPU := g]> (_graph self)) self)
  | None, true =>
      Ok (with_graph (<[LPU := default ∅ graph]> (_graph self)) self)
  | Some _, true =>
      raise (ValueError "gexf_file and graph cannot be set simultaneously")
  | None, false => Ok self
  end.

(** [[int(n) for n, k in graph.nodes_iter(True) if k['spiking']]]. *)
Definition spiking_ids (g : gmap Z node) : list Z :=
  map fst (filter (fun p => spiking (snd p)) (map_to_list g)).

(** [{m: i for i, m in enumerate(l)}]: later entries overwrite earlier
    ones. *)
Definition dict_of_enumerate (l : list Z) : gmap Z nat :=
  foldl (fun d p => <[snd p := fst p]> d) ∅ (enumerate l).

(** The IndexMap of a graph. *)
Definition index_map (g : gmap Z node) : gmap Z nat :=
  dict_of_enumerate (sorted (spiking_ids g)).

(** The time window: an index list or a slice. *)
Inductive window :=
| WinList (l : list Z)
| WinSlice (start stop step : option Z).

(** [a[:, win]]. *)
Definition apply_window (a : ndarray) (win : window) : result ndarray :=
  match win with
  | WinList l =>
      cols ← map_result (np_index (shape1 a)) l;
      Ok (np_take_cols a cols)
  | WinSlice start stop step =>
      cols ← slice_indices start stop step (Z.of_nat (shape1 a));
      Ok (np_take_cols a (map Z.to_nat cols))
  end.

(** The update of [_maxt]: [if self._maxt:] is false for [None] and for 0. *)
Definition update_maxt (maxt : option Z) (n : Z) : option Z :=
  match maxt with
  | Some m => if m =? 0 then Some n else Some (Z.min m n)
  | None => Some n
  end.

(** [add_LPU(data_file, gexf_file, LPU, win, is_input, graph)];
    [data_file] is the array [sio.read_array] returns for the file. *)
Definition add_LPU (data_file : ndarray) (gexf_file : option (gmap Z node))
  (LPU : lpu_key) (win : option window) (is_input : bool)
  (graph : option (gmap Z node)) (self : visualizer) : result visualizer :=
  '(LPU, self) ←
    (if (bool_decide (is_Some gexf_file) || truthy_graph graph)
        && negb is_input then
       self ← store_graph LPU gexf_file graph self;
       g ← match _graph self !! LPU with
           | Some g => Ok g
           | None => raise KeyError
           end;
       Ok (LPU, with_id_to_data_idx
                  (<[LPU := index_map g]> (_id_to_data_idx self)) self)
     else
       let LPU :=
         if truthy_lpu LPU then LStr ("input_" +:+ str_lpu LPU)
         else LStr ("input_" +:+ pretty (Z.of_nat (size (_data self)))) in
       self ← store_graph LPU gexf_file graph self;
       Ok (LPU, self));
  let LPU := if truthy_lpu LPU then LPU
             else LInt (Z.of_nat (size (_data self))) in
  let a := np_transpose data_file in
  a ← match win with
      | Some w => apply_window a w
      | None => Ok a
      end;
  let self := with_data (<[LPU := a]> (_data self)) self in
  Ok (with_maxt (update_maxt (_maxt self) (Z.of_nat (shape1 a))) self).

(** [add_LPU] of the older [utils/visualizer.py]: no [graph], no
    [is_input], no IndexMap. *)
Definition add_LPU_sibling (data_file : ndarray)
  (gexf_file : option (gmap Z node)) (LPU : lpu_key) (win : option window)
  (self : visualizer) : result visualizer :=
  let '(LPU, self) :=
    match gexf_file with
    | Some g => (LPU, with_graph (<[LPU := g]> (_graph self)) self)
    | None =>
        (if truthy_lpu LPU then LStr ("input_" +:+ str_lpu LPU)
         else LStr ("input_" +:+ pretty (Z.of_nat (size (_data self)))), self)
    end in
  let LPU := if truthy_lpu LPU then LPU
             else LInt (Z.of_nat (size (_data self))) in
  let a := np_transpose data_file in
  a ← match win with
      | Some w => apply_window a w
      | None => Ok a
      end;
  let self := with_data (<[LPU := a]> (_data self)) self in
  Ok (with_maxt (update_maxt (_maxt self) (Z.of_nat (shape1 a))) self).

(** ** [add_plot] *)

(** [s.split(c, 1)[1]]: what follows the first [c]. *)
Fixpoint after_first (c : Ascii.ascii) (s : string) : result string :=
  match s with
  | EmptyString => raise IndexError
  | String a s' => if Ascii.eqb a c then Ok s' else after_first c s'
  end.

(** [if not LPU in self._config: self._config[LPU] = []] followed by
    [self._config[LPU].append(l)], on the insertion-ordered dictionary. *)
Fixpoint config_append (k : lpu_key) (l : nat)
  (cfg : list (lpu_key * list nat)) : list (lpu_key * list nat) :=
  match cfg with
  | [] => [(k, [l])]
  | (k', ls) :: rest =>
      if decide (k' = k) then (k', ls ++ [l]) :: rest
      else (k', ls) :: config_append k l rest
  end.

(** The inner loop of the name lookup: the identifiers [0 .. len-1] whose
    node is called [nm], each shifted by [shift]. *)
Definition ids_for_name (g : gmap Z node) (shift : Z) (nm : string)
  : result (list value) :=
  named ← map_result
    (fun id : nat =>
       nd ← match g !! Z.of_nat id with
            | Some nd => Ok nd
            | None => raise KeyError
            end;
       n ← match name nd with
           | Some n => Ok n
           | None => raise KeyError
           end;
       Ok (Z.of_nat id, n))
    (seq 0 (size g));
  Ok (map (fun p => VInt (fst p - shift))
          (filter (fun p => String.eqb (snd p) nm) named)).

(** The [ids] dictionary built from [names]. *)
Definition names_to_ids (self : visualizer) (LPU : lpu_key)
  (names : list string) (shift : Z) : result (list (Z * value)) :=
  map_result
    (fun p : nat * string =>
       g ← match _graph self !! LPU with
           | Some g => Ok g
           | None => raise KeyError
           end;
       l ← ids_for_name g shift (snd p);
       Ok (Z.of_nat (fst p), VList l))
    (enumerate names).

(** The default title. *)
Definition default_title (LPU : lpu_key) (names : list string)
  : result string :=
  match names with
  | [] => raise IndexError
  | n0 :: _ =>
      if negb (String.eqb n0 "") then Ok (str_lpu LPU +:+ " - " +:+ n0)
      else if String.prefix "input_" (str_lpu LPU) then
        match LPU with
        | LStr s => rest ← after_first "_"%char s; Ok (rest +:+ " - " +:+ "Input")
        | _ => raise AttributeError
        end
      else Ok (str_lpu LPU)
  end.

(** [add_plot(config_dict, LPU, names, shift)].  [config_dict] is the
    caller's dictionary object; [config_dict.copy()] is a new object. *)
Definition add_plot (config_dict : nat) (LPU : lpu_key) (names : list string)
  (shift : Z) (self : visualizer) : result visualizer :=
  d ← match heap self !! config_dict with
      | Some d => Ok d
      | None => raise AttributeError
      end;
  let config := fresh (dom (heap self)) in
  c ← (if bool_decide (is_Some (d !! "ids")) then Ok d
       else if String.prefix "input" (str_lpu LPU) then
         a ← match _data self !! LPU with
             | Some a => Ok a
             | None => raise KeyError
             end;
         Ok (<["ids" := VList [VList (map (fun i : nat => VInt (Z.of_nat i))
                                          (seq 0 (shape0 a)))]]> d)
       else
         ids ← names_to_ids self LPU names shift;
         Ok (<["ids" := VDict ids]> d));
  c ← (if bool_decide (is_Some (c !! "title")) then Ok c
       else title ← default_title LPU names;
            Ok (<["title" := VStr title]> c));
  Ok (with_config (config_append LPU config (_config self))
        (with_heap (<[config := c]> (heap self)) self)).

(** ** [_initialize] *)

(** [int(np.ceil(np.sqrt(n)))], on the integers. *)
Definition ceil_sqrt (n : Z) : Z :=
  let r := Z.sqrt n in
  if r * r =? n then r else r + 1.

(** [int(np.ceil(n / float(c)))], on the integers; a zero [c] raises. *)
Definition ceil_div (n c : Z) : result Z :=
  if c =? 0 then raise ZeroDivisionError else Ok (- ((- n) / c)).

Definition eq_int (v : value) (n : Z) : bool :=
  match v with
  | VInt z => z =? n
  | _ => false
  end.

(** The check [assert len(config['ids']) == n]. *)
Definition assert_len_ids (c : gmap string value) (n : Z) : result unit :=
  ids ← dict_get c "ids";
  k ← py_len ids;
  if k =? n then Ok () else raise AssertionError.

(** The plot kind chosen when [config] has no ['type']:
    [str(LPU).startswith('input') and not
     self._graph[LPU].node[str(config['ids'][0][0])]['spiking']]. *)
Definition default_type (self : visualizer) (LPU : lpu_key)
  (c : gmap string value) : result Z :=
  if String.prefix "input" (str_lpu LPU) then
    g ← match _graph self !! LPU with
        | Some g => Ok g
        | None => raise KeyError
        end;
    ids ← dict_get c "ids";
    g0 ← py_getitem ids 0;
    id ← py_getitem g0 0;
    nd ← match id with
         | VInt z => match g !! z with
                     | Some nd => Ok nd
                     | None => raise KeyError
                     end
         | _ => raise KeyError
         end;
    if negb (spiking nd) then Ok 2 else Ok 4
  else Ok 4.

(** The same choice in the older [utils/visualizer.py]:
    [str(LPU).startswith('input') or not
     self._graph[LPU][str(config['ids'][0])]['spiking']].
    The subscript is the string of a whole index group, which never names a
    node, so every source that is not an input source raises [KeyError]. *)
Definition default_type_sibling (self : visualizer) (LPU : lpu_key)
  (c : gmap string value) : result Z :=
  if String.prefix "input" (str_lpu LPU) then Ok 2
  else
    _ ← match _graph self !! LPU with
        | Some g => Ok g
        | None => raise KeyError
        end;
    ids ← dict_get c "ids";
    _ ← py_getitem ids 0;
    raise KeyError.

(** The first step of the per-panel loop: the kind string becomes its
    number, after the count of index groups is checked. *)
Definition resolve_type (self : visualizer) (LPU : lpu_key)
  (c : gmap string value) : result (gmap string value) :=
  match c !! "type" with
  | Some ty =>
      if eq_str ty "quiver" then
        _ ← assert_len_ids c 2; Ok (<["type" := VInt 0]> c)
      else if eq_str ty "hsv" then
        _ ← assert_len_ids c 2; Ok (<["type" := VInt 1]> c)
      else if eq_str ty "image" then
        _ ← assert_len_ids c 1; Ok (<["type" := VInt 2]> c)
      else if eq_str ty "waveform" then Ok (<["type" := VInt 3]> c)
      else if eq_str ty "raster" then Ok (<["type" := VInt 4]> c)
      else if eq_str ty "rate" then Ok (<["type" := VInt 5]> c)
      else if eq_str ty "dome" then Ok (<["type" := VInt 6]> c)
      else raise (ValueError "Plot type not supported")
  | None =>
      ty ← default_type self LPU c;
      Ok (<["type" := VInt ty]> c)
  end.

(** The shape computed from [n] selected channels. *)
Definition shape_of (n : Z) : result (Z * Z) :=
  let s0 := ceil_sqrt n in
  s1 ← ceil_div n s0;
  Ok (s0, s1).

(** The second step: kinds below 3 without a ['shape'] get one. *)
Definition infer_shape (c : gmap string value) : result (gmap string value) :=
  ty ← dict_get c "type";
  ty ← as_int ty;
  if ty <? 3 then
    if bool_decide (is_Some (c !! "shape")) then Ok c
    else
      ids ← dict_get c "ids";
      g0 ← py_getitem ids 0;
      num_neurons ← py_len g0;
      s ← shape_of num_neurons;
      Ok (<["shape" := VList [VInt (fst s); VInt (snd s)]]> c)
  else Ok c.

Definition get_data (self : visualizer) (LPU : lpu_key) : result ndarray :=
  match _data self !! LPU with
  | Some a => Ok a
  | None => raise KeyError
  end.

(** [a[i, j]] for integers [i] and [j]. *)
Definition np_item (a : ndarray) (i j : Z) : result Q :=
  r ← np_index (shape0 a) i;
  c ← np_index (shape1 a) j;
  Ok (cells a r c).

Definition as_index (v : value) : result Z :=
  match v with
  | VInt z => Ok z
  | _ => raise IndexError
  end.

(** [config['ids'][k]] as a list of row indices. *)
Definition ids_group (c : gmap string value) (k : Z) : result (list Z) :=
  ids ← dict_get c "ids";
  g ← py_getitem ids k;
  as_index_list g.

(** [np.arange(0, n)] as floats. *)
Definition arange (n : Z) : list Q :=
  map (fun i : nat => inject_Z (Z.of_nat i)) (seq 0 (Z.to_nat n)).

(** [min(d.keys())]. *)
Definition min_key (d : gmap Z nat) : result Z :=
  match map fst (map_to_list d) with
  | [] => raise (ValueError "min() arg is an empty sequence")
  | k :: ks => Ok (foldl Z.min k ks)
  end.

(** The third step: the first draw of a panel, at time 0.  The samples are
    fetched as the code fetches them and handed over flat: [np.reshape] to
    ['shape'] (kinds 0, 1 and 2), which raises [ValueError] when the number
    of channels is not the product of the shape, is left to the drawing
    side.  For the dome only the samples fetched are kept; its
    normalisation and the projection of the node positions (which read the
    topology) belong to the drawing side too. *)
Definition first_draw (self : visualizer) (LPU : lpu_key)
  (c : gmap string value) : result (gmap string value) :=
  ty ← dict_get c "type";
  if eq_int ty 0 then
    data ← get_data self LPU;
    g0 ← ids_group c 0;
    U ← np_rows_at data g0 0;
    g1 ← ids_group c 1;
    V ← np_rows_at data g1 0;
    Ok (<["handle" := VHandle (Quiver U V)]> c)
  else if eq_int ty 1 then
    data ← get_data self LPU;
    g0 ← ids_group c 0;
    X ← np_rows_at data g0 0;
    g1 ← ids_group c 1;
    Y ← np_rows_at data g1 0;
    Ok (<["handle" := VHandle (AxesImage [X; Y] false)]> c)
  else if eq_int ty 2 then
    let to_transpose :=
      match c !! "trans" with
      | Some (VBool true) => true
      | _ => false
      end in
    let c := match c !! "trans" with
             | Some _ => c
             | None => <["trans" := VBool false]> c
             end in
    data ← get_data self LPU;
    g0 ← ids_group c 0;
    X ← np_rows_at data g0 0;
    Ok (<["handle" := VHandle (AxesImage [X] to_transpose)]> c)
  else if eq_int ty 3 then
    ids ← dict_get c "ids";
    g0 ← py_getitem ids 0;
    n ← py_len g0;
    if n =? 1 then
      data ← get_data self LPU;
      id ← py_getitem g0 0;
      id ← as_index id;
      y0 ← np_item data id 0;
      Ok (<["ydata" := VList [VFloat y0]]>
            (<["handle" := VHandle (Line2D [0%Q] [y0])]> c))
    else
      data ← get_data self LPU;
      g0 ← as_index_list g0;
      y ← np_rows_at data g0 0;
      Ok (<["handle" :=
              VHandle (Line2D (arange (Z.of_nat (length y))) y)]> c)
  else if eq_int ty 4 then
    ids ← dict_get c "ids";
    g0 ← py_getitem ids 0;
    _ ← py_len g0;
    m ← match _id_to_data_idx self !! LPU with
        | Some m => Ok m
        | None => raise KeyError
        end;
    min_id ← min_key m;
    min_idx ← match m !! min_id with
              | Some i => Ok i
              | None => raise KeyError
              end;
    data ← get_data self LPU;
    _ ← np_index (shape0 data) (Z.of_nat min_idx);
    let xmax := Qmult (inject_Z (Z.of_nat (shape1 data))) (_dt self) in
    Ok (<["handle" :=
            VHandle (Axes (0%Q, xmax) [(0%Q, 0%Q, (1 # 100)%Q)])]> c)
  else if eq_int ty 6 then
    data ← get_data self LPU;
    g0 ← ids_group c 0;
    d ← np_rows_at data g0 0;
    Ok (<["handle" := VHandle (Axes3D d)]> c)
  else Ok c.

(** One pass of the per-panel loop.  The keys of the configuration that are
    not plot keywords are then offered to the axes and to the handle inside
    [try ... except: pass]; that has no effect here. *)
Definition init_config (self : visualizer) (LPU : lpu_key)
  (c : gmap string value) : result (gmap string value) :=
  c ← resolve_type self LPU c;
  c ← infer_shape c;
  first_draw self LPU c.

Definition heap_get (h : gmap nat (gmap string value)) (l : nat)
  : result (gmap string value) :=
  match h !! l with
  | Some c => Ok c
  | None => raise KeyError
  end.

(** [for plt_id, config in enumerate(configs)]. *)
Definition init_configs (self : visualizer) (LPU : lpu_key)
  (locs : list nat) (h : gmap nat (gmap string value))
  : result (gmap nat (gmap string value)) :=
  for_each locs
    (fun l h => c ← heap_get h l;
                c ← init_config self LPU c;
                Ok (<[l := c]> h)) h.

(** [_initialize]: the loop over the stored configurations.  The grid of
    axes that is set up before it is [grid_shape] below (it has a slot for
    every panel when there is at least one panel, and cannot be set up
    without panels); the frame writer chosen after it is [frame_sink]. *)
Definition _initialize (self : visualizer) : result visualizer :=
  h ← for_each (_config self)
        (fun p h => init_configs self (fst p) (snd p) h) (heap self);
  Ok (with_heap h self).

(** ** [_update] *)

Definition get_interval (self : visualizer) : result Z :=
  match _update_interval self with
  | Some s => Ok s
  | None => raise TypeError
  end.

(** The items a [for] loop sees. *)
Definition as_list (v : value) : result (list value) :=
  match v with
  | VList l => Ok l
  | VDict d => Ok (map (fun p => VInt (fst p)) d)
  | VStr s => Ok (map (fun c => VStr (String c EmptyString))
                      (list_ascii_of_string s))
  | _ => raise TypeError
  end.

(** The list behind [config['ydata'].extend]. *)
Definition as_pylist (v : value) : result (list value) :=
  match v with
  | VList l => Ok l
  | _ => raise AttributeError
  end.

(** [handle.vlines(x, ymin, ymax)] for each mark, on the panel's axes. *)
Definition draw_vlines (c : gmap string value) (marks : list (Q * Q * Q))
  : result (gmap string value) :=
  match marks with
  | [] => Ok c
  | _ =>
      h ← dict_get c "handle";
      match h with
      | VHandle (Axes xlim vs) =>
          Ok (<["handle" := VHandle (Axes xlim (vs ++ marks))]> c)
      | _ => raise AttributeError
      end
  end.

Definition as_float_list (v : value) : result (list Q) :=
  match v with
  | VList l =>
      map_result (fun x => match x with
                           | VFloat q => Ok q
                           | VInt z => Ok (inject_Z z)
                           | _ => raise (ValueError "setting an array element")
                           end) l
  | _ => raise TypeError
  end.

(** [self._id_to_data_idx[key][id]], [None] when the lookup raises.  The
    keys of an IndexMap are integers: an integer finds its key, and so do a
    boolean and a float that are equal to it ([True == 1], [9.0 == 9]);
    every other object raises and is skipped. *)
Definition id_to_idx (self : visualizer) (key : lpu_key) (id : value)
  : option nat :=
  m ← _id_to_data_idx self !! key;
  match id with
  | VInt z => m !! z
  | VBool b => m !! (if b then 1 else 0)
  | VFloat q =>
      if Qnum q mod Z.pos (Qden q) =? 0 then m !! (Qnum q / Z.pos (Qden q))
      else None
  | _ => None
  end.

(** One neuron of a raster panel: [try: idx = self._id_to_data_idx[key][id]]
    with [except: continue], then one mark per nonzero sample of the
    window. *)
Definition raster_row (self : visualizer) (data : ndarray) (key : lpu_key)
  (j : nat) (id : value) : result (list (Q * Q * Q)) :=
  match id_to_idx self key id with
  | None => Ok []
  | Some idx =>
      t ← Ok (_t self);
      s ← get_interval self;
      w ← np_row_slice data (Z.of_nat idx) (Z.max 0 (t - s)) t;
      Ok (map (fun time : nat =>
                 (Qmult (inject_Z (t - Z.of_nat time)) (_dt self),
                  Qplus (inject_Z (Z.of_nat j)) (3 # 4),
                  Qplus (inject_Z (Z.of_nat j)) (5 # 4)))
              (np_where w))
  end.

(** The keys of a dictionary in iteration order. *)
Definition dict_keys (c : gmap string value) : list string :=
  map fst (map_to_list c).

(** The recomputation of one panel at cursor [self._t].  As in the first
    draw, the samples of the kinds 0, 1 and 2 are fetched and handed over
    flat; ['shape'] is only read. *)
Definition update_config (self : visualizer) (data : ndarray) (key : lpu_key)
  (c : gmap string value) : result (gmap string value) :=
  let t := _t self in
  ty ← dict_get c "type";
  if eq_int ty 3 then
    ids ← dict_get c "ids";
    g0 ← py_getitem ids 0;
    n ← py_len g0;
    if n =? 1 then
      ydata ← dict_get c "ydata";
      ydata ← as_pylist ydata;
      g0 ← as_index_list g0;
      s ← get_interval self;
      w ← np_rows_slice data g0 (Z.max 0 (t - s)) t;
      let ydata := ydata ++ map VFloat (concat w) in
      let c := <["ydata" := VList ydata]> c in
      h ← dict_get c "handle";
      match h with
      | VHandle (Line2D _ _) =>
          y ← as_float_list (VList ydata);
          Ok (<["handle" :=
                  VHandle (Line2D (map (Qmult (_dt self)) (arange t)) y)]> c)
      | _ => raise AttributeError
      end
    else
      h ← dict_get c "handle";
      g0 ← as_index_list g0;
      y ← np_rows_at data g0 t;
      match h with
      | VHandle (Line2D x _) => Ok (<["handle" := VHandle (Line2D x y)]> c)
      | _ => raise AttributeError
      end
  else if eq_int ty 4 then
    ids ← dict_get c "ids";
    g0 ← py_getitem ids 0;
    g0 ← as_list g0;
    for_each (enumerate g0)
      (fun p c => marks ← raster_row self data key (fst p) (snd p);
                  draw_vlines c marks) c
  else if eq_int ty 0 then
    _ ← dict_get c "shape";
    g0 ← ids_group c 0;
    U ← np_rows_at data g0 t;
    _ ← dict_get c "handle";
    g1 ← ids_group c 1;
    V ← np_rows_at data g1 t;
    Ok (<["handle" := VHandle (Quiver U V)]> c)
  else if eq_int ty 1 then
    _ ← dict_get c "shape";
    g0 ← ids_group c 0;
    X ← np_rows_at data g0 t;
    g1 ← ids_group c 1;
    Y ← np_rows_at data g1 t;
    _ ← dict_get c "handle";
    Ok (<["handle" := VHandle (AxesImage [X; Y] false)]> c)
  else if eq_int ty 2 then
    _ ← dict_get c "ids";
    trans ← dict_get c "trans";
    _ ← dict_get c "handle";
    g0 ← ids_group c 0;
    X ← np_rows_at data g0 t;
    _ ← dict_get c "shape";
    Ok (<["handle" := VHandle (AxesImage [X] (truthy trans))]> c)
  else if eq_int ty 6 then
    g0 ← ids_group c 0;
    d ← np_rows_at data g0 t;
    _ ← dict_get c "handle";
    Ok (<["handle" := VHandle (Axes3D d)]> c)
  else Ok c.

(** [for config in configs].  The loop [for key in config.iterkeys()] that
    ends each pass rebinds [key]: the next configuration of the same source
    sees the last key of this one in its place. *)
Fixpoint update_configs (self : visualizer) (data : ndarray) (key : lpu_key)
  (locs : list nat) (h : gmap nat (gmap string value))
  : result (gmap nat (gmap string value)) :=
  match locs with
  | [] => Ok h
  | l :: locs' =>
      c ← heap_get h l;
      c ← update_config self data key c;
      let key := match last (dict_keys c) with
                 | Some k => LStr k
                 | None => key
                 end in
      update_configs self data key locs' (<[l := c]> h)
  end.

(** [_update]: every panel is recomputed, the canvas is drawn, the cursor
    advances.  [canvas_draws] records the cursor of each draw. *)
Definition _update (self : visualizer) : result visualizer :=
  h ← for_each (_config self)
        (fun p h => data ← get_data self (fst p);
                    update_configs self data (fst p) (snd p) h)
        (heap self);
  let self := with_canvas_draws (canvas_draws self ++ [_t self])
                (with_heap h self) in
  s ← get_interval self;
  Ok (with_t (_t self + s) self).

(** ** [run] *)

Definition get_maxt (self : visualizer) : result Z :=
  match _maxt self with
  | Some m => Ok m
  | None => raise TypeError
  end.

(** The stride in force after [if not self._update_interval:]. *)
Definition effective_interval (self : visualizer) : result Z :=
  match _update_interval self with
  | Some s => if s =? 0 then m ← get_maxt self; Ok (m - 1) else Ok s
  | None => m ← get_maxt self; Ok (m - 1)
  end.

(** The values of the loop variable of [run]. *)
Definition tick_points (s maxt : Z) : result (list Z) := py_range s maxt s.

(** [run()]; saving the final frame and closing the writer are left to
    the frame sink. *)
Definition run (self : visualizer) : result visualizer :=
  self ← _initialize self;
  s ← effective_interval self;
  let self := with_update_interval (Some s) self in
  let self := with_t (s + 1) self in
  maxt ← get_maxt self;
  ticks ← tick_points s maxt;
  for_each ticks (fun _ self => _update self) self.

(** ** Vocabulary of the specification *)

(** The kind strings [_initialize] recognises. *)
Definition plot_kinds : list string :=
  ["quiver"; "hsv"; "image"; "waveform"; "raster"; "rate"; "dome"].

(** The specification's [ConfigurationError] stands for what the code
    raises on an invalid configuration: the [AssertionError] of a failed
    group count and the [ValueError]s. *)
Definition is_ConfigurationError (e : exn) : bool :=
  match e with
  | AssertionError | ValueError _ => true
  | _ => false
  end.

(** [s] is the ceiling of the square root of [n]. *)
Definition is_ceil_sqrt (n s : Z) : Prop :=
  0 < s /\ (s - 1) * (s - 1) < n <= s * s.

(** [q] is the ceiling of [n / d]. *)
Definition is_ceil_quot (n d q : Z) : Prop :=
  (q - 1) * d < n <= q * d.

(** The configuration objects of all panels, in drawing order. *)
Definition all_locs (cfg : list (lpu_key * list nat)) : list nat :=
  concat (map snd cfg).


(** Some channel selected by the first index group is not a row of
    [data]. *)
Definition out_of_range_channel (data : ndarray) (c : gmap string value)
  : Prop :=
  exists g0 z,
    ids_group c 0 = Ok g0 /\ z ∈ g0 /\ np_index (shape0 data) z = Err IndexError.

(** The number of positive multiples of [s] strictly below [maxt]. *)
Definition tick_count (s maxt : Z) : nat := Z.to_nat ((maxt - 1) / s).


(** The marks a tick with stride [s] draws on line [j] for row [idx] of
    [data]: one for each nonzero sample of the window. *)
Definition row_marks (self : visualizer) (data : ndarray) (s : Z)
  (j idx : nat) : list (Q * Q * Q) :=
  let t := _t self in
  map (fun time : nat =>
         (Qmult (inject_Z (t - Z.of_nat time)) (_dt self),
          Qplus (inject_Z (Z.of_nat j)) (3 # 4),
          Qplus (inject_Z (Z.of_nat j)) (5 # 4)))
      (np_where (map (cells data idx)
                     (np_cols (shape1 data) (Z.max 0 (t - s)) t))).

(** The marks a tick draws for a raster panel over the identifiers [g0]:
    those of the identifiers the IndexMap of [key] resolves, and none for
    the others. *)
Definition raster_marks (self : visualizer) (data : ndarray) (key : lpu_key)
  (s : Z) (g0 : list value) : list (Q * Q * Q) :=
  concat (map (fun p : nat * value =>
                 match id_to_idx self key (snd p) with
                 | Some idx => row_marks self data s (fst p) idx
                 | None => []
                 end)
              (enumerate g0)).

(** ** The rest of [_initialize]: the grid of axes and the frame sink *)

(** [num_plots]: the configurations of all sources, counted. *)
Definition num_plots (cfg : list (lpu_key * list nat)) : Z :=
  foldl (fun n p => n + Z.of_nat (length (snd p))) 0 cfg.

(** The grid [(rows, cols)]: the caller's, when it has exactly one slot per
    plot; the default one otherwise. *)
Definition grid_shape (rows cols num : Z) : result (Z * Z) :=
  if rows * cols =? num then Ok (rows, cols)
  else
    let cols := ceil_sqrt num in
    rows ← ceil_div num cols;
    Ok (rows, cols).

(** The slots removed from the grid: [xrange(num_plots, rows * cols)]. *)
Definition unused_slots (rows cols num : Z) : result (list Z) :=
  py_range num (rows * cols) 1.

Inductive writer :=
| FFMpegFileWriter
| AVConvFileWriter.

(** Where the frames go: a video writer, a window, or nowhere (only the
    final frame is saved). *)
Inductive sink :=
| Video (w : writer)
| Window
| Silent.

Definition truthy_name (s : option string) : bool :=
  match s with
  | Some s => negb (String.eqb s "")
  | None => false
  end.

Definition truthy_interval (i : option Z) : bool :=
  match i with
  | Some z => negb (z =? 0)
  | None => false
  end.

(** The end of [_initialize].  [has_ffmpeg] and [has_avconv] are what
    [which] finds on the host; [inl msg] is [RuntimeError(msg)]. *)
Definition frame_sink (out_filename : option string)
  (update_interval : option Z) (final_frame_name : option string)
  (FFMpeg : option bool) (has_ffmpeg has_avconv : bool) : string + sink :=
  if truthy_name out_filename && truthy_interval update_interval then
    match FFMpeg with
    | None =>
        if has_ffmpeg then inr (Video FFMpegFileWriter)
        else if has_avconv then inr (Video AVConvFileWriter)
        else inl "cannot find ffmpeg or avconv"
    | Some true =>
        if has_ffmpeg then inr (Video FFMpegFileWriter)
        else inl "cannot find ffmpeg"
    | Some false =>
        if has_avconv then inr (Video AVConvFileWriter)
        else inl "cannot find avconv"
    end
  else if negb (truthy_name final_frame_name) then inr Window
  else inr Silent.

(** ** The frame writer through a run *)

(** The calls [run] makes on the figure and on [self.writer], in order. *)
Inductive sink_call :=
| Setup (w : writer)
| GrabFrame
| ShowFigure
| SaveFigure (name : string)
| FinishWriter
| CloseFigure.

(** What can go wrong with them: the [RuntimeError] of [_initialize], and
    the [AttributeError] of reading [self.writer], which [__init__] does not
    set, before [_initialize] has set it. *)
Inductive sink_exn :=
| RuntimeError (msg : string)
| NoWriterAttribute.

(** One part after the other; the first exception ends the run. *)
Definition sink_seq (a b : sink_exn + list sink_call)
  : sink_exn + list sink_call :=
  match a with
  | inl e => inl e
  | inr l =>
      match b with
      | inl e => inl e
      | inr l' => inr (l ++ l')
      end
  end.

(** The end of [_initialize]: [self.writer] afterwards, and the calls. *)
Definition sink_initialize (out_filename : option string)
  (update_interval : option Z) (final_frame_name : option string)
  (FFMpeg : option bool) (has_ffmpeg has_avconv : bool)
  : sink_exn + (option writer * list sink_call) :=
  match frame_sink out_filename update_interval final_frame_name FFMpeg
          has_ffmpeg has_avconv with
  | inl msg => inl (RuntimeError msg)
  | inr (Video w) => inr (Some w, [Setup w; GrabFrame])
  | inr Window => inr (None, [ShowFigure])
  | inr Silent => inr (None, [])
  end.

(** [self.writer.method()]. *)
Definition writer_call (w : option writer) (c : sink_call)
  : sink_exn + list sink_call :=
  match w with
  | Some _ => inr [c]
  | None => inl NoWriterAttribute
  end.

(** The end of [_update]: [if self.out_filename: self.writer.grab_frame()]. *)
Definition sink_update (out_filename : option string) (w : option writer)
  : sink_exn + list sink_call :=
  if truthy_name out_filename then writer_call w GrabFrame else inr [].

Fixpoint sink_updates (out_filename : option string) (w : option writer)
  (ticks : nat) : sink_exn + list sink_call :=
  match ticks with
  | O => inr []
  | S n => sink_seq (sink_update out_filename w)
                    (sink_updates out_filename w n)
  end.

(** [_close]. *)
Definition sink_close (w : option writer) : sink_exn + list sink_call :=
  sink_seq (writer_call w FinishWriter) (inr [CloseFigure]).

(** [run(final_frame_name)] for a loop of [ticks] passes, seen from the
    figure and the writer; the panels are taken to be drawn without
    error. *)
Definition sink_run (out_filename : option string)
  (update_interval : option Z) (final_frame_name : option string)
  (FFMpeg : option bool) (has_ffmpeg has_avconv : bool) (ticks : nat)
  : sink_exn + list sink_call :=
  match sink_initialize out_filename update_interval final_frame_name FFMpeg
          has_ffmpeg has_avconv with
  | inl e => inl e
  | inr (w, calls) =>
      sink_seq (inr calls)
        (sink_seq (sink_updates out_filename w ticks)
           (sink_seq
              (inr (match final_frame_name with
                    | Some n => [SaveFigure n]
                    | None => []
                    end))
              (if truthy_name out_filename then sink_close w else inr [])))
  end.

(** ** [run] with its frame writer *)

(** What ends a run: an exception of the panels or of the loop, or one of
    the frame writer. *)
Inductive run_exn :=
| PanelError (e : exn)
| SinkError (e : sink_exn).

(** [_update] with the frame it grabs: the panels, the canvas, the frame,
    the cursor. *)
Definition update_video (out_filename : option string) (w : option writer)
  (st : visualizer * list sink_call)
  : run_exn + (visualizer * list sink_call) :=
  let self := fst st in
  match for_each (_config self)
          (fun p h => data ← get_data self (fst p);
                      update_configs self data (fst p) (snd p) h)
          (heap self) with
  | Err e => inl (PanelError e)
  | Ok h =>
      let self := with_canvas_draws (canvas_draws self ++ [_t self])
                    (with_heap h self) in
      match sink_update out_filename w with
      | inl e => inl (SinkError e)
      | inr calls =>
          match get_interval self with
          | Err e => inl (PanelError e)
          | Ok s => inr (with_t (_t self + s) self, snd st ++ calls)
          end
      end
  end.

Fixpoint updates_video (out_filename : option string) (w : option writer)
  (ticks : list Z) (st : visualizer * list sink_call)
  : run_exn + (visualizer * list sink_call) :=
  match ticks with
  | [] => inr st
  | _ :: ticks' =>
      match update_video out_filename w st with
      | inl e => inl e
      | inr st' => updates_video out_filename w ticks' st'
      end
  end.

(** [run(final_frame_name)] with the calls on the figure and the writer:
    the first pass and the end of [_initialize], the stride, the loop of
    ticks, the final frame, [_close]. *)
Definition run_video (out_filename final_frame_name : option string)
  (FFMpeg : option bool) (has_ffmpeg has_avconv : bool) (self : visualizer)
  : run_exn + (visualizer * list sink_call) :=
  match _initialize self with
  | Err e => inl (PanelError e)
  | Ok self =>
      match sink_initialize out_filename (_update_interval self)
              final_frame_name FFMpeg has_ffmpeg has_avconv with
      | inl e => inl (SinkError e)
      | inr (w, calls) =>
          match (s ← effective_interval self;
                 maxt ← get_maxt self;
                 ticks ← tick_points s maxt;
                 Ok (s, ticks)) with
          | Err e => inl (PanelError e)
          | Ok (s, ticks) =>
              let self := with_t (s + 1)
                            (with_update_interval (Some s) self) in
              match updates_video out_filename w ticks (self, calls) with
              | inl e => inl e
              | inr (self, calls) =>
                  let calls :=
                    calls ++ match final_frame_name with
                             | Some n => [SaveFigure n]
                             | None => []
                             end in
                  if truthy_name out_filename then
                    match sink_close w with
                    | inl e => inl (SinkError e)
                    | inr c => inr (self, calls ++ c)
                    end
                  else inr (self, calls)
              end
          end
      end
  end.

(** ** [add_plot] of the older [utils/visualizer.py] *)

(** The same as [add_plot], except that the channels of an input source
    are counted on [self._data['input']]. *)
Definition add_plot_sibling (config_dict : nat) (LPU : lpu_key)
  (names : list string) (shift : Z) (self : visualizer) : result visualizer :=
  d ← match heap self !! config_dict with
      | Some d => Ok d
      | None => raise AttributeError
      end;
  let config := fresh (dom (heap self)) in
  c ← (if bool_decide (is_Some (d !! "ids")) then Ok d
       else if String.prefix "input" (str_lpu LPU) then
         a ← match _data self !! LStr "input" with
             | Some a => Ok a
             | None => raise KeyError
             end;
         Ok (<["ids" := VList [VList (map (fun i : nat => VInt (Z.of_nat i))
                                          (seq 0 (shape0 a)))]]> d)
       else
         ids ← names_to_ids self LPU names shift;
         Ok (<["ids" := VDict ids]> d));
  c ← (if bool_decide (is_Some (c !! "title")) then Ok c
       else title ← default_title LPU names;
            Ok (<["title" := VStr title]> c));
  Ok (with_config (config_append LPU config (_config self))
        (with_heap (<[config := c]> (heap self)) self)).

(** ** Invariants of the engine *)

(** The time bound is positive and no source is shorter than it. *)
Definition maxt_bounds (self : visualizer) : Prop :=
  match _maxt self with
  | Some m =>
      0 < m /\
      forall k a, _data self !! k = Some a -> m <= Z.of_nat (shape1 a)
  | None => _data self = ∅
  end.

(** The panels are distinct objects of the heap. *)
Definition panels_wf (self : visualizer) : Prop :=
  NoDup (all_locs (_config self)) /\
  forall l, l ∈ all_locs (_config self) -> is_Some (heap self !! l).

(** ** Sample sources and engines *)

(** Three spiking neurons with the identifiers 5, 2 and 9. *)
Definition graph_5_2_9 : gmap Z node :=
  <[5 := {| spiking := true; name := Some "a" |}]>
    (<[2 := {| spiking := true; name := Some "b" |}]>
       (<[9 := {| spiking := true; name := Some "c" |}]> ∅)).

(** The array read from a file with 4 timesteps of 3 channels. *)
Definition file_4x3 : ndarray :=
  {| shape0 := 4; shape1 := 3;
     cells := fun i j => if Nat.even (i + j) then 1%Q else 0%Q |}.

(** The array read from a silent file of the given size. *)
Definition blank_file (timesteps channels : nat) : ndarray :=
  {| shape0 := timesteps; shape1 := channels; cells := fun _ _ => 0%Q |}.

(** Registering input sources with the given timestep counts, in order. *)
Definition register_counts (counts : list nat) : result visualizer :=
  for_each counts
    (fun n self => add_LPU (blank_file n 3) None LNone None false None self)
    __init__.

(** The configuration of an event-raster panel over the three neurons. *)
Definition raster_config : gmap string value :=
  <["type" := VStr "raster"]>
    (<["ids" := VList [VList [VInt 2; VInt 5; VInt 9]]]> ∅).

(** One measured source with the three neurons and four timesteps, and one
    panel added from the caller's dictionary at location 0. *)
Definition engine_with (config : gmap string value) (stride : option Z)
  : result visualizer :=
  self ← add_LPU file_4x3 (Some graph_5_2_9) (LStr "lamina") None false None
           (with_update_interval stride
              (with_heap (<[0%nat := config]> ∅) __init__));
  add_plot 0%nat (LStr "lamina") [""] 0 self.

(** The state a computation ends in, for the samples that do end. *)
Definition the {A} (d : A) (r : result A) : A :=
  match r with
  | Ok a => a
  | Err _ => d
  end.

Definition raster_engine (stride : option Z) : visualizer :=
  the __init__ (engine_with raster_config stride).

(** The same with the array read from [file]. *)
Definition engine_of (file : ndarray) (config : gmap string value)
  (stride : option Z) : result visualizer :=
  self ← add_LPU file (Some graph_5_2_9) (LStr "lamina") None false None
           (with_update_interval stride
              (with_heap (<[0%nat := config]> ∅) __init__));
  add_plot 0%nat (LStr "lamina") [""] 0 self.

(** A raster panel on a source with a single timestep, stride 0. *)
Definition one_step_engine : visualizer :=
  the __init__ (engine_of (blank_file 1 3) raster_config (Some 0)).

(** A raster panel on a source with 100 timesteps, stride 0. *)
Definition hundred_step_engine : visualizer :=
  the __init__ (engine_of (blank_file 100 3) raster_config (Some 0)).

(** The array read from a file with 4 timesteps of 2 channels: one channel
    fewer than the topology has spiking neurons. *)
Definition file_4x2 : ndarray :=
  {| shape0 := 4; shape1 := 2;
     cells := fun i j => if Nat.even (i + j) then 1%Q else 0%Q |}.

(** The raster panel over the three neurons on that source, after the first
    pass, with the cursor where [run] puts it for a stride of 1. *)
Definition short_raster_engine : visualizer :=
  the __init__
    (self ← engine_of file_4x2 raster_config (Some 1);
     self ← _initialize self;
     Ok (with_t 2 self)).

(** An image panel over the single row 0. *)
Definition image_one_channel : gmap string value :=
  <["type" := VStr "image"]> (<["ids" := VList [VList [VInt 0]]]> ∅).

(** A hue-magnitude panel with a single group of channels. *)
Definition hsv_one_group : gmap string value :=
  <["type" := VStr "hsv"]>
    (<["ids" := VList [VList [VInt 0; VInt 1; VInt 2]]]> ∅).

(** An image panel over ten channels, its kind already resolved. *)
Definition image_ten_channels : gmap string value :=
  <["type" := VInt 2]>
    (<["ids" := VList [VList (map VInt [0; 1; 2; 3; 4; 5; 6; 7; 8; 9])]]> ∅).

(** A measured source whose only neuron is not spiking, with a panel that
    names no kind. *)
Definition graph_graded : gmap Z node :=
  <[0 := {| spiking := false; name := Some "L1" |}]> ∅.

Definition ids_only : gmap string value :=
  <["ids" := VList [VList [VInt 0]]]> ∅.

Definition graded_engine : visualizer :=
  the __init__
    (self ← add_LPU (blank_file 4 1) (Some graph_graded) (LStr "lamina")
              None false None (with_heap (<[0%nat := ids_only]> ∅) __init__);
     add_plot 0%nat (LStr "lamina") [""] 0 self).

(** An input source registered without a topology, with a panel that names
    no kind. *)
Definition input_engine : visualizer :=
  the __init__
    (self ← add_LPU (blank_file 4 1) None (LStr "vision")
              None false None (with_heap (<[0%nat := ∅]> ∅) __init__);
     add_plot 0%nat (LStr "input_vision") [""] 0 self).

(** The source of the sample engines before any panel is added; the
    caller's dictionary is the object at location 0. *)
Definition lamina_source (config : gmap string value) (stride : option Z)
  : visualizer :=
  the __init__
    (add_LPU file_4x3 (Some graph_5_2_9) (LStr "lamina") None false None
       (with_update_interval stride
          (with_heap (<[0%nat := config]> ∅) __init__))).



(** A raster panel that selects the identifier 7, which no neuron has. *)
Definition raster_absent_config : gmap string value :=
  <["type" := VStr "raster"]> (<["ids" := VList [VList [VInt 7]]]> ∅).

Definition raster_absent_engine : visualizer :=
  the __init__ (engine_with raster_absent_config (Some 1)).

(** An image panel that selects row 3 of a source with three rows. *)
Definition image_out_of_range_config : gmap string value :=
  <["type" := VStr "image"]> (<["ids" := VList [VList [VInt 3]]]> ∅).

(** Three named neurons, numbered from 0. *)
Definition graph_named : gmap Z node :=
  <[0 := {| spiking := true; name := Some "R1" |}]>
    (<[1 := {| spiking := true; name := Some "L1" |}]>
       (<[2 := {| spiking := true; name := Some "R1" |}]> ∅)).

(** Two named neurons with the numbers 0 and 2. *)
Definition graph_gap : gmap Z node :=
  <[0 := {| spiking := true; name := Some "R1" |}]>
    (<[2 := {| spiking := true; name := Some "R1" |}]> ∅).

(** A measured source with the given topology, the caller's dictionary
    (a raster panel without ['ids']) at location 0. *)
Definition named_source (g : gmap Z node) : visualizer :=
  the __init__
    (add_LPU file_4x3 (Some g) (LStr "lamina") None false None
       (with_heap (<[0%nat := <["type" := VStr "raster"]> ∅]> ∅) __init__)).

(** The sample source with two raster panels over the same neurons, after
    the first pass. *)
Definition two_raster_engine : visualizer :=
  the __init__
    (self ← engine_with raster_config (Some 1);
     self ← add_plot 0%nat (LStr "lamina") [""] 0 self;
     _initialize self).

(** * Properties *)

(** ** The error monad *)

Lemma bind_Ok {A B} (m : result A) (f : A -> result B) (b : B) :
  (m ≫= f) = Ok b -> exists a, m = Ok a /\ f a = Ok b.
Proof. destruct m as [a|e]; simpl; [eauto | discriminate]. Qed.

Lemma map_result_Err {A B} (f : A -> result B) (l : list A) (x : A) (e : exn) :
  x ∈ l -> f x = Err e -> exists e', map_result f l = Err e'.
Proof.
  induction l as [|y l IH]; intros Hin Hx; [by apply elem_of_nil in Hin|].
  apply elem_of_cons in Hin as [->|Hin]; simpl.
  - rewrite Hx. eauto.
  - destruct (f y); simpl; [|eauto].
    destruct (IH Hin Hx) as [e' ->]. eauto.
Qed.

(** ** The IndexMap *)





Lemma spiking_ids_elem (g : gmap Z node) (m : Z) :
  m ∈ spiking_ids g <-> exists nd, g !! m = Some nd /\ spiking nd = true.
Proof.
  unfold spiking_ids. rewrite list_elem_of_fmap. split.
  - intros ([k nd] & -> & Hin). apply list_elem_of_filter in Hin as [Hs Hin].
    apply elem_of_map_to_list in Hin. simpl in *.
    exists nd. split; [done|]. by destruct (spiking nd).
  - intros (nd & Hg & Hs). exists (m, nd). split; [done|].
    apply list_elem_of_filter. split; [simpl; by rewrite Hs|].
    by apply elem_of_map_to_list.
Qed.




Lemma store_graph_measured LPU gexf_file graph self self1 :
  is_Some gexf_file \/ truthy_graph graph = true ->
  store_graph LPU gexf_file graph self = Ok self1 ->
  is_Some (_graph self1 !! LPU) /\
  _id_to_data_idx self1 = _id_to_data_idx self.
Proof.
  intros Hg. unfold store_graph.
  destruct gexf_file as [g|], (truthy_graph graph) eqn:Ht; simpl;
    intros H; try discriminate.
  - inversion H; subst; simpl. by rewrite lookup_insert_eq.
  - inversion H; subst; simpl. by rewrite lookup_insert_eq.
  - destruct Hg as [[? ?]|?]; discriminate.
Qed.

Lemma np_index_lt (n idx : nat) :
  (idx < n)%nat -> np_index n (Z.of_nat idx) = Ok idx.
Proof.
  intros H. unfold np_index.
  assert ((0 <=? Z.of_nat idx) && (Z.of_nat idx <? Z.of_nat n) = true) as ->.
  { apply andb_true_iff. split; [apply Z.leb_le | apply Z.ltb_lt]; lia. }
  by rewrite Nat2Z.id.
Qed.





Example index_map_5_2_9 :
  index_map graph_5_2_9 !! 2 = Some 0%nat /\
  index_map graph_5_2_9 !! 5 = Some 1%nat /\
  index_map graph_5_2_9 !! 9 = Some 2%nat /\
  size (index_map graph_5_2_9) = 3%nat.
Proof. vm_compute. auto. Qed.

(** ** The time bound *)

Lemma add_LPU_maxt data_file gexf_file LPU win is_input graph self self' :
  add_LPU data_file gexf_file LPU win is_input graph self = Ok self' ->
  exists LPU' a,
    _data self' !! LPU' = Some a /\
    _maxt self' = update_maxt (_maxt self) (Z.of_nat (shape1 a)).
Proof.
  unfold add_LPU. intros H.
  apply bind_Ok in H as ([LPU1 self1] & H1 & H).
  apply bind_Ok in H as (a & _ & H). inversion H; subst self'; clear H.
  assert (Hm : _maxt self1 = _maxt self).
  { destruct (_ && _) in H1.
    - apply bind_Ok in H1 as (s1 & Hs & H1).
      apply bind_Ok in H1 as (g & _ & H1). inversion H1; subst; simpl.
      unfold store_graph in Hs.
      destruct gexf_file, (truthy_graph graph); inversion Hs; by subst.
    - apply bind_Ok in H1 as (s1 & Hs & H1). inversion H1; subst.
      unfold store_graph in Hs.
      destruct gexf_file, (truthy_graph graph); inversion Hs; by subst. }
  eexists _, a. simpl. rewrite lookup_insert_eq, Hm. done.
Qed.

(** As long as no source is empty, the bound is the minimum count. *)
Lemma update_maxt_min (m n : Z) :
  0 < m -> update_maxt (Some m) n = Some (Z.min m n).
Proof.
  intros Hm. unfold update_maxt.
  destruct (m =? 0) eqn:E; [lia | done].
Qed.

Lemma foldl_update_maxt_min (counts : list Z) (m : Z) :
  0 < m -> Forall (fun n => 0 < n) counts ->
  foldl update_maxt (Some m) counts = Some (foldl Z.min m counts).
Proof.
  revert m. induction counts as [|n counts IH]; intros m Hm Hall; [done|].
  apply Forall_cons in Hall as [Hn Hall]. cbn [foldl].
  rewrite update_maxt_min by done. apply IH; [lia | done].
Qed.

Example maxt_120_95_200 :
  exists self, register_counts [120; 95; 200]%nat = Ok self /\
               _maxt self = Some 95.
Proof. eexists. split; reflexivity. Qed.

(** The older [add_LPU] updates the bound in the same way. *)
Example maxt_after_empty_source_sibling :
  exists self,
    for_each [0; 5]%nat
      (fun n self => add_LPU_sibling (blank_file n 3) None LNone None self)
      __init__ = Ok self /\
    _maxt self = Some 5.
Proof. eexists. split; reflexivity. Qed.

(** C2: the code at the failing input.  After a source without timesteps
    and a source with five, the bound is 5, not the minimum 0: the test
    [if self._maxt:] takes the bound 0 for a missing one. *)
Theorem maxt_after_empty_source :
  exists self, register_counts [0; 5]%nat = Ok self /\
               _maxt self = Some 5 /\
               Z.min 0 5 = 0.
Proof. eexists. split; [reflexivity|]. split; reflexivity. Qed.

(** ** The tick loop *)

Lemma _initialize_frame self self' :
  _initialize self = Ok self' ->
  exists h, self' = with_heap h self.
Proof.
  unfold _initialize. intros H. apply bind_Ok in H as (h & _ & H).
  inversion H. eauto.
Qed.

Lemma _update_frame self self' :
  _update self = Ok self' ->
  exists h s,
    _update_interval self = Some s /\
    self' = with_t (_t self + s)
              (with_canvas_draws (canvas_draws self ++ [_t self])
                 (with_heap h self)).
Proof.
  unfold _update. intros H. apply bind_Ok in H as (h & _ & H).
  apply bind_Ok in H as (s & Hs & H). inversion H; subst; clear H.
  unfold get_interval in Hs. simpl in Hs.
  destruct (_update_interval self) as [s'|] eqn:E; inversion Hs; subst.
  eauto.
Qed.

(** The cursors at which [n] successive ticks draw, starting from [t]. *)
Lemma updates_draws {A} (ticks : list A) (self self' : visualizer) (s : Z) :
  _update_interval self = Some s ->
  for_each ticks (fun _ st => _update st) self = Ok self' ->
  _update_interval self' = Some s /\
  _maxt self' = _maxt self /\
  _t self' = _t self + Z.of_nat (length ticks) * s /\
  canvas_draws self' =
    canvas_draws self
    ++ map (fun k : nat => _t self + Z.of_nat k * s) (seq 0 (length ticks)).
Proof.
  revert self. induction ticks as [|x ticks IH]; intros self Hs H; simpl in H.
  - inversion H; subst. simpl. rewrite app_nil_r. repeat split; [done | lia].
  - apply bind_Ok in H as (self1 & Hu & H).
    apply _update_frame in Hu as (h & s' & Hs' & ->).
    assert (s' = s) by congruence. subst s'.
    apply IH in H as (Hi & Hm & Ht & Hd); [|done].
    simpl in *. rewrite Hi, Hm, Ht, Hd. repeat split; [lia|].
    rewrite <- app_assoc. f_equal. simpl. f_equal; [f_equal; lia|].
    rewrite <- seq_shift, map_map. apply map_ext. intros k. lia.
Qed.

Lemma run_draws self self' :
  run self = Ok self' ->
  exists s maxt ticks,
    effective_interval self = Ok s /\
    _maxt self = Some maxt /\
    tick_points s maxt = Ok ticks /\
    _update_interval self' = Some s /\
    canvas_draws self' =
      canvas_draws self
      ++ map (fun k : nat => Z.of_nat (S k) * s + 1) (seq 0 (length ticks)).
Proof.
  unfold run. intros H.
  apply bind_Ok in H as (self1 & Hi & H).
  apply _initialize_frame in Hi as (h & ->).
  apply bind_Ok in H as (s & Hs & H).
  apply bind_Ok in H as (maxt & Hm & H).
  apply bind_Ok in H as (ticks & Ht & H).
  apply (updates_draws _ _ _ s) in H as (Hi & _ & _ & Hd); [|done].
  exists s, maxt, ticks. simpl in *.
  unfold get_maxt in Hm. simpl in Hm.
  destruct (_maxt self) as [m|] eqn:E; inversion Hm; subst.
  repeat split; try done.
  rewrite Hd. f_equal. apply map_ext. intros k. lia.
Qed.

(** [range(s, maxt, s)] for a positive stride: the multiples of [s] below
    [maxt], of which there are [floor((maxt - 1) / s)]. *)
Lemma tick_points_pos (s maxt : Z) :
  1 <= s ->
  tick_points s maxt =
    Ok (map (fun k : nat => Z.of_nat (S k) * s)
            (seq 0 (Z.to_nat ((maxt - 1) / s)))).
Proof.
  intros Hs. unfold tick_points, py_range, range_len.
  destruct (s =? 0) eqn:E0; [lia|].
  destruct (0 <? s) eqn:E1; [|lia]. f_equal.
  assert (Hn : (if s <? maxt then Z.to_nat ((maxt - s - 1) / s + 1) else 0%nat)
               = Z.to_nat ((maxt - 1) / s)).
  { destruct (s <? maxt) eqn:E2.
    - replace (maxt - s - 1) with (maxt - 1 + (-1) * s) by lia.
      rewrite Z.div_add by lia. f_equal. lia.
    - assert ((maxt - 1) / s <= 0); [|lia].
      destruct (decide (maxt <= 0)).
      + assert ((maxt - 1) / s < 0); [|lia].
        apply Z.div_lt_upper_bound; lia.
      + rewrite Z.div_small; lia. }
  rewrite Hn. apply map_ext. intros k. lia.
Qed.

Lemma tick_count_bounds (s maxt : Z) :
  1 <= s ->
  (forall k : nat, (k < tick_count s maxt)%nat -> Z.of_nat (S k) * s < maxt) /\
  maxt <= Z.of_nat (S (tick_count s maxt)) * s.
Proof.
  intros Hs. unfold tick_count.
  pose proof (Z.mul_div_le (maxt - 1) s ltac:(lia)) as Hle.
  pose proof (Z.mul_succ_div_gt (maxt - 1) s ltac:(lia)) as Hgt.
  split.
  - intros k Hk.
    assert (Z.of_nat (S k) <= (maxt - 1) / s) by lia. nia.
  - destruct (decide (0 <= (maxt - 1) / s)) as [Hq|Hq].
    + rewrite Nat2Z.inj_succ, Z2Nat.id by done. lia.
    + replace (Z.to_nat ((maxt - 1) / s)) with 0%nat by lia.
      assert (maxt - 1 < 0); [|lia].
      destruct (decide (maxt - 1 < 0)); [done|].
      exfalso. apply Hq. apply Z.div_pos; lia.
Qed.

Lemma effective_interval_set self s :
  _update_interval self = Some s -> s <> 0 -> effective_interval self = Ok s.
Proof.
  intros H Hs. unfold effective_interval. rewrite H.
  destruct (s =? 0) eqn:E; [lia | done].
Qed.

(** C3, as the code has it: with a stride [s >= 1] the loop variable takes
    the values [s, 2*s, ...] strictly below [maxt], all of them, and a run
    that completes has redrawn once per value, which is
    [floor((maxt - 1) / s)] times, at the cursors [k*s + 1]. *)
Theorem run_tick_count self s maxt :
  _update_interval self = Some s -> 1 <= s -> _maxt self = Some maxt ->
  tick_points s maxt =
    Ok (map (fun k : nat => Z.of_nat (S k) * s) (seq 0 (tick_count s maxt))) /\
  (forall k : nat, (k < tick_count s maxt)%nat -> Z.of_nat (S k) * s < maxt) /\
  maxt <= Z.of_nat (S (tick_count s maxt)) * s /\
  forall self', run self = Ok self' ->
    canvas_draws self' =
      canvas_draws self
      ++ map (fun k : nat => Z.of_nat (S k) * s + 1)
             (seq 0 (tick_count s maxt)) /\
    length (canvas_draws self') =
      (length (canvas_draws self) + tick_count s maxt)%nat.
Proof.
  intros Hi Hs Hm.
  split; [by apply tick_points_pos|].
  destruct (tick_count_bounds s maxt Hs) as [Hlt Hge].
  split; [done|]. split; [done|].
  intros self' Hrun.
  apply run_draws in Hrun as (s' & maxt' & ticks & He & Hm' & Ht & _ & Hd).
  rewrite (effective_interval_set _ _ Hi) in He by lia.
  inversion He; subst s'. assert (maxt' = maxt) by congruence. subst maxt'.
  rewrite tick_points_pos in Ht by done. inversion Ht; subst ticks.
  rewrite length_map, length_seq in Hd. split; [done|].
  rewrite Hd, length_app, length_map, length_seq. done.
Qed.

Lemma run_tick_count_witness :
  tick_points 2 4 = Ok [2] /\
  forall self', run (raster_engine (Some 2)) = Ok self' ->
    canvas_draws self' = [3] /\ length (canvas_draws self') = 1%nat.
Proof.
  destruct (run_tick_count (raster_engine (Some 2)) 2 4)
    as (Ht & _ & _ & Hrun);
    [vm_compute; reflexivity | lia | vm_compute; reflexivity |].
  split; [exact Ht | exact Hrun].
Defined.

Example run_raster_stride_2 :
  match run (raster_engine (Some 2)) with
  | Ok self' => canvas_draws self' = [3] /\ _t self' = 5
  | Err _ => False
  end.
Proof. vm_compute. done. Qed.

(** C3, as the claim has it, fails: with four timesteps and stride 1 the run
    redraws three times, not [floor(4/1) = 4] times. *)
Lemma run_tick_count_counterexample :
  ~ (forall self self' s maxt,
       _update_interval self = Some s -> 1 <= s -> _maxt self = Some maxt ->
       run self = Ok self' ->
       length (canvas_draws self') =
         (length (canvas_draws self) + Z.to_nat (maxt / s))%nat).
Proof.
  intros H.
  assert (Hrun : run (raster_engine (Some 1))
                 = Ok (the __init__ (run (raster_engine (Some 1)))))
    by (vm_compute; reflexivity).
  apply H with (s := 1) (maxt := 4) in Hrun;
    [| vm_compute; reflexivity | lia | vm_compute; reflexivity].
  vm_compute in Hrun. discriminate.
Qed.

Lemma effective_interval_unset self maxt :
  _update_interval self = None \/ _update_interval self = Some 0 ->
  _maxt self = Some maxt ->
  effective_interval self = Ok (maxt - 1).
Proof.
  intros [H|H] Hm; unfold effective_interval, get_maxt; rewrite H, Hm; done.
Qed.

(** A stride that is 0 or unset is replaced by [maxt - 1]; for a bound of
    at least two timesteps the loop variable takes the single value
    [maxt - 1], and a run that completes has redrawn exactly once, with the
    cursor at [maxt]. *)
Lemma run_unset_interval_ticks self maxt :
  _update_interval self = None \/ _update_interval self = Some 0 ->
  _maxt self = Some maxt ->
  2 <= maxt ->
  effective_interval self = Ok (maxt - 1) /\
  tick_points (maxt - 1) maxt = Ok [maxt - 1] /\
  forall self', run self = Ok self' ->
    _update_interval self' = Some (maxt - 1) /\
    canvas_draws self' = canvas_draws self ++ [maxt].
Proof.
  intros Hi Hm Hmaxt.
  pose proof (effective_interval_unset _ _ Hi Hm) as He.
  assert (Ht : tick_points (maxt - 1) maxt = Ok [maxt - 1]).
  { rewrite tick_points_pos by lia.
    rewrite Z.div_same by lia. simpl. do 2 f_equal. lia. }
  split; [done|]. split; [done|].
  intros self' Hrun.
  apply run_draws in Hrun as (s & maxt' & ticks & He' & Hm' & Ht' & Hi' & Hd).
  rewrite He in He'. inversion He'; subst s.
  assert (maxt' = maxt) by congruence. subst maxt'.
  rewrite Ht in Ht'. inversion Ht'; subst ticks.
  split; [done|]. rewrite Hd. simpl. do 2 f_equal. lia.
Qed.

(** With a bound of a single timestep the stride becomes 0 and [range]
    raises once the first pass is over: no tick takes place. *)
Lemma run_single_timestep self self1 :
  _update_interval self = None \/ _update_interval self = Some 0 ->
  _maxt self = Some 1 ->
  _initialize self = Ok self1 ->
  run self = Err (ValueError "range() step argument must not be zero").
Proof.
  intros Hi Hm Hinit. unfold run. rewrite Hinit.
  destruct (_initialize_frame _ _ Hinit) as [h ->].
  cbn [mbind result_bind].
  assert (He : effective_interval (with_heap h self) = Ok 0).
  { by rewrite (effective_interval_unset _ 1). }
  rewrite He. cbn [mbind result_bind]. unfold get_maxt. simpl.
  by rewrite Hm.
Qed.

(** C4: the code at the failing input.  One source with a single timestep,
    a raster panel over its neurons and the stride 0: the first pass
    succeeds, the stride is replaced by [maxt - 1 = 0], and [range(0, 1, 0)]
    raises [ValueError] before any tick, so the single frame the claim
    describes is not produced. *)
Theorem run_unset_interval :
  _update_interval one_step_engine = Some 0 /\
  _maxt one_step_engine = Some 1 /\
  _config one_step_engine = [(LStr "lamina", [1%nat])] /\
  (exists self1, _initialize one_step_engine = Ok self1) /\
  effective_interval one_step_engine = Ok 0 /\
  run one_step_engine
  = Err (ValueError "range() step argument must not be zero").
Proof.
  assert (Hinit : _initialize one_step_engine
                  = Ok (the __init__ (_initialize one_step_engine)))
    by (vm_compute; reflexivity).
  split; [vm_compute; reflexivity|]. split; [vm_compute; reflexivity|].
  split; [vm_compute; reflexivity|]. split; [eauto|].
  split; [vm_compute; reflexivity|].
  apply (run_single_timestep one_step_engine
           (the __init__ (_initialize one_step_engine)));
    [right; vm_compute; reflexivity | vm_compute; reflexivity | exact Hinit].
Qed.

(** With 100 timesteps the stride becomes 99 and the raster panel is
    redrawn once, with the cursor at 100. *)
Example run_hundred_steps :
  _config hundred_step_engine = [(LStr "lamina", [1%nat])] /\
  match run hundred_step_engine with
  | Ok self' => canvas_draws self' = [100] /\ _update_interval self' = Some 99
  | Err _ => False
  end.
Proof. vm_compute. done. Qed.

(** The single tick has its cursor at [maxt]; a panel that reads the column
    at the cursor (here an image panel over one channel) then indexes one
    past the last column of a source with [maxt] timesteps. *)
Example run_unset_interval_image :
  _maxt (the __init__ (engine_with image_one_channel (Some 0))) = Some 4 /\
  (exists self1,
     _initialize (the __init__ (engine_with image_one_channel (Some 0)))
     = Ok self1) /\
  run (the __init__ (engine_with image_one_channel (Some 0)))
  = Err IndexError.
Proof.
  split; [vm_compute; reflexivity|]. split; [|vm_compute; reflexivity].
  eexists. vm_compute. reflexivity.
Qed.

(** ** Plot kinds *)

Lemma eq_str_true (v : value) (s : string) :
  eq_str v s = true -> v = VStr s.
Proof.
  destruct v; simpl; try discriminate.
  intros H. apply String.eqb_eq in H. by subst.
Qed.

Lemma assert_len_ids_spec (c : gmap string value) ids (n k : Z) :
  c !! "ids" = Some ids -> py_len ids = Ok n ->
  assert_len_ids c k = if n =? k then Ok () else Err AssertionError.
Proof.
  intros Hids Hn. unfold assert_len_ids, dict_get. rewrite Hids. simpl.
  rewrite Hn. simpl. by destruct (n =? k).
Qed.

(** C6: a vector-field ([quiver]) or hue-magnitude ([hsv]) panel with a
    number of index groups other than two fails in the kind check with
    [AssertionError], and passes it with exactly two; a kind that is none
    of the recognised strings fails with [ValueError].  Both exceptions are
    the specification's [ConfigurationError]. *)
Theorem init_config_kind_errors self LPU (c : gmap string value) ty ids n :
  c !! "type" = Some ty ->
  c !! "ids" = Some ids ->
  py_len ids = Ok n ->
  (eq_str ty "quiver" = true \/ eq_str ty "hsv" = true ->
     (n <> 2 ->
        init_config self LPU c = Err AssertionError /\
        is_ConfigurationError AssertionError = true) /\
     (n = 2 ->
        exists k, resolve_type self LPU c = Ok (<["type" := VInt k]> c))) /\
  (Forall (fun k => eq_str ty k = false) plot_kinds ->
     init_config self LPU c = Err (ValueError "Plot type not supported") /\
     is_ConfigurationError (ValueError "Plot type not supported") = true).
Proof.
  intros Hty Hids Hn. unfold init_config, resolve_type. rewrite Hty. split.
  - intros Hk.
    assert (Ha : assert_len_ids c 2
                 = if n =? 2 then Ok () else Err AssertionError)
      by (by apply assert_len_ids_spec with ids).
    split.
    + intros Hne. split; [|done].
      destruct Hk as [Hk|Hk]; apply eq_str_true in Hk; subst ty; simpl;
        rewrite Ha; destruct (n =? 2) eqn:E; try lia; done.
    + intros ->.
      destruct Hk as [Hk|Hk]; apply eq_str_true in Hk; subst ty; simpl;
        rewrite Ha; simpl; eauto.
  - intros Hall. unfold plot_kinds in Hall.
    repeat (apply Forall_cons in Hall as [? Hall]).
    repeat match goal with H : eq_str _ _ = false |- _ => rewrite H; clear H end.
    done.
Qed.

Lemma init_config_kind_errors_witness :
  init_config graded_engine (LStr "lamina") hsv_one_group = Err AssertionError
  /\ is_ConfigurationError AssertionError = true.
Proof.
  destruct (init_config_kind_errors graded_engine (LStr "lamina")
              hsv_one_group (VStr "hsv")
              (VList [VList [VInt 0; VInt 1; VInt 2]]) 1)
    as [Hk _]; [reflexivity | reflexivity | reflexivity |].
  apply Hk; [right; reflexivity | lia].
Defined.

Example unknown_kind_fails self LPU :
  init_config self LPU (<["type" := VStr "hue-magnitude"]> hsv_one_group)
  = Err (ValueError "Plot type not supported").
Proof. reflexivity. Qed.

(** Without a kind, a source whose name does not start with [input] gets
    the raster kind, whatever its first node is. *)
Lemma default_type_measured self LPU (c : gmap string value) :
  String.prefix "input" (str_lpu LPU) = false ->
  default_type self LPU c = Ok 4.
Proof. intros H. unfold default_type. by rewrite H. Qed.

(** The older code gives every input source the image kind. *)
Lemma default_type_sibling_input self LPU (c : gmap string value) :
  String.prefix "input" (str_lpu LPU) = true ->
  default_type_sibling self LPU c = Ok 2.
Proof. intros H. unfold default_type_sibling. by rewrite H. Qed.

(** C7: the code at the failing input.  The panel names no kind, its source
    is a measured source and its first selected node is not spiking; the
    kind chosen is 4 (event-raster), not 2 (single-channel image). *)
Theorem default_kind_measured_graded :
  exists (g : gmap Z node) (nd : node) (c : gmap string value),
    _graph graded_engine !! LStr "lamina" = Some g /\
    g !! 0 = Some nd /\ spiking nd = false /\
    heap graded_engine !! 1%nat = Some c /\
    c !! "type" = None /\
    ids_group c 0 = Ok [0] /\
    resolve_type graded_engine (LStr "lamina") c = Ok (<["type" := VInt 4]> c).
Proof.
  eexists _, _, _. repeat split; vm_compute; reflexivity.
Qed.

(** An input source registered without a topology: the kind lookup raises
    instead of choosing the image kind. *)
Example default_kind_input_without_graph :
  exists c : gmap string value,
    heap input_engine !! 1%nat = Some c /\
    c !! "type" = None /\
    _graph input_engine !! LStr "input_vision" = None /\
    resolve_type input_engine (LStr "input_vision") c = Err KeyError.
Proof. eexists. repeat split; vm_compute; reflexivity. Qed.

(** ** Shape inference *)

Lemma ceil_sqrt_spec (n : Z) : 1 <= n -> is_ceil_sqrt n (ceil_sqrt n).
Proof.
  intros Hn. unfold is_ceil_sqrt, ceil_sqrt.
  pose proof (Z.sqrt_spec n ltac:(lia)) as [Hlo Hhi].
  pose proof (Z.sqrt_nonneg n) as Hr.
  assert (0 < Z.sqrt n) by (apply Z.sqrt_pos; lia).
  destruct (Z.sqrt n * Z.sqrt n =? n) eqn:E.
  - apply Z.eqb_eq in E. nia.
  - apply Z.eqb_neq in E. nia.
Qed.

Lemma ceil_div_spec (n d : Z) :
  0 < d -> exists q, ceil_div n d = Ok q /\ is_ceil_quot n d q.
Proof.
  intros Hd. unfold ceil_div, is_ceil_quot.
  destruct (d =? 0) eqn:E; [lia|].
  eexists. split; [done|].
  pose proof (Z.div_mod (- n) d ltac:(lia)) as Hdm.
  pose proof (Z.mod_pos_bound (- n) d Hd) as Hm. nia.
Qed.

(** C8: for the kinds vector-field, hue-magnitude and single-channel image
    (numbers 0, 1, 2), without a shape and with [n >= 1] selected channels,
    the shape stored is [(ceil(sqrt(n)), ceil(n / ceil(sqrt(n))))]. *)
Theorem infer_shape_spec (c : gmap string value) ty ids g0 n :
  c !! "type" = Some (VInt ty) ->
  ty = 0 \/ ty = 1 \/ ty = 2 ->
  c !! "shape" = None ->
  c !! "ids" = Some ids ->
  py_getitem ids 0 = Ok g0 ->
  py_len g0 = Ok n ->
  1 <= n ->
  exists s0 s1,
    infer_shape c = Ok (<["shape" := VList [VInt s0; VInt s1]]> c) /\
    is_ceil_sqrt n s0 /\
    is_ceil_quot n s0 s1.
Proof.
  intros Hty Hk Hshape Hids Hg0 Hlen Hn.
  pose proof (ceil_sqrt_spec n Hn) as Hs0.
  destruct (ceil_div_spec n (ceil_sqrt n)) as (s1 & Hs1 & Hq);
    [by destruct Hs0|].
  exists (ceil_sqrt n), s1. split; [|done].
  unfold infer_shape, dict_get. rewrite Hty, Hids. simpl.
  assert ((ty <? 3) = true) as -> by lia.
  rewrite bool_decide_eq_false_2 by (rewrite Hshape; by intros [? ?]).
  rewrite Hg0. simpl. rewrite Hlen. simpl.
  unfold shape_of. rewrite Hs1. done.
Qed.

Lemma infer_shape_spec_witness :
  exists s0 s1,
    infer_shape image_ten_channels
    = Ok (<["shape" := VList [VInt s0; VInt s1]]> image_ten_channels) /\
    is_ceil_sqrt 10 s0 /\
    is_ceil_quot 10 s0 s1.
Proof.
  apply (infer_shape_spec image_ten_channels 2
           (VList [VList (map VInt [0; 1; 2; 3; 4; 5; 6; 7; 8; 9])])
           (VList (map VInt [0; 1; 2; 3; 4; 5; 6; 7; 8; 9])) 10);
    [reflexivity | lia | reflexivity | reflexivity | reflexivity
    | reflexivity | lia].
Defined.

Example shape_of_10 : shape_of 10 = Ok (4, 3).
Proof. reflexivity. Qed.

Example infer_shape_ten_channels :
  infer_shape image_ten_channels
  = Ok (<["shape" := VList [VInt 4; VInt 3]]> image_ten_channels).
Proof. reflexivity. Qed.

(** No channel at all: the division by the zero width raises. *)
Example shape_of_0 : shape_of 0 = Err ZeroDivisionError.
Proof. reflexivity. Qed.

(** ** [add_plot] and the caller's dictionary *)

(** C10: [add_plot] leaves the caller's dictionary as it was.  The stored
    configuration is a new object; it has every entry of the caller's
    dictionary, an entry ['ids'] and an entry ['title'], and nothing else
    on the heap changes. *)
Theorem add_plot_preserves_caller config_dict LPU names shift self self' :
  add_plot config_dict LPU names shift self = Ok self' ->
  heap self' !! config_dict = heap self !! config_dict /\
  exists (d c : gmap string value) (l : nat),
    heap self !! config_dict = Some d /\
    l <> config_dict /\
    heap self !! l = None /\
    heap self' = <[l := c]> (heap self) /\
    _config self' = config_append LPU l (_config self) /\
    (forall k v, d !! k = Some v -> c !! k = Some v) /\
    (forall k, k <> "ids" -> k <> "title" -> c !! k = d !! k) /\
    is_Some (c !! "ids") /\
    is_Some (c !! "title").
Proof.
  unfold add_plot. intros H.
  destruct (heap self !! config_dict) as [d|] eqn:Hd; [|discriminate].
  simpl in H.
  apply bind_Ok in H as (c1 & Hc1 & H).
  apply bind_Ok in H as (c2 & Hc2 & H).
  inversion H; subst self'; clear H. simpl.
  set (l := fresh (dom (heap self))) in *.
  assert (Hl : heap self !! l = None).
  { apply not_elem_of_dom. apply is_fresh. }
  assert (Hne : l <> config_dict) by congruence.
  split; [by rewrite lookup_insert_ne|].
  exists d, c2, l. repeat split; try done.
  - intros k v Hk.
    assert (Hk1 : c1 !! k = Some v).
    { destruct (bool_decide (is_Some (d !! "ids"))) eqn:E.
      - by inversion Hc1; subst.
      - apply bool_decide_eq_false in E.
        assert (k <> "ids") by (intros ->; apply E; eauto).
        destruct (String.prefix "input" (str_lpu LPU)).
        + apply bind_Ok in Hc1 as (a & _ & Hc1). inversion Hc1; subst.
          by rewrite lookup_insert_ne.
        + apply bind_Ok in Hc1 as (a & _ & Hc1). inversion Hc1; subst.
          by rewrite lookup_insert_ne. }
    destruct (bool_decide (is_Some (c1 !! "title"))) eqn:E.
    + by inversion Hc2; subst.
    + apply bool_decide_eq_false in E.
      assert (k <> "title") by (intros ->; apply E; eauto).
      apply bind_Ok in Hc2 as (t & _ & Hc2). inversion Hc2; subst.
      by rewrite lookup_insert_ne.
  - intros k Hk1 Hk2.
    assert (Hk : c1 !! k = d !! k).
    { destruct (bool_decide (is_Some (d !! "ids")));
        [by inversion Hc1; subst|].
      destruct (String.prefix "input" (str_lpu LPU));
        apply bind_Ok in Hc1 as (a & _ & Hc1); inversion Hc1; subst;
        by rewrite lookup_insert_ne. }
    destruct (bool_decide (is_Some (c1 !! "title")));
      [by inversion Hc2; subst|].
    apply bind_Ok in Hc2 as (t & _ & Hc2). inversion Hc2; subst.
    by rewrite lookup_insert_ne.
  - assert (Hi : is_Some (c1 !! "ids")).
    { destruct (bool_decide (is_Some (d !! "ids"))) eqn:E.
      - apply bool_decide_eq_true in E. by inversion Hc1; subst.
      - destruct (String.prefix "input" (str_lpu LPU));
          apply bind_Ok in Hc1 as (a & _ & Hc1); inversion Hc1; subst;
          rewrite lookup_insert_eq; eauto. }
    destruct (bool_decide (is_Some (c1 !! "title")));
      [by inversion Hc2; subst|].
    apply bind_Ok in Hc2 as (t & _ & Hc2). inversion Hc2; subst.
    by rewrite lookup_insert_ne.
  - destruct (bool_decide (is_Some (c1 !! "title"))) eqn:E.
    + apply bool_decide_eq_true in E. by inversion Hc2; subst.
    + apply bind_Ok in Hc2 as (t & _ & Hc2). inversion Hc2; subst.
      rewrite lookup_insert_eq. eauto.
Qed.

(** ** Panels on the heap *)

Lemma heap_get_Ok (h : gmap nat (gmap string value)) l c :
  heap_get h l = Ok c <-> h !! l = Some c.
Proof.
  unfold heap_get. destruct (h !! l); split; intros H; inversion H; done.
Qed.

(** A pass over the panels of one source leaves the other objects alone. *)
Lemma update_configs_notin self data locs :
  forall key (h h' : gmap nat (gmap string value)) (l : nat),
    l ∉ locs ->
    update_configs self data key locs h = Ok h' ->
    h' !! l = h !! l.
Proof.
  induction locs as [|l0 locs IH]; intros key h h' l Hl H; simpl in H.
  - by inversion H.
  - apply not_elem_of_cons in Hl as [Hne Hl].
    apply bind_Ok in H as (c & _ & H). apply bind_Ok in H as (c' & _ & H).
    rewrite (IH _ _ _ _ Hl H). by rewrite lookup_insert_ne.
Qed.


Lemma all_locs_cons (p : lpu_key * list nat) cfg :
  all_locs (p :: cfg) = snd p ++ all_locs cfg.
Proof. done. Qed.

Lemma elem_of_all_locs cfg (LPU : lpu_key) (locs : list nat) (l : nat) :
  (LPU, locs) ∈ cfg -> l ∈ locs -> l ∈ all_locs cfg.
Proof.
  induction cfg as [|p cfg IH]; intros Hin Hl.
  - by apply elem_of_nil in Hin.
  - rewrite all_locs_cons. apply elem_of_app.
    apply elem_of_cons in Hin as [<-|Hin]; [by left | right; by apply IH].
Qed.

Lemma update_all_notin self cfg :
  forall (h h' : gmap nat (gmap string value)) (l : nat),
    l ∉ all_locs cfg ->
    for_each cfg
      (fun p h => data ← get_data self (fst p);
                  update_configs self data (fst p) (snd p) h) h = Ok h' ->
    h' !! l = h !! l.
Proof.
  induction cfg as [|p cfg IH]; intros h h' l Hl H; simpl in H.
  - by inversion H.
  - rewrite all_locs_cons in Hl. apply not_elem_of_app in Hl as [Hl1 Hl2].
    apply bind_Ok in H as (h1 & H1 & H). apply bind_Ok in H1 as (data & _ & H1).
    rewrite (IH _ _ _ Hl2 H).
    exact (update_configs_notin _ _ _ _ _ _ _ Hl1 H1).
Qed.



(** ** Failures during a tick *)

Lemma for_each_id {A S} (l : list A) (body : A -> S -> result S) (s : S) :
  (forall x, x ∈ l -> body x s = Ok s) -> for_each l body s = Ok s.
Proof.
  induction l as [|x l IH]; intros H; simpl; [done|].
  rewrite H by (by left). simpl. apply IH. intros y Hy. apply H. by right.
Qed.

Lemma for_each_Err {A S} (l : list A) (body : A -> S -> result S) (x : A) :
  x ∈ l -> (forall s, exists e, body x s = Err e) ->
  forall s, exists e, for_each l body s = Err e.
Proof.
  induction l as [|y l IH]; intros Hin Hx s; [by apply elem_of_nil in Hin|].
  simpl. apply elem_of_cons in Hin as [<-|Hin].
  - destruct (Hx s) as [e ->]. eauto.
  - destruct (body y s) as [s'|e]; simpl; [by apply IH | eauto].
Qed.

Lemma elem_of_enumerate {A} (l : list A) (x : A) :
  x ∈ l -> exists j, (j, x) ∈ enumerate l.
Proof.
  intros (j & Hj)%list_elem_of_lookup. exists j.
  apply list_elem_of_lookup. exists j. unfold enumerate.
  rewrite lookup_zip_with, Hj.
  rewrite lookup_seq_lt by (by eapply lookup_lt_Some). done.
Qed.

Lemma np_index_ge (n idx : nat) :
  (n <= idx)%nat -> np_index n (Z.of_nat idx) = Err IndexError.
Proof.
  intros H. unfold np_index.
  destruct (0 <=? Z.of_nat idx) eqn:E1, (Z.of_nat idx <? Z.of_nat n) eqn:E2,
    (- Z.of_nat n <=? Z.of_nat idx) eqn:E3, (Z.of_nat idx <? 0) eqn:E4;
    simpl; try done; lia.
Qed.

Lemma np_rows_at_Err a g0 z t :
  z ∈ g0 -> np_index (shape0 a) z = Err IndexError ->
  exists e, np_rows_at a g0 t = Err e.
Proof.
  intros Hz Hi. unfold np_rows_at.
  destruct (map_result_Err _ _ _ _ Hz Hi) as [e ->]. simpl. eauto.
Qed.

Lemma np_rows_slice_Err a g0 z lo hi :
  z ∈ g0 -> np_index (shape0 a) z = Err IndexError ->
  exists e, np_rows_slice a g0 lo hi = Err e.
Proof.
  intros Hz Hi. unfold np_rows_slice.
  destruct (map_result_Err _ _ _ _ Hz Hi) as [e ->]. simpl. eauto.
Qed.

Lemma dict_get_Some (c : gmap string value) k v :
  c !! k = Some v -> dict_get c k = Ok v.
Proof. intros H. unfold dict_get. by rewrite H. Qed.

(** A panel that fetches its samples by row index fails when a selected
    channel is out of range, whatever [key] is bound to. *)
Lemma update_config_out_of_range self data key (c : gmap string value) k :
  c !! "type" = Some (VInt k) ->
  k ∈ [0; 1; 2; 3; 6] ->
  out_of_range_channel data c ->
  exists e, update_config self data key c = Err e.
Proof.
  intros Hty Hk (g0 & z & Hg & Hz & Hi).
  pose proof (fun t => np_rows_at_Err data g0 z t Hz Hi) as Hat.
  pose proof (fun lo hi => np_rows_slice_Err data g0 z lo hi Hz Hi) as Hsl.
  pose proof Hg as Hg'. unfold ids_group in Hg'.
  apply bind_Ok in Hg' as (ids & Hids & Hg').
  apply bind_Ok in Hg' as (g & Hgi & Hgl).
  unfold update_config. rewrite (dict_get_Some _ _ _ Hty). simpl.
  repeat (apply elem_of_cons in Hk as [->|Hk]); [..|by apply elem_of_nil in Hk];
    simpl.
  - destruct (dict_get c "shape"); simpl; [|eauto].
    rewrite Hg. simpl. destruct (Hat (_t self)) as [e ->]. eauto.
  - destruct (dict_get c "shape"); simpl; [|eauto].
    rewrite Hg. simpl. destruct (Hat (_t self)) as [e ->]. eauto.
  - rewrite Hids. simpl.
    destruct (dict_get c "trans"); simpl; [|eauto].
    destruct (dict_get c "handle"); simpl; [|eauto].
    rewrite Hg. simpl. destruct (Hat (_t self)) as [e ->]. eauto.
  - rewrite Hids. simpl. rewrite Hgi. simpl.
    destruct (py_len g); simpl; [|eauto].
    destruct (_ =? 1).
    + destruct (dict_get c "ydata"); simpl; [|eauto].
      destruct (as_pylist _); simpl; [|eauto].
      rewrite Hgl. simpl.
      destruct (get_interval self) as [s|]; simpl; [|eauto].
      destruct (Hsl (Z.max 0 (_t self - s)) (_t self)) as [e ->]. eauto.
    + destruct (dict_get c "handle"); simpl; [|eauto].
      rewrite Hgl. simpl. destruct (Hat (_t self)) as [e ->]. eauto.
  - rewrite Hg. simpl. destruct (Hat (_t self)) as [e ->]. eauto.
Qed.

Lemma raster_row_skip self data key j id :
  id_to_idx self key id = None -> raster_row self data key j id = Ok [].
Proof. intros H. unfold raster_row. by rewrite H. Qed.

Lemma raster_row_out_of_range self data key j id idx s :
  id_to_idx self key id = Some idx ->
  (shape0 data <= idx)%nat ->
  _update_interval self = Some s ->
  raster_row self data key j id = Err IndexError.
Proof.
  intros H Hge Hs. unfold raster_row, get_interval, np_row_slice.
  rewrite H, Hs. simpl. by rewrite np_index_ge.
Qed.

(** An image panel over a row the source does not have: the first draw
    fails already. *)
Example image_out_of_range_run :
  run (the __init__ (engine_with image_out_of_range_config (Some 1)))
  = Err IndexError.
Proof. vm_compute. reflexivity. Qed.

(** C9, as the claim has it, fails: the raster panel selects identifier 7,
    which the IndexMap does not resolve, and the run completes all three
    ticks, drawing no mark for it. *)
Lemma tick_failures_counterexample :
  id_to_idx raster_absent_engine (LStr "lamina") (VInt 7) = None /\
  match run raster_absent_engine with
  | Ok self' =>
      canvas_draws self' = [2; 3; 4] /\
      exists c, heap self' !! 1%nat = Some c /\
        ids_group c 0 = Ok [7] /\
        c !! "handle"
        = Some (VHandle (Axes (0%Q, 4%Q) [(0%Q, 0%Q, (1 # 100)%Q)]))
  | Err _ => False
  end.
Proof.
  split; [vm_compute; reflexivity|].
  vm_compute. split; [reflexivity|]. eexists. repeat split; reflexivity.
Qed.

(** ** The rolling buffer of a waveform panel *)



Lemma init_configs_notin self LPU locs :
  forall (h h' : gmap nat (gmap string value)) (l : nat),
    l ∉ locs ->
    init_configs self LPU locs h = Ok h' ->
    h' !! l = h !! l.
Proof.
  unfold init_configs.
  induction locs as [|l0 locs IH]; intros h h' l Hl H; simpl in H.
  - by inversion H.
  - apply not_elem_of_cons in Hl as [Hne Hl].
    apply bind_Ok in H as (h1 & H1 & H).
    apply bind_Ok in H1 as (c & _ & H1). apply bind_Ok in H1 as (c' & _ & H1).
    inversion H1; subst h1. rewrite (IH _ _ _ Hl H).
    by rewrite lookup_insert_ne.
Qed.

Lemma init_configs_at self LPU locs :
  forall (h h' : gmap nat (gmap string value)) (l : nat) c,
    NoDup locs -> l ∈ locs -> h !! l = Some c ->
    init_configs self LPU locs h = Ok h' ->
    exists c', init_config self LPU c = Ok c' /\ h' !! l = Some c'.
Proof.
  induction locs as [|l0 locs IH]; intros h h' l c Hnd Hin Hl H.
  - by apply elem_of_nil in Hin.
  - apply NoDup_cons in Hnd as [Hl0 Hnd].
    unfold init_configs in H. simpl in H.
    apply bind_Ok in H as (h1 & H1 & H).
    apply bind_Ok in H1 as (c0 & Hc0 & H1).
    apply bind_Ok in H1 as (c0' & Hi & H1).
    inversion H1; subst h1; clear H1. apply heap_get_Ok in Hc0.
    apply elem_of_cons in Hin as [->|Hin].
    + assert (c0 = c) by congruence. subst c0.
      exists c0'. split; [done|].
      rewrite (init_configs_notin _ _ _ _ _ _ Hl0 H).
      by rewrite lookup_insert_eq.
    + assert (l <> l0) by (intros ->; by apply Hl0).
      eapply IH; [done | done | | exact H].
      by rewrite lookup_insert_ne.
Qed.

Lemma init_all_notin self cfg :
  forall (h h' : gmap nat (gmap string value)) (l : nat),
    l ∉ all_locs cfg ->
    for_each cfg (fun p h => init_configs self (fst p) (snd p) h) h = Ok h' ->
    h' !! l = h !! l.
Proof.
  induction cfg as [|p cfg IH]; intros h h' l Hl H; simpl in H.
  - by inversion H.
  - rewrite all_locs_cons in Hl. apply not_elem_of_app in Hl as [Hl1 Hl2].
    apply bind_Ok in H as (h1 & H1 & H).
    rewrite (IH _ _ _ Hl2 H).
    exact (init_configs_notin _ _ _ _ _ _ Hl1 H1).
Qed.

Lemma init_all_at self cfg :
  forall (h h' : gmap nat (gmap string value)) LPU locs (l : nat) c,
    NoDup (all_locs cfg) -> (LPU, locs) ∈ cfg -> l ∈ locs ->
    h !! l = Some c ->
    for_each cfg (fun p h => init_configs self (fst p) (snd p) h) h = Ok h' ->
    exists c', init_config self LPU c = Ok c' /\ h' !! l = Some c'.
Proof.
  induction cfg as [|p cfg IH]; intros h h' LPU locs l c Hnd Hin Hl Hc H.
  - by apply elem_of_nil in Hin.
  - rewrite all_locs_cons in Hnd.
    apply NoDup_app in Hnd as (Hnd1 & Hdisj & Hnd2).
    simpl in H. apply bind_Ok in H as (h1 & H1 & H).
    apply elem_of_cons in Hin as [<-|Hin]; simpl in *.
    + destruct (init_configs_at _ _ _ _ _ _ _ Hnd1 Hl Hc H1) as (c' & Hi & Hl').
      exists c'. split; [done|].
      rewrite (init_all_notin _ _ _ _ _ (Hdisj _ Hl) H). done.
    + assert (Hl2 : l ∈ all_locs cfg)
        by (by apply (elem_of_all_locs cfg LPU locs)).
      assert (Hl1 : l ∉ snd p) by (intros Hp; by apply (Hdisj _ Hp)).
      eapply IH; [done | exact Hin | done | | exact H].
      by rewrite (init_configs_notin _ _ _ _ _ _ Hl1 H1).
Qed.

(** The first draw, seen from one panel. *)
Lemma _initialize_panel self self1 LPU locs (l : nat) c :
  NoDup (all_locs (_config self)) ->
  (LPU, locs) ∈ _config self -> l ∈ locs ->
  heap self !! l = Some c ->
  _initialize self = Ok self1 ->
  exists c1,
    init_config self LPU c = Ok c1 /\
    heap self1 !! l = Some c1 /\
    self1 = with_heap (heap self1) self.
Proof.
  intros Hnd Hin Hl Hc H. unfold _initialize in H.
  apply bind_Ok in H as (h & Hh & H). inversion H; subst self1; clear H.
  destruct (init_all_at _ _ _ _ _ _ _ _ Hnd Hin Hl Hc Hh) as (c1 & Hi & Hl').
  exists c1. simpl. done.
Qed.






Lemma add_plot_preserves_caller_witness :
  heap (raster_engine None) !! 0%nat
  = heap (lamina_source raster_config None) !! 0%nat /\
  heap (raster_engine None) !! 0%nat = Some raster_config.
Proof.
  destruct (add_plot_preserves_caller 0%nat (LStr "lamina") [""] 0
              (lamina_source raster_config None) (raster_engine None))
    as [H _]; [vm_compute; reflexivity|].
  split; [exact H|]. vm_compute. reflexivity.
Defined.

(** * Further properties of the code *)

(** ** Registering sources *)

Lemma store_graph_frame LPU gexf_file graph self self1 :
  store_graph LPU gexf_file graph self = Ok self1 ->
  _data self1 = _data self /\ _maxt self1 = _maxt self /\
  _config self1 = _config self /\ heap self1 = heap self /\
  _id_to_data_idx self1 = _id_to_data_idx self /\
  _t self1 = _t self /\ _update_interval self1 = _update_interval self.
Proof.
  unfold store_graph.
  destruct gexf_file, (truthy_graph graph); intros H; inversion H; by subst.
Qed.

Lemma apply_window_shape0 a w a' :
  apply_window a w = Ok a' -> shape0 a' = shape0 a.
Proof.
  destruct w as [l|start stop step]; simpl; intros H;
    apply bind_Ok in H as (cols & _ & H); inversion H; by subst.
Qed.

(** What [add_LPU] changes: one entry of [_data], the bound, and for a
    measured source the topology and the IndexMap; never the panels, the
    cursor or the stride. *)
Lemma add_LPU_data data_file gexf_file LPU win is_input graph self self' :
  add_LPU data_file gexf_file LPU win is_input graph self = Ok self' ->
  exists LPU' a,
    _data self' = <[LPU' := a]> (_data self) /\
    _maxt self' = update_maxt (_maxt self) (Z.of_nat (shape1 a)) /\
    shape0 a = shape1 data_file /\
    _config self' = _config self /\ heap self' = heap self /\
    _t self' = _t self /\ _update_interval self' = _update_interval self.
Proof.
  unfold add_LPU. intros H.
  apply bind_Ok in H as ([LPU1 self1] & H1 & H).
  apply bind_Ok in H as (a & Ha & H). inversion H; subst self'; clear H.
  assert (Hf : _data self1 = _data self /\ _maxt self1 = _maxt self /\
               _config self1 = _config self /\ heap self1 = heap self /\
               _t self1 = _t self /\
               _update_interval self1 = _update_interval self).
  { destruct (_ && _) in H1.
    - apply bind_Ok in H1 as (s1 & Hs & H1).
      apply bind_Ok in H1 as (g & _ & H1). inversion H1; subst; simpl.
      apply store_graph_frame in Hs as (? & ? & ? & ? & _ & ? & ?). done.
    - apply bind_Ok in H1 as (s1 & Hs & H1). inversion H1; subst.
      apply store_graph_frame in Hs as (? & ? & ? & ? & _ & ? & ?). done. }
  destruct Hf as (Hd & Hm & Hc & Hh & Ht & Hi).
  eexists _, a. simpl. rewrite Hd, Hm. repeat split; try done.
  destruct win as [w|].
  - by rewrite (apply_window_shape0 _ _ _ Ha).
  - by inversion Ha.
Qed.

Lemma store_graph_both LPU (gexf : gmap Z node) graph self :
  truthy_graph graph = true ->
  store_graph LPU (Some gexf) graph self
  = Err (ValueError "gexf_file and graph cannot be set simultaneously").
Proof. intros H. unfold store_graph. by rewrite H. Qed.

(** X1: a source given both a topology file and a topology object (with at
    least one node) is refused with [ValueError], input source or not. *)
Theorem add_LPU_two_topologies data_file (gexf g : gmap Z node) LPU win
    is_input self :
  size g <> 0%nat ->
  add_LPU data_file (Some gexf) LPU win is_input (Some g) self
  = Err (ValueError "gexf_file and graph cannot be set simultaneously").
Proof.
  intros Hg.
  assert (Ht : truthy_graph (Some g) = true).
  { simpl. by destruct (size g). }
  unfold add_LPU. rewrite !store_graph_both by exact Ht.
  by destruct ((bool_decide (is_Some (Some gexf)) || truthy_graph (Some g))
               && negb is_input).
Qed.

Lemma add_LPU_two_topologies_witness :
  add_LPU file_4x3 (Some graph_5_2_9) (LStr "lamina") None true
    (Some graph_graded) __init__
  = Err (ValueError "gexf_file and graph cannot be set simultaneously").
Proof.
  apply add_LPU_two_topologies. vm_compute. discriminate.
Defined.

(** The key an input source is stored under. *)
Lemma input_key_truthy (x : string) : truthy_lpu (LStr ("input_" +:+ x)) = true.
Proof. reflexivity. Qed.

(** X2: a source added as input ([is_input], or no topology at all) is
    stored under ['input_' + name], or ['input_' + count] without a name;
    its matrix has one row per column of the file, and it gets no
    IndexMap. *)
Theorem add_LPU_input data_file gexf_file LPU win is_input graph self self' :
  is_input = true \/ (gexf_file = None /\ truthy_graph graph = false) ->
  add_LPU data_file gexf_file LPU win is_input graph self = Ok self' ->
  exists a,
    _data self'
    = <[LStr ("input_" +:+
              (if truthy_lpu LPU then str_lpu LPU
               else pretty (Z.of_nat (size (_data self))))) := a]>
        (_data self) /\
    shape0 a = shape1 data_file /\
    _id_to_data_idx self' = _id_to_data_idx self.
Proof.
  intros Hin H. unfold add_LPU in H.
  assert (Hc : (bool_decide (is_Some gexf_file) || truthy_graph graph)
               && negb is_input = false).
  { destruct Hin as [->|[-> ->]]; [by rewrite andb_false_r|].
    rewrite bool_decide_eq_false_2; [done|]. by intros [? ?]. }
  rewrite Hc in H.
  apply bind_Ok in H as ([LPU1 self1] & H1 & H).
  apply bind_Ok in H1 as (s1 & Hs & H1). inversion H1; subst LPU1 self1.
  clear H1. apply store_graph_frame in Hs as (Hd & _ & _ & _ & Hidx & _).
  apply bind_Ok in H as (a & Ha & H). inversion H; subst self'; clear H.
  exists a. simpl. rewrite Hd, Hidx.
  assert (Hs0 : shape0 a = shape1 data_file).
  { destruct win as [w|].
    - by rewrite (apply_window_shape0 _ _ _ Ha).
    - by inversion Ha. }
  destruct (truthy_lpu LPU); rewrite input_key_truthy; done.
Qed.

Lemma add_LPU_input_witness :
  exists a,
    _data (the __init__
             (add_LPU file_4x3 None (LStr "vision") None false None __init__))
    = <[LStr "input_vision" := a]> ∅ /\
    shape0 a = 3%nat /\
    _id_to_data_idx
      (the __init__
         (add_LPU file_4x3 None (LStr "vision") None false None __init__))
    = ∅.
Proof.
  apply (add_LPU_input file_4x3 None (LStr "vision") None false None __init__).
  - right. split; reflexivity.
  - vm_compute. reflexivity.
Defined.

(** The invariant [maxt_bounds] holds of a new visualizer. *)
Lemma maxt_bounds_init : maxt_bounds __init__.
Proof. reflexivity. Qed.

(** X4: as long as every source has at least one timestep, [add_LPU] keeps
    the time bound positive and no larger than the length of any source,
    so that the bound never points beyond the data. *)
Theorem add_LPU_maxt_bounds data_file gexf_file LPU win is_input graph
    self self' :
  maxt_bounds self ->
  add_LPU data_file gexf_file LPU win is_input graph self = Ok self' ->
  (forall k a, _data self' !! k = Some a -> (0 < shape1 a)%nat) ->
  maxt_bounds self'.
Proof.
  intros Hinv H Hpos.
  apply add_LPU_data in H as (LPU' & a & Hd & Hm & _).
  assert (Ha : (0 < shape1 a)%nat).
  { apply (Hpos LPU'). rewrite Hd. apply lookup_insert_eq. }
  unfold maxt_bounds in *. rewrite Hm, Hd.
  destruct (_maxt self) as [m|]; simpl.
  - destruct Hinv as [Hm0 Hb].
    destruct (m =? 0) eqn:E; [lia|]. split; [lia|].
    intros k a' Hk. destruct (decide (LPU' = k)) as [->|Hne].
    + rewrite lookup_insert_eq in Hk. inversion Hk; subst. lia.
    + rewrite lookup_insert_ne in Hk by done. specialize (Hb k a' Hk). lia.
  - rewrite Hinv. split; [lia|]. intros k a' Hk.
    destruct (decide (LPU' = k)) as [->|Hne].
    + rewrite lookup_insert_eq in Hk. inversion Hk; subst. lia.
    + rewrite lookup_insert_ne, lookup_empty in Hk by done. discriminate.
Qed.

Lemma add_LPU_maxt_bounds_witness :
  maxt_bounds (lamina_source raster_config (Some 1)).
Proof.
  apply (add_LPU_maxt_bounds file_4x3 (Some graph_5_2_9) (LStr "lamina") None
           false None
           (with_update_interval (Some 1)
              (with_heap (<[0%nat := raster_config]> ∅) __init__))).
  - reflexivity.
  - vm_compute. reflexivity.
  - intros k a Hk.
    assert (Hd : _data (lamina_source raster_config (Some 1))
                 = <[LStr "lamina" := np_transpose file_4x3]> ∅)
      by (vm_compute; reflexivity).
    rewrite Hd in Hk. destruct (decide (LStr "lamina" = k)) as [<-|Hne].
    + rewrite lookup_insert_eq in Hk. inversion Hk; subst. simpl. lia.
    + rewrite lookup_insert_ne, lookup_empty in Hk by done. discriminate.
Defined.

(** ** Adding panels *)

(** What [add_plot] changes: one new object on the heap and one more entry
    in the list of its source. *)
Lemma add_plot_heap config_dict LPU names shift self self' :
  add_plot config_dict LPU names shift self = Ok self' ->
  exists d c,
    heap self !! config_dict = Some d /\
    heap self' = <[fresh (dom (heap self)) := c]> (heap self) /\
    _config self' = config_append LPU (fresh (dom (heap self))) (_config self) /\
    _data self' = _data self /\ _maxt self' = _maxt self /\
    (d !! "ids" = None ->
       String.prefix "input" (str_lpu LPU) = true ->
       exists a, _data self !! LPU = Some a /\
         c !! "ids"
         = Some (VList [VList (map (fun i : nat => VInt (Z.of_nat i))
                                   (seq 0 (shape0 a)))])) /\
    (d !! "title" = None ->
       exists t, default_title LPU names = Ok t /\
                 c !! "title" = Some (VStr t)) /\
    (d !! "ids" = None ->
       String.prefix "input" (str_lpu LPU) = false ->
       exists ids, names_to_ids self LPU names shift = Ok ids /\
                   c !! "ids" = Some (VDict ids)).
Proof.
  unfold add_plot. intros H.
  destruct (heap self !! config_dict) as [d|] eqn:Hd; [|discriminate].
  simpl in H.
  apply bind_Ok in H as (c1 & Hc1 & H).
  apply bind_Ok in H as (c2 & Hc2 & H).
  inversion H; subst self'; clear H. simpl.
  exists d, c2. repeat split; try done.
  - intros Hids Hpre. rewrite Hids in Hc1.
    rewrite bool_decide_eq_false_2 in Hc1 by (by intros [? ?]).
    rewrite Hpre in Hc1.
    destruct (_data self !! LPU) as [a|]; [|discriminate].
    simpl in Hc1. inversion Hc1; subst c1; clear Hc1.
    exists a. split; [done|].
    destruct (bool_decide (is_Some (<["ids":=_]> d !! "title")));
      [inversion Hc2; subst; by rewrite lookup_insert_eq|].
    apply bind_Ok in Hc2 as (t & _ & Hc2). inversion Hc2; subst.
    rewrite lookup_insert_ne by done. by rewrite lookup_insert_eq.
  - intros Ht.
    assert (Ht1 : c1 !! "title" = None).
    { destruct (bool_decide (is_Some (d !! "ids")));
        [by inversion Hc1; subst|].
      destruct (String.prefix "input" (str_lpu LPU));
        apply bind_Ok in Hc1 as (x & _ & Hc1); inversion Hc1; subst;
        by rewrite lookup_insert_ne. }
    rewrite Ht1 in Hc2.
    rewrite bool_decide_eq_false_2 in Hc2 by (by intros [? ?]).
    apply bind_Ok in Hc2 as (t & Hdt & Hc2). inversion Hc2; subst.
    exists t. split; [done|]. by rewrite lookup_insert_eq.
  - intros Hids Hpre. rewrite Hids in Hc1.
    rewrite bool_decide_eq_false_2 in Hc1 by (by intros [? ?]).
    rewrite Hpre in Hc1.
    apply bind_Ok in Hc1 as (ids & Hn & Hc1). inversion Hc1; subst c1.
    exists ids. split; [done|].
    destruct (bool_decide (is_Some (<["ids":=_]> d !! "title")));
      [inversion Hc2; subst; by rewrite lookup_insert_eq|].
    apply bind_Ok in Hc2 as (t & _ & Hc2). inversion Hc2; subst.
    rewrite lookup_insert_ne by done. by rewrite lookup_insert_eq.
Qed.

Lemma all_locs_config_append (k : lpu_key) (l : nat) cfg :
  all_locs (config_append k l cfg) ≡ₚ l :: all_locs cfg.
Proof.
  induction cfg as [|[k' ls] cfg IH]; simpl; [done|].
  destruct (decide (k' = k)).
  - rewrite !all_locs_cons. simpl.
    rewrite <- app_assoc. simpl. by rewrite <- Permutation_middle.
  - rewrite !all_locs_cons. simpl. rewrite IH.
    by rewrite <- Permutation_middle.
Qed.

(** The invariant [panels_wf] holds of a new visualizer. *)
Lemma panels_wf_init : panels_wf __init__.
Proof.
  split; [constructor|]. intros l Hl. by apply elem_of_nil in Hl.
Qed.

(** X5: [add_plot] keeps the stored configurations distinct objects of the
    heap: the configuration it stores is a new object, different from
    every panel stored before. *)
Theorem add_plot_panels_wf config_dict LPU names shift self self' :
  panels_wf self ->
  add_plot config_dict LPU names shift self = Ok self' ->
  panels_wf self' /\
  fresh (dom (heap self)) ∈ all_locs (_config self') /\
  fresh (dom (heap self)) ∉ all_locs (_config self).
Proof.
  intros [Hnd Halloc] H.
  apply add_plot_heap in H as (d & c & _ & Hh & Hc & _).
  set (l := fresh (dom (heap self))) in *.
  assert (Hl : heap self !! l = None).
  { apply not_elem_of_dom. apply is_fresh. }
  assert (Hnew : l ∉ all_locs (_config self)).
  { intros Hin. destruct (Halloc l Hin) as [x Hx]. congruence. }
  split; [|split; [|done]].
  - split.
    + rewrite Hc, all_locs_config_append. by apply NoDup_cons.
    + intros l' Hl'. rewrite Hc, all_locs_config_append in Hl'. rewrite Hh.
      apply elem_of_cons in Hl' as [->|Hl'].
      * rewrite lookup_insert_eq. eauto.
      * rewrite lookup_insert_ne by (intros <-; done). by apply Halloc.
  - rewrite Hc, all_locs_config_append. by left.
Qed.

Lemma add_plot_panels_wf_witness :
  panels_wf (raster_engine (Some 1)).
Proof.
  apply (add_plot_panels_wf 0%nat (LStr "lamina") [""] 0
           (lamina_source raster_config (Some 1))).
  - split; [vm_compute; constructor|].
    intros l Hl. vm_compute in Hl. by apply elem_of_nil in Hl.
  - vm_compute. reflexivity.
Defined.

Lemma after_first_input (x : string) :
  after_first "_"%char ("input_" +:+ x) = Ok x.
Proof. reflexivity. Qed.

(** X3: the prefix [add_LPU] puts before the name of an input source is
    taken off again by [add_plot]: a panel without a title and without
    names, on the source stored under ['input_' + name], is titled
    [name + ' - Input']. *)
Theorem add_plot_input_title config_dict (x : string) shift self self' d :
  heap self !! config_dict = Some d ->
  d !! "title" = None ->
  add_plot config_dict (LStr ("input_" +:+ x)) [""] shift self = Ok self' ->
  exists c,
    heap self' !! fresh (dom (heap self)) = Some c /\
    c !! "title" = Some (VStr (x +:+ " - Input")).
Proof.
  intros Hd Ht H.
  apply add_plot_heap in H as (d' & c & Hd' & Hh & _ & _ & _ & _ & Htitle & _).
  assert (d' = d) by congruence. subst d'.
  destruct (Htitle Ht) as (t & Hdt & Hct).
  exists c. split; [rewrite Hh; apply lookup_insert_eq|].
  rewrite Hct. unfold default_title in Hdt. simpl in Hdt.
  change ("" +:+ x) with x in Hdt.
  assert (String.prefix "" x = true) as Hp by (by destruct x).
  rewrite Hp in Hdt. inversion Hdt. reflexivity.
Qed.

Lemma add_plot_input_title_witness :
  exists c,
    heap input_engine !! 1%nat = Some c /\
    c !! "title" = Some (VStr "vision - Input").
Proof.
  destruct (add_plot_input_title 0%nat "vision" 0
              (the __init__
                 (add_LPU (blank_file 4 1) None (LStr "vision") None false
                    None (with_heap (<[0%nat := ∅]> ∅) __init__)))
              input_engine ∅) as (c & Hc & Ht).
  - vm_compute. reflexivity.
  - reflexivity.
  - vm_compute. reflexivity.
  - exists c. split; [|exact Ht].
    vm_compute in Hc. vm_compute. exact Hc.
Defined.

Lemma as_index_list_ints (l : list Z) :
  as_index_list (VList (map VInt l)) = Ok l.
Proof.
  simpl. induction l as [|z l IH]; simpl; [done|]. by rewrite IH.
Qed.

(** X6: on an input source, a panel added without ['ids'] selects every
    row of the source, in order; if no data is stored under that name the
    call raises [KeyError]. *)
Theorem add_plot_input_channels config_dict LPU names shift self d :
  heap self !! config_dict = Some d ->
  d !! "ids" = None ->
  String.prefix "input" (str_lpu LPU) = true ->
  (_data self !! LPU = None ->
     add_plot config_dict LPU names shift self = Err KeyError) /\
  (forall self',
     add_plot config_dict LPU names shift self = Ok self' ->
     exists a c,
       _data self !! LPU = Some a /\
       heap self' !! fresh (dom (heap self)) = Some c /\
       assert_len_ids c 1 = Ok () /\
       ids_group c 0 = Ok (map Z.of_nat (seq 0 (shape0 a)))).
Proof.
  intros Hd Hids Hpre. split.
  - intros Hnone. unfold add_plot. rewrite Hd. simpl. rewrite Hids.
    rewrite bool_decide_eq_false_2 by (by intros [? ?]).
    by rewrite Hpre, Hnone.
  - intros self' H.
    apply add_plot_heap in H as (d' & c & Hd' & Hh & _ & _ & _ & Hin & _).
    assert (d' = d) by congruence. subst d'.
    destruct (Hin Hids Hpre) as (a & Ha & Hc).
    exists a, c. split; [done|]. split; [rewrite Hh; apply lookup_insert_eq|].
    unfold assert_len_ids, ids_group. rewrite (dict_get_Some _ _ _ Hc).
    split; [done|]. simpl.
    rewrite <- (as_index_list_ints (map Z.of_nat (seq 0 (shape0 a)))).
    by rewrite map_map.
Qed.

Lemma add_plot_input_channels_witness :
  exists a c,
    _data (the __init__
             (add_LPU (blank_file 4 1) None (LStr "vision") None false None
                (with_heap (<[0%nat := ∅]> ∅) __init__)))
    !! LStr "input_vision" = Some a /\
    heap input_engine
    !! fresh (dom (heap (the __init__
                           (add_LPU (blank_file 4 1) None (LStr "vision") None
                              false None
                              (with_heap (<[0%nat := ∅]> ∅) __init__)))))
    = Some c /\
    assert_len_ids c 1 = Ok () /\
    ids_group c 0 = Ok (map Z.of_nat (seq 0 (shape0 a))).
Proof.
  destruct (add_plot_input_channels 0%nat (LStr "input_vision") [""] 0
              (the __init__
                 (add_LPU (blank_file 4 1) None (LStr "vision") None false
                    None (with_heap (<[0%nat := ∅]> ∅) __init__)))
              ∅) as [_ H].
  - vm_compute. reflexivity.
  - reflexivity.
  - reflexivity.
  - apply (H input_engine). vm_compute. reflexivity.
Defined.

(** ** Selecting neurons by name *)

Lemma map_result_Ok_map {A B} (f : A -> result B) (g : A -> B) (l : list A) :
  (forall x, x ∈ l -> f x = Ok (g x)) -> map_result f l = Ok (map g l).
Proof.
  induction l as [|x l IH]; intros H; simpl; [done|].
  rewrite H by (by left). simpl.
  rewrite IH by (intros y Hy; apply H; by right). done.
Qed.

Lemma map_result_Err_inv {A B} (f : A -> result B) (l : list A) (e : exn) :
  map_result f l = Err e -> exists x, x ∈ l /\ f x = Err e.
Proof.
  induction l as [|x l IH]; simpl; [discriminate|].
  destruct (f x) as [y|e'] eqn:Hx; simpl.
  - destruct (map_result f l) as [ys|e'']; simpl; [discriminate|].
    intros [= <-]. destruct (IH eq_refl) as (z & Hz & Hfz).
    exists z. split; [by right | done].
  - intros [= <-]. exists x. split; [by left | done].
Qed.

(** Filtering an ascending list of numbered names keeps it ascending. *)
Lemma ids_for_name_filter (g : gmap Z node) shift nm (ns : list nat)
    (nameof : nat -> string) :
  StronglySorted lt ns ->
  let l := map (fun p : Z * string => fst p - shift)
             (filter (fun p : Z * string => String.eqb (snd p) nm)
                (map (fun i : nat => (Z.of_nat i, nameof i)) ns)) in
  StronglySorted Z.lt l /\
  forall z, z ∈ l <->
    exists i : nat, i ∈ ns /\ nameof i = nm /\ z = Z.of_nat i - shift.
Proof.
  induction 1 as [|i ns Hs IH Hall]; simpl.
  - split; [constructor|]. intros z. split.
    + intros Hz. by apply elem_of_nil in Hz.
    + intros (i & Hi & _). by apply elem_of_nil in Hi.
  - destruct IH as [IHs IHm]. rewrite filter_cons. simpl.
    destruct (decide (String.eqb (nameof i) nm)) as [Hn|Hn].
    + simpl. split.
      * constructor; [done|]. apply Forall_forall. intros z Hz.
        apply IHm in Hz as (j & Hj & _ & ->).
        rewrite Forall_forall in Hall. specialize (Hall j Hj). lia.
      * intros z. rewrite elem_of_cons, IHm. split.
        -- intros [->|(j & Hj & Hnj & ->)].
           ++ exists i. split; [by left|]. split; [|done].
              apply String.eqb_eq. by destruct (String.eqb (nameof i) nm).
           ++ exists j. split; [by right | done].
        -- intros (j & Hj & Hnj & ->).
           apply elem_of_cons in Hj as [->|Hj]; [by left|].
           right. by exists j.
    + split; [done|]. intros z. rewrite IHm. split.
      * intros (j & Hj & Hnj & ->). exists j. split; [by right | done].
      * intros (j & Hj & Hnj & ->).
        apply elem_of_cons in Hj as [->|Hj]; [|by exists j].
        exfalso. apply Hn. rewrite Hnj. by rewrite String.eqb_refl.
Qed.

Lemma seq_StronglySorted (j n : nat) : StronglySorted lt (seq j n).
Proof.
  revert j. induction n as [|n IH]; intros j; simpl; constructor; [done|].
  apply Forall_forall. intros k Hk. apply elem_of_seq in Hk. lia.
Qed.

(** X7: when the nodes of the topology are numbered 0 .. n-1 and all have a
    name, the identifiers selected for a name are exactly the numbers of
    the nodes with that name, each lowered by [shift], in strictly
    ascending order. *)
Theorem ids_for_name_spec (g : gmap Z node) shift nm :
  (forall i : nat, (i < size g)%nat ->
     exists nd n, g !! Z.of_nat i = Some nd /\ name nd = Some n) ->
  exists l : list Z,
    ids_for_name g shift nm = Ok (map VInt l) /\
    StronglySorted Z.lt l /\
    forall z, z ∈ l <->
      exists (i : nat) nd,
        (i < size g)%nat /\ g !! Z.of_nat i = Some nd /\
        name nd = Some nm /\ z = Z.of_nat i - shift.
Proof.
  intros Hg.
  set (nameof := fun i : nat =>
         default "" (nd ← g !! Z.of_nat i; name nd)).
  destruct (ids_for_name_filter g shift nm (seq 0 (size g)) nameof
              (seq_StronglySorted 0 (size g))) as [Hs Hm].
  eexists. split; [|split; [exact Hs|]].
  - unfold ids_for_name.
    rewrite (map_result_Ok_map _ (fun i : nat => (Z.of_nat i, nameof i))).
    + simpl. by rewrite map_map.
    + intros i Hi. apply elem_of_seq in Hi.
      destruct (Hg i ltac:(lia)) as (nd & n & Hnd & Hn).
      unfold nameof. rewrite Hnd. simpl. by rewrite Hn.
  - intros z. rewrite Hm. split.
    + intros (i & Hi & Hn & ->). apply elem_of_seq in Hi.
      destruct (Hg i ltac:(lia)) as (nd & n & Hnd & Hnn).
      exists i, nd. split; [lia|]. split; [done|]. split; [|done].
      unfold nameof in Hn. rewrite Hnd in Hn. simpl in Hn.
      rewrite Hnn in Hn. simpl in Hn. by subst.
    + intros (i & nd & Hi & Hnd & Hn & ->). exists i.
      split; [apply elem_of_seq; lia|]. split; [|done].
      unfold nameof. rewrite Hnd. simpl. by rewrite Hn.
Qed.

Lemma ids_for_name_spec_witness :
  exists l : list Z,
    ids_for_name graph_named 0 "R1" = Ok (map VInt l) /\
    StronglySorted Z.lt l /\
    forall z, z ∈ l <->
      exists (i : nat) nd,
        (i < size graph_named)%nat /\ graph_named !! Z.of_nat i = Some nd /\
        name nd = Some "R1" /\ z = Z.of_nat i - 0.
Proof.
  apply (ids_for_name_spec graph_named 0 "R1").
  intros i Hi.
  assert (Hsz : size graph_named = 3%nat) by (vm_compute; reflexivity).
  rewrite Hsz in Hi.
  destruct i as [|[|[|i]]]; [| | |lia];
    eexists _, _; vm_compute; split; reflexivity.
Defined.

Example ids_for_name_R1 :
  ids_for_name graph_named 0 "R1" = Ok [VInt 0; VInt 2] /\
  ids_for_name graph_named 1 "L1" = Ok [VInt 0].
Proof. split; vm_compute; reflexivity. Qed.

(** The lookups of the inner loop raise nothing but [KeyError]. *)
Lemma ids_for_name_gap (g : gmap Z node) shift nm (i : nat) :
  (i < size g)%nat ->
  g !! Z.of_nat i = None \/
  (exists nd, g !! Z.of_nat i = Some nd /\ name nd = None) ->
  ids_for_name g shift nm = Err KeyError.
Proof.
  intros Hi Hbad. unfold ids_for_name.
  set (f := fun id : nat =>
         nd ← match g !! Z.of_nat id with
              | Some nd => Ok nd
              | None => raise KeyError
              end;
         n ← match name nd with
             | Some n => Ok n
             | None => raise KeyError
             end;
         Ok (Z.of_nat id, n)).
  assert (Hfi : f i = Err KeyError).
  { unfold f. destruct Hbad as [->|(nd & -> & Hn)]; simpl; [done|].
    by rewrite Hn. }
  assert (Hin : i ∈ seq 0 (size g)) by (apply elem_of_seq; lia).
  destruct (map_result_Err f _ _ _ Hin Hfi) as [e He].
  assert (e = KeyError).
  { apply map_result_Err_inv in He as (j & _ & Hj). unfold f in Hj.
    destruct (g !! Z.of_nat j) as [nd|]; simpl in Hj; [|by inversion Hj].
    destruct (name nd); simpl in Hj; by inversion Hj. }
  subst e. fold f. by rewrite He.
Qed.

(** X8: selecting by name needs the nodes to be numbered 0 .. n-1 and
    named: if one of these numbers is no node of the topology, or its node
    has no name, or the source has no topology at all, [add_plot] raises
    [KeyError]. *)
Theorem add_plot_by_name_gap config_dict LPU nm names shift self d :
  heap self !! config_dict = Some d ->
  d !! "ids" = None ->
  String.prefix "input" (str_lpu LPU) = false ->
  (_graph self !! LPU = None \/
   exists g (i : nat),
     _graph self !! LPU = Some g /\ (i < size g)%nat /\
     (g !! Z.of_nat i = None \/
      exists nd, g !! Z.of_nat i = Some nd /\ name nd = None)) ->
  add_plot config_dict LPU (nm :: names) shift self = Err KeyError.
Proof.
  intros Hd Hids Hpre Hbad. unfold add_plot. rewrite Hd. simpl. rewrite Hids.
  rewrite bool_decide_eq_false_2 by (by intros [? ?]).
  rewrite Hpre. unfold names_to_ids, enumerate. simpl.
  destruct Hbad as [->|(g & i & -> & Hi & Hgap)]; simpl; [done|].
  by rewrite (ids_for_name_gap g shift nm i Hi Hgap).
Qed.

Lemma add_plot_by_name_gap_witness :
  add_plot 0%nat (LStr "lamina") ["R1"] 0 (named_source graph_gap)
  = Err KeyError.
Proof.
  apply (add_plot_by_name_gap 0%nat (LStr "lamina") "R1" [] 0
           (named_source graph_gap) (<["type" := VStr "raster"]> ∅)).
  - vm_compute. reflexivity.
  - reflexivity.
  - reflexivity.
  - right. exists graph_gap, 1%nat. split; [vm_compute; reflexivity|].
    split; [vm_compute; lia|]. left. vm_compute. reflexivity.
Defined.

(** ** [add_plot] of the older file *)

(** X20: in the older file a panel added without ['ids'] on an input source
    counts the channels of [self._data['input']], while [add_LPU] stores
    input sources under ['input_' + name]: registering an input source
    creates no entry ['input'], and without one the call raises
    [KeyError]. *)
Theorem add_plot_sibling_input config_dict LPU names shift self d :
  heap self !! config_dict = Some d ->
  d !! "ids" = None ->
  String.prefix "input" (str_lpu LPU) = true ->
  (_data self !! LStr "input" = None ->
     add_plot_sibling config_dict LPU names shift self = Err KeyError) /\
  (forall data_file LPU0 win self0,
     add_LPU_sibling data_file None LPU0 win self0 = Ok self ->
     _data self0 !! LStr "input" = None ->
     _data self !! LStr "input" = None).
Proof.
  intros Hd Hids Hpre. split.
  - intros Hnone. unfold add_plot_sibling. rewrite Hd. simpl. rewrite Hids.
    rewrite bool_decide_eq_false_2 by (by intros [? ?]).
    by rewrite Hpre, Hnone.
  - intros data_file LPU0 win self0 H Hnone. unfold add_LPU_sibling in H.
    destruct (truthy_lpu LPU0);
      rewrite input_key_truthy in H;
      apply bind_Ok in H as (a & _ & H); inversion H; subst self; simpl;
      rewrite lookup_insert_ne; try done; intros Heq; inversion Heq.
Qed.

Lemma add_plot_sibling_input_witness :
  add_plot_sibling 0%nat (LStr "input_vision") [""] 0
    (the __init__
       (add_LPU_sibling (blank_file 4 1) None (LStr "vision") None
          (with_heap (<[0%nat := ∅]> ∅) __init__)))
  = Err KeyError.
Proof.
  destruct (add_plot_sibling_input 0%nat (LStr "input_vision") [""] 0
              (the __init__
                 (add_LPU_sibling (blank_file 4 1) None (LStr "vision") None
                    (with_heap (<[0%nat := ∅]> ∅) __init__)))
              ∅) as [H _].
  - vm_compute. reflexivity.
  - reflexivity.
  - reflexivity.
  - apply H. vm_compute. reflexivity.
Defined.

(** ** The first pass over the panels *)

Ltac unbind H :=
  repeat (let x := fresh "x" in
          let Hx := fresh "Hx" in
          apply bind_Ok in H as (x & Hx & H)).

Lemma default_type_range self LPU (c : gmap string value) ty :
  default_type self LPU c = Ok ty -> ty = 2 \/ ty = 4.
Proof.
  unfold default_type.
  destruct (String.prefix _ _); [|intros H; inversion H; auto].
  intros H. unbind H. destruct (negb _); inversion H; auto.
Qed.

Ltac kind_case s k z :=
  destruct (String.eqb_spec s k) as [->|_];
  [let H := fresh "H" in
   let ty := fresh "ty" in
   let Ht := fresh "Ht" in
   intros H; unbind H; inversion H; exists z;
   split; [done|]; split; [lia|];
   intros ty Ht; inversion Ht; exists k; split; reflexivity|].

(** The kind becomes a number between 0 and 6: the position of the kind
    string in [plot_kinds], when the configuration names a kind. *)
Lemma resolve_type_Ok self LPU (c c1 : gmap string value) :
  resolve_type self LPU c = Ok c1 ->
  exists z, c1 = <["type" := VInt z]> c /\ 0 <= z <= 6 /\
    forall ty, c !! "type" = Some ty ->
      exists s, ty = VStr s /\ plot_kinds !! Z.to_nat z = Some s.
Proof.
  unfold resolve_type.
  destruct (c !! "type") as [ty|] eqn:Hty.
  - destruct ty as [| | | |s| | |]; simpl; try discriminate.
    kind_case s "quiver" 0. kind_case s "hsv" 1. kind_case s "image" 2.
    kind_case s "waveform" 3. kind_case s "raster" 4. kind_case s "rate" 5.
    kind_case s "dome" 6. discriminate.
  - intros H. unbind H. inversion H.
    apply default_type_range in Hx as [-> | ->]; eexists; (split; [done|]);
      (split; [lia|]); intros ty Ht; discriminate.
Qed.

Lemma infer_shape_Ok (c c1 : gmap string value) :
  infer_shape c = Ok c1 ->
  c1 = c \/ (c !! "shape" = None /\ exists s, c1 = <["shape" := s]> c).
Proof.
  unfold infer_shape. intros H. unbind H.
  destruct (_ <? 3); [|inversion H; auto].
  destruct (bool_decide _) eqn:Hs; [inversion H; auto|].
  unbind H. inversion H. right. split; [|eauto].
  apply bool_decide_eq_false in Hs.
  destruct (c !! "shape"); [exfalso; apply Hs; eauto|done].
Qed.

(** The first draw writes ['handle'], ['ydata'] and ['trans'] only. *)
Lemma first_draw_keys self LPU (c c1 : gmap string value) z :
  c !! "type" = Some (VInt z) -> 0 <= z <= 6 ->
  first_draw self LPU c = Ok c1 ->
  forall k, k <> "trans" -> k <> "handle" -> k <> "ydata" -> c1 !! k = c !! k.
Proof.
  intros Hty Hz H k Hk1 Hk2 Hk3. unfold first_draw in H.
  rewrite (dict_get_Some _ _ _ Hty) in H. simpl in H.
  assert (z = 0 \/ z = 1 \/ z = 2 \/ z = 3 \/ z = 4 \/ z = 5 \/ z = 6)
    as Hc by lia.
  destruct Hc as [->|[->|[->|[->|[->|[->| ->]]]]]]; simpl in H;
    try destruct (c !! "trans") as [tr|];
    repeat (unbind H;
            try match type of H with
                | (if ?b then _ else _) = _ => destruct b
                end);
    inversion H; subst; rewrite ?lookup_insert_ne by done; done.
Qed.

(** The three steps of one pass, seen from the configuration. *)
Lemma init_config_steps self LPU (c c1 : gmap string value) :
  init_config self LPU c = Ok c1 ->
  exists z c',
    0 <= z <= 6 /\
    (forall ty, c !! "type" = Some ty ->
       exists s, ty = VStr s /\ plot_kinds !! Z.to_nat z = Some s) /\
    c' !! "type" = Some (VInt z) /\
    (forall k, k <> "type" -> k <> "shape" -> c' !! k = c !! k) /\
    (forall v, c !! "shape" = Some v -> c' !! "shape" = Some v) /\
    first_draw self LPU c' = Ok c1.
Proof.
  unfold init_config. intros H.
  apply bind_Ok in H as (ca & Ha & H). apply bind_Ok in H as (cb & Hb & H).
  apply resolve_type_Ok in Ha as (z & -> & Hz & Hs).
  exists z, cb. split; [done|]. split; [done|].
  apply infer_shape_Ok in Hb as [->|(Hn & s & ->)].
  - split; [apply lookup_insert_eq|]. split; [|split; [|done]].
    + intros k Hk _. by rewrite lookup_insert_ne.
    + intros v Hv. by rewrite lookup_insert_ne.
  - split; [by rewrite lookup_insert_ne, lookup_insert_eq|].
    split; [|split; [|done]].
    + intros k Hk1 Hk2. by rewrite !lookup_insert_ne.
    + intros v Hv. rewrite lookup_insert_ne in Hn by done. congruence.
Qed.

(** X10: what the first pass does to a configuration: the kind becomes a
    number between 0 and 6 (the position of the kind string in the list of
    kinds, when one is given), a ['shape'] that is given is kept, and every
    key other than ['type'], ['shape'], ['trans'], ['handle'], ['ydata'],
    ['norm'] and ['positions'] keeps its value. *)
Theorem init_config_keeps self LPU (c c1 : gmap string value) :
  init_config self LPU c = Ok c1 ->
  (exists z, c1 !! "type" = Some (VInt z) /\ 0 <= z <= 6 /\
     forall ty, c !! "type" = Some ty ->
       exists s, ty = VStr s /\ plot_kinds !! Z.to_nat z = Some s) /\
  (forall v, c !! "shape" = Some v -> c1 !! "shape" = Some v) /\
  (forall k,
     k ∉ ["type"; "shape"; "trans"; "handle"; "ydata"; "norm"; "positions"] ->
     c1 !! k = c !! k).
Proof.
  intros H.
  apply init_config_steps in H as (z & c' & Hz & Hs & Hty & Hk & Hsh & Hd).
  pose proof (first_draw_keys _ _ _ _ _ Hty Hz Hd) as Hf.
  split; [|split].
  - exists z. split; [|done]. by rewrite Hf.
  - intros v Hv. rewrite Hf by done. by apply Hsh.
  - intros k Hnot.
    assert (k <> "type" /\ k <> "shape" /\ k <> "trans" /\ k <> "handle" /\
            k <> "ydata") as (? & ? & ? & ? & ?).
    { repeat split; intros ->; apply Hnot;
        repeat first [apply list_elem_of_here | apply list_elem_of_further]. }
    rewrite Hf by done. by apply Hk.
Qed.

Lemma init_config_keeps_witness :
  let c1 := the ∅ (init_config (lamina_source raster_config (Some 1))
                     (LStr "lamina") raster_config) in
  (exists z, c1 !! "type" = Some (VInt z) /\ 0 <= z <= 6 /\
     forall ty, raster_config !! "type" = Some ty ->
       exists s, ty = VStr s /\ plot_kinds !! Z.to_nat z = Some s) /\
  (forall v, raster_config !! "shape" = Some v -> c1 !! "shape" = Some v) /\
  (forall k,
     k ∉ ["type"; "shape"; "trans"; "handle"; "ydata"; "norm"; "positions"] ->
     c1 !! k = raster_config !! k).
Proof.
  intros c1.
  apply (init_config_keeps (lamina_source raster_config (Some 1))
           (LStr "lamina") raster_config c1).
  vm_compute. reflexivity.
Defined.

Lemma elem_of_all_locs_inv cfg (l : nat) :
  l ∈ all_locs cfg -> exists (LPU : lpu_key) locs, (LPU, locs) ∈ cfg /\ l ∈ locs.
Proof.
  induction cfg as [|[k ls] cfg IH]; [intros H; by apply elem_of_nil in H|].
  rewrite all_locs_cons. simpl. intros H. apply elem_of_app in H as [H|H].
  - exists k, ls. split; [left|done].
  - destruct (IH H) as (k' & ls' & ? & ?). exists k', ls'.
    split; [by right|done].
Qed.

(** Panels whose kind is a number already: the pass stops at the first. *)
Lemma init_all_typed self cfg (h : gmap nat (gmap string value)) :
  all_locs cfg <> [] ->
  (forall l, l ∈ all_locs cfg ->
     exists c z, h !! l = Some c /\ c !! "type" = Some (VInt z)) ->
  for_each cfg (fun p h => init_configs self (fst p) (snd p) h) h
  = Err (ValueError "Plot type not supported").
Proof.
  induction cfg as [|[k ls] cfg IH]; [done|].
  rewrite all_locs_cons. cbn [snd]. intros Hne Hty.
  destruct ls as [|l ls].
  - unfold init_configs at 1. cbn [for_each fst snd mbind result_bind].
    apply IH; [done|]. intros l Hl. by apply Hty.
  - destruct (Hty l) as (c & z & Hc & Hz); [by left|].
    unfold init_configs at 1. cbn [for_each fst snd].
    unfold heap_get. rewrite Hc. cbn [mbind result_bind].
    unfold init_config, resolve_type. by rewrite Hz.
Qed.

(** X9: the first pass replaces the kind string of every panel by its
    number and accepts strings only: once [_initialize] has succeeded on an
    engine with at least one panel, a second [_initialize] (a second [run])
    raises [ValueError]. *)
Theorem _initialize_twice self self1 :
  panels_wf self ->
  all_locs (_config self) <> [] ->
  _initialize self = Ok self1 ->
  _initialize self1 = Err (ValueError "Plot type not supported").
Proof.
  intros [Hnd Halloc] Hne H.
  assert (Hty : forall l, l ∈ all_locs (_config self) ->
            exists c z, heap self1 !! l = Some c /\
                        c !! "type" = Some (VInt z)).
  { intros l Hl. destruct (Halloc l Hl) as [c Hc].
    destruct (elem_of_all_locs_inv _ _ Hl) as (LPU & locs & Hin & Hll).
    destruct (_initialize_panel self self1 LPU locs l c Hnd Hin Hll Hc H)
      as (c1 & Hi & Hh1 & _).
    apply init_config_steps in Hi as (z & c' & Hz & _ & Hty & _ & _ & Hd).
    exists c1, z. split; [done|].
    by rewrite (first_draw_keys _ _ _ _ _ Hty Hz Hd). }
  destruct (_initialize_frame _ _ H) as [h Hh].
  unfold _initialize. subst self1. simpl in *.
  by rewrite (init_all_typed _ _ _ Hne Hty).
Qed.

Lemma _initialize_twice_witness :
  _initialize (the __init__ (_initialize (raster_engine (Some 1))))
  = Err (ValueError "Plot type not supported").
Proof.
  assert (Hl : all_locs (_config (raster_engine (Some 1))) = [1%nat])
    by (vm_compute; reflexivity).
  apply (_initialize_twice (raster_engine (Some 1))).
  - unfold panels_wf. rewrite Hl. split; [apply NoDup_singleton|].
    intros l Hin. apply elem_of_cons in Hin as [->|Hin];
      [|by apply elem_of_nil in Hin].
    vm_compute. eauto.
  - rewrite Hl. discriminate.
  - vm_compute. reflexivity.
Defined.

Lemma index_map_no_spiking (g : gmap Z node) :
  (forall i nd, g !! i = Some nd -> spiking nd = false) -> index_map g = ∅.
Proof.
  intros Hg. unfold index_map.
  assert (Hs : spiking_ids g = []).
  { destruct (spiking_ids g) as [|m l] eqn:E; [done|].
    assert (Hm : m ∈ spiking_ids g) by (rewrite E; left).
    apply spiking_ids_elem in Hm as (nd & Hnd & Hsp).
    rewrite (Hg _ _ Hnd) in Hsp. discriminate. }
  rewrite Hs. reflexivity.
Qed.

(** X16: a raster panel (by its ['type'], or by default on a source whose
    name does not start with 'input') needs the IndexMap of its source at
    the first draw: without one, as for every input source, [_initialize]
    raises [KeyError]; with the IndexMap of a topology without spiking
    neurons it raises the [ValueError] of [min] on an empty sequence. *)
Theorem raster_needs_index_map self LPU (c : gmap string value) ids g0 n :
  c !! "type" = Some (VStr "raster") \/
  (c !! "type" = None /\ String.prefix "input" (str_lpu LPU) = false) ->
  c !! "ids" = Some ids -> py_getitem ids 0 = Ok g0 -> py_len g0 = Ok n ->
  (_id_to_data_idx self !! LPU = None ->
     init_config self LPU c = Err KeyError) /\
  (forall g,
     _id_to_data_idx self !! LPU = Some (index_map g) ->
     (forall i nd, g !! i = Some nd -> spiking nd = false) ->
     init_config self LPU c
     = Err (ValueError "min() arg is an empty sequence")).
Proof.
  intros Hty Hids Hg0 Hn.
  assert (Hr : resolve_type self LPU c = Ok (<["type" := VInt 4]> c)).
  { unfold resolve_type. destruct Hty as [->|[-> Hpre]]; [done|].
    by rewrite (default_type_measured _ _ _ Hpre). }
  assert (Hi : infer_shape (<["type" := VInt 4]> c)
               = Ok (<["type" := VInt 4]> c)).
  { unfold infer_shape.
    by rewrite (dict_get_Some _ _ _ (lookup_insert_eq c "type" (VInt 4))). }
  assert (Hids' : (<["type" := VInt 4]> c) !! "ids" = Some ids)
    by (by rewrite lookup_insert_ne).
  unfold init_config. rewrite Hr. simpl. rewrite Hi. simpl.
  unfold first_draw.
  rewrite (dict_get_Some _ _ _ (lookup_insert_eq c "type" (VInt 4))). simpl.
  rewrite (dict_get_Some _ _ _ Hids'). simpl. rewrite Hg0. simpl.
  rewrite Hn. simpl. split.
  - by intros ->.
  - intros g -> Hg. by rewrite (index_map_no_spiking g Hg).
Qed.

Lemma raster_needs_index_map_witness :
  init_config graded_engine (LStr "lamina") ids_only
  = Err (ValueError "min() arg is an empty sequence").
Proof.
  destruct (raster_needs_index_map graded_engine (LStr "lamina") ids_only
              (VList [VList [VInt 0]]) (VList [VInt 0]) 1) as [_ H].
  - right. split; reflexivity.
  - reflexivity.
  - reflexivity.
  - reflexivity.
  - apply (H graph_graded); [vm_compute; reflexivity|].
    intros i nd Hnd. unfold graph_graded in Hnd.
    destruct (decide (i = 0)) as [->|Hne].
    + rewrite lookup_insert_eq in Hnd. by inversion Hnd.
    + rewrite lookup_insert_ne, lookup_empty in Hnd by done. discriminate.
Defined.

(** X17: a ['rate'] panel is accepted and never drawn: the first pass only
    replaces its kind by the number 5, reading no data and creating no
    handle, and a tick leaves the configuration as it is. *)
Theorem rate_panel_undrawn self LPU (c : gmap string value) :
  c !! "type" = Some (VStr "rate") ->
  init_config self LPU c = Ok (<["type" := VInt 5]> c) /\
  forall self' data key,
    update_config self' data key (<["type" := VInt 5]> c)
    = Ok (<["type" := VInt 5]> c).
Proof.
  intros Hty.
  pose proof (dict_get_Some _ _ _ (lookup_insert_eq c "type" (VInt 5))) as Hg.
  split.
  - unfold init_config, resolve_type. rewrite Hty. simpl.
    unfold infer_shape. rewrite Hg. simpl.
    unfold first_draw. by rewrite Hg.
  - intros self' data key. unfold update_config. by rewrite Hg.
Qed.

Lemma rate_panel_undrawn_witness :
  init_config __init__ (LStr "lamina") (<["type" := VStr "rate"]> ∅)
  = Ok (<["type" := VInt 5]> (<["type" := VStr "rate"]> ∅)) /\
  forall self' data key,
    update_config self' data key
      (<["type" := VInt 5]> (<["type" := VStr "rate"]> ∅))
    = Ok (<["type" := VInt 5]> (<["type" := VStr "rate"]> ∅)).
Proof.
  apply (rate_panel_undrawn __init__ (LStr "lamina")
           (<["type" := VStr "rate"]> ∅)).
  reflexivity.
Defined.

(** ** Default shapes and the grid of axes *)

(** X11: the shape computed for [n >= 1] channels has room for all of
    them and fewer than one row of [s0] cells to spare, it is no wider than
    it is tall, and it has exactly [n] cells (what [np.reshape] asks for)
    only when [s0] divides [n]. *)
Theorem shape_of_room (n : Z) :
  1 <= n ->
  exists s0 s1,
    shape_of n = Ok (s0, s1) /\
    n <= s0 * s1 < n + s0 /\
    1 <= s1 <= s0 /\
    (s0 * s1 = n <-> (s0 | n)).
Proof.
  intros Hn. unfold shape_of.
  destruct (ceil_sqrt_spec n Hn) as (Hs0 & Hlo & Hhi).
  destruct (ceil_div_spec n (ceil_sqrt n) Hs0) as (q & Hq & Hq1 & Hq2).
  rewrite Hq. simpl. exists (ceil_sqrt n), q. split; [done|].
  set (s0 := ceil_sqrt n) in *.
  split; [nia|]. split; [nia|]. split.
  - intros E. exists q. lia.
  - intros [k Hk]. assert (k = q) by nia. subst k. lia.
Qed.

Lemma shape_of_room_witness :
  exists s0 s1,
    shape_of 10 = Ok (s0, s1) /\
    10 <= s0 * s1 < 10 + s0 /\
    1 <= s1 <= s0 /\
    (s0 * s1 = 10 <-> (s0 | 10)).
Proof. apply (shape_of_room 10). lia. Defined.

Example shape_of_ten : shape_of 10 = Ok (4, 3).
Proof. reflexivity. Qed.

(** X12: the grid of axes.  With at least one panel the grid has a slot
    for every panel: the caller's [rows] and [cols] when their product is
    the number of panels, and otherwise [ceil(sqrt(num))] columns with fewer
    than one row of slots unused, which are the slots removed.  Without
    panels, a [rows * cols] other than 0 ends in [ZeroDivisionError]. *)
Theorem grid_shape_room (rows cols num : Z) :
  0 <= num ->
  (num = 0 -> rows * cols <> 0 ->
     grid_shape rows cols num = Err ZeroDivisionError) /\
  (1 <= num ->
     exists r c l,
       grid_shape rows cols num = Ok (r, c) /\
       num <= r * c /\
       (rows * cols = num -> r = rows /\ c = cols) /\
       (rows * cols <> num -> is_ceil_sqrt num c /\ r * c < num + c) /\
       unused_slots r c num = Ok l /\
       Z.of_nat (length l) = r * c - num).
Proof.
  intros H0. split.
  - intros -> Hne. unfold grid_shape.
    destruct (Z.eqb_spec (rows * cols) 0) as [E|_]; [done|]. reflexivity.
  - intros Hn.
    assert (Hslots : forall r c, num <= r * c ->
              exists l, unused_slots r c num = Ok l /\
                        Z.of_nat (length l) = r * c - num).
    { intros r c Hrc. unfold unused_slots, py_range. simpl.
      eexists. split; [reflexivity|].
      rewrite length_map, length_seq. unfold range_len. simpl.
      destruct (Z.ltb_spec num (r * c)); [|lia].
      rewrite Z.div_1_r. lia. }
    unfold grid_shape.
    destruct (Z.eqb_spec (rows * cols) num) as [E|E].
    + destruct (Hslots rows cols) as (l & Hl & Hlen); [lia|].
      exists rows, cols, l. repeat split; try done; lia.
    + destruct (ceil_sqrt_spec num Hn) as (Hc0 & Hlo & Hhi).
      destruct (ceil_div_spec num (ceil_sqrt num) Hc0) as (q & Hq & Hq1 & Hq2).
      rewrite Hq. simpl.
      destruct (Hslots q (ceil_sqrt num)) as (l & Hl & Hlen); [lia|].
      exists q, (ceil_sqrt num), l.
      split; [done|]. split; [lia|]. split; [done|].
      split; [|done]. intros _. split; [done|]. lia.
Qed.

Lemma grid_shape_room_witness :
  (5 = 0 -> 0 * 0 <> 0 -> grid_shape 0 0 5 = Err ZeroDivisionError) /\
  (1 <= 5 ->
     exists r c l,
       grid_shape 0 0 5 = Ok (r, c) /\
       5 <= r * c /\
       (0 * 0 = 5 -> r = 0 /\ c = 0) /\
       (0 * 0 <> 5 -> is_ceil_sqrt 5 c /\ r * c < 5 + c) /\
       unused_slots r c 5 = Ok l /\
       Z.of_nat (length l) = r * c - 5).
Proof. apply (grid_shape_room 0 0 5). lia. Defined.

Example grid_shape_five :
  grid_shape 0 0 5 = Ok (2, 3) /\ unused_slots 2 3 5 = Ok [5] /\
  grid_shape 2 2 0 = Err ZeroDivisionError.
Proof. repeat split. Qed.

(** ** What [run] leaves alone *)

Lemma _update_fields self self' :
  _update self = Ok self' ->
  _data self' = _data self /\ _graph self' = _graph self /\
  _id_to_data_idx self' = _id_to_data_idx self /\
  _maxt self' = _maxt self /\ _config self' = _config self /\
  _dt self' = _dt self.
Proof. intros H. by apply _update_frame in H as (h & s & _ & ->). Qed.

Lemma updates_fields {A} (ticks : list A) :
  forall self self',
    for_each ticks (fun _ st => _update st) self = Ok self' ->
    _data self' = _data self /\ _graph self' = _graph self /\
    _id_to_data_idx self' = _id_to_data_idx self /\
    _maxt self' = _maxt self /\ _config self' = _config self /\
    _dt self' = _dt self.
Proof.
  induction ticks as [|x ticks IH]; intros self self' H; simpl in H.
  - by inversion H.
  - apply bind_Ok in H as (self1 & H1 & H).
    apply IH in H as (-> & -> & -> & -> & -> & ->).
    by apply _update_fields.
Qed.

(** X14: [run] rewrites the panels, the stride and the cursor and nothing
    else: the sources, the topologies, the IndexMaps, the time bound and the
    list of panels are as before.  With a stride of at least 1 the cursor
    ends beyond the time bound. *)
Theorem run_frame self self' :
  run self = Ok self' ->
  _data self' = _data self /\ _graph self' = _graph self /\
  _id_to_data_idx self' = _id_to_data_idx self /\
  _maxt self' = _maxt self /\ _config self' = _config self /\
  _dt self' = _dt self /\
  forall s, effective_interval self = Ok s -> 1 <= s ->
    exists maxt,
      _maxt self = Some maxt /\
      _t self' = Z.of_nat (S (tick_count s maxt)) * s + 1 /\
      maxt < _t self'.
Proof.
  unfold run. intros H.
  apply bind_Ok in H as (self1 & Hi & H).
  apply _initialize_frame in Hi as [h ->].
  apply bind_Ok in H as (s & Hs & H).
  apply bind_Ok in H as (maxt & Hm & H).
  apply bind_Ok in H as (ticks & Ht & H).
  destruct (updates_fields _ _ _ H) as (-> & -> & -> & -> & -> & ->).
  simpl. repeat (split; [done|]).
  intros s' Hs' Hpos.
  assert (s' = s).
  { unfold effective_interval, get_maxt in *. simpl in Hs. congruence. }
  subst s'. exists maxt. unfold get_maxt in Hm. simpl in Hm.
  destruct (_maxt self) as [m|]; inversion Hm; subst m. split; [done|].
  destruct (updates_draws ticks
              (with_t (s + 1)
                 (with_update_interval (Some s) (with_heap h self)))
              self' s eq_refl H) as (_ & _ & Hcur & _).
  simpl in Hcur. rewrite (tick_points_pos s maxt Hpos) in Ht.
  inversion Ht; subst ticks. rewrite length_map, length_seq in Hcur.
  fold (tick_count s maxt) in Hcur.
  destruct (tick_count_bounds s maxt Hpos) as [_ Hb].
  split; lia.
Qed.

Lemma run_frame_witness :
  let self := raster_engine (Some 1) in
  let self' := the __init__ (run self) in
  _data self' = _data self /\ _graph self' = _graph self /\
  _id_to_data_idx self' = _id_to_data_idx self /\
  _maxt self' = _maxt self /\ _config self' = _config self /\
  _dt self' = _dt self /\
  forall s, effective_interval self = Ok s -> 1 <= s ->
    exists maxt,
      _maxt self = Some maxt /\
      _t self' = Z.of_nat (S (tick_count s maxt)) * s + 1 /\
      maxt < _t self'.
Proof.
  intros self self'. apply (run_frame self self').
  vm_compute. reflexivity.
Defined.

(** ** Sources without a name *)

(** X19: a measured source added without a name (a name that is false:
    [None], [''] or 0) has its topology and its IndexMap stored under that
    name, and its data under the number of sources registered before. *)
Theorem add_LPU_unnamed_measured data_file (g : gmap Z node) LPU win graph
    self self' :
  truthy_lpu LPU = false ->
  truthy_graph graph = false ->
  add_LPU data_file (Some g) LPU win false graph self = Ok self' ->
  _graph self' = <[LPU := g]> (_graph self) /\
  _id_to_data_idx self' = <[LPU := index_map g]> (_id_to_data_idx self) /\
  exists a,
    _data self' = <[LInt (Z.of_nat (size (_data self))) := a]> (_data self).
Proof.
  intros Hf Hg H. unfold add_LPU in H.
  rewrite bool_decide_eq_true_2 in H by eauto.
  cbn [orb andb negb] in H. unfold store_graph in H. rewrite Hg in H.
  cbn [mbind result_bind] in H.
  change (_graph (with_graph (<[LPU:=g]> (_graph self)) self))
    with (<[LPU:=g]> (_graph self)) in H.
  rewrite lookup_insert_eq in H. cbn [mbind result_bind] in H.
  rewrite Hf in H. apply bind_Ok in H as (a & _ & H).
  inversion H; subst self'. simpl. eauto.
Qed.

Lemma add_LPU_unnamed_measured_witness :
  let self' := the __init__
                 (add_LPU file_4x3 (Some graph_5_2_9) LNone None false None
                    __init__) in
  _graph self' = <[LNone := graph_5_2_9]> ∅ /\
  _id_to_data_idx self' = <[LNone := index_map graph_5_2_9]> ∅ /\
  exists a, _data self' = <[LInt 0 := a]> ∅.
Proof.
  intros self'.
  apply (add_LPU_unnamed_measured file_4x3 graph_5_2_9 LNone None None
           __init__ self').
  - reflexivity.
  - reflexivity.
  - vm_compute. reflexivity.
Defined.

(** ** Panels at a tick *)

Lemma dict_get_Ok (c : gmap string value) k v :
  dict_get c k = Ok v -> c !! k = Some v.
Proof. unfold dict_get. destruct (c !! k); intros H; by inversion H. Qed.

Ltac branch H :=
  repeat (unbind H;
          try match type of H with
              | (if ?b then _ else _) = _ => destruct b
              | match ?h with _ => _ end = _ => destruct h; try discriminate
              end).

Ltac dict_hyps :=
  repeat match goal with
         | H : dict_get _ _ = Ok _ |- _ => apply dict_get_Ok in H
         | H : <[_ := _]> _ !! _ = Some _ |- _ =>
             rewrite lookup_insert_ne in H by done
         end.

Ltac keys_tac :=
  let k := fresh "k" in
  intros k;
  repeat match goal with
         | |- context [<[?k0 := _]> _ !! k] =>
             destruct (decide (k0 = k)) as [<-|?];
             [rewrite lookup_insert_eq | rewrite lookup_insert_ne by done]
         end;
  split; intros; first [done | by eexists].

Lemma draw_vlines_keys (c c' : gmap string value) marks :
  draw_vlines c marks = Ok c' ->
  forall k, is_Some (c' !! k) <-> is_Some (c !! k).
Proof.
  unfold draw_vlines. destruct marks as [|m marks]; intros H.
  - by inversion H.
  - branch H. inversion H; subst. dict_hyps. keys_tac.
Qed.

Lemma raster_keys self data key (rows : list (nat * value)) :
  forall c c' : gmap string value,
    for_each rows
      (fun p c => marks ← raster_row self data key (fst p) (snd p);
                  draw_vlines c marks) c = Ok c' ->
    forall k, is_Some (c' !! k) <-> is_Some (c !! k).
Proof.
  induction rows as [|p rows IH]; intros c c' H k; simpl in H.
  - by inversion H.
  - apply bind_Ok in H as (c1 & H1 & H). apply bind_Ok in H1 as (marks & _ & H1).
    rewrite (IH _ _ H k). by apply (draw_vlines_keys _ _ _ H1).
Qed.

(** A tick neither adds a key to a configuration nor removes one. *)
Lemma update_config_dom self data key (c c' : gmap string value) :
  update_config self data key c = Ok c' ->
  forall k, is_Some (c' !! k) <-> is_Some (c !! k).
Proof.
  unfold update_config. intros H.
  branch H;
    first [ exact (raster_keys _ _ _ _ _ _ H)
          | inversion H; subst; dict_hyps; keys_tac ].
Qed.

(** The value the loop over the keys leaves in [key]. *)
Lemma update_config_last self data key (c c' : gmap string value) :
  update_config self data key c = Ok c' ->
  exists k, last (dict_keys c') = Some k /\ is_Some (c !! k).
Proof.
  intros H.
  assert (Hty : is_Some (c' !! "type")).
  { apply (update_config_dom _ _ _ _ _ H). unfold update_config in H.
    apply bind_Ok in H as (ty & Hty & _). apply dict_get_Ok in Hty. eauto. }
  destruct Hty as [ty Hty].
  destruct (last (dict_keys c')) as [k|] eqn:Hk.
  - exists k. split; [done|]. apply (update_config_dom _ _ _ _ _ H).
    apply last_Some_elem_of in Hk. unfold dict_keys in Hk.
    apply list_elem_of_fmap in Hk as ([k' v] & -> & Hin).
    apply elem_of_map_to_list in Hin. eauto.
  - exfalso. apply eq_None_not_Some in Hk. apply Hk. apply last_is_Some.
    unfold dict_keys. intros E. apply fmap_nil_inv in E.
    apply map_to_list_empty_iff in E. subst c'. by rewrite lookup_empty in Hty.
Qed.

Lemma draw_vlines_append (c c' : gmap string value) marks xlim vs :
  c !! "handle" = Some (VHandle (Axes xlim vs)) ->
  draw_vlines c marks = Ok c' ->
  c' = <["handle" := VHandle (Axes xlim (vs ++ marks))]> c.
Proof.
  intros Hh. unfold draw_vlines. destruct marks as [|m marks]; intros H.
  - inversion H; subst. by rewrite app_nil_r, insert_id.
  - rewrite (dict_get_Some _ _ _ Hh) in H. by inversion H.
Qed.

Lemma raster_marks_append self data key (rows : list (nat * value)) :
  forall (c c' : gmap string value) xlim vs,
    c !! "handle" = Some (VHandle (Axes xlim vs)) ->
    for_each rows
      (fun p c => marks ← raster_row self data key (fst p) (snd p);
                  draw_vlines c marks) c = Ok c' ->
    exists more, c' = <["handle" := VHandle (Axes xlim (vs ++ more))]> c.
Proof.
  induction rows as [|p rows IH]; intros c c' xlim vs Hh H; simpl in H.
  - inversion H; subst. exists []. by rewrite app_nil_r, insert_id.
  - apply bind_Ok in H as (c1 & H1 & H). apply bind_Ok in H1 as (marks & _ & H1).
    apply (draw_vlines_append _ _ _ _ _ Hh) in H1. subst c1.
    destruct (IH _ _ xlim (vs ++ marks) (lookup_insert_eq _ _ _) H)
      as [more ->].
    exists (marks ++ more). by rewrite insert_insert_eq, app_assoc.
Qed.

(** X18: a tick of a raster panel only adds marks: the marks drawn before
    are kept in their order, the limits of the axes and every other key of
    the configuration stay as they are. *)
Theorem raster_tick_appends self data key (c c' : gmap string value) xlim vs :
  c !! "type" = Some (VInt 4) ->
  c !! "handle" = Some (VHandle (Axes xlim vs)) ->
  update_config self data key c = Ok c' ->
  exists more, c' = <["handle" := VHandle (Axes xlim (vs ++ more))]> c.
Proof.
  intros Hty Hh H. unfold update_config in H.
  rewrite (dict_get_Some _ _ _ Hty) in H. simpl in H.
  unbind H. by apply (raster_marks_append _ _ _ _ _ _ _ _ Hh H).
Qed.

Lemma raster_tick_appends_witness :
  let self := two_raster_engine in
  let data := np_transpose file_4x3 in
  let c := default ∅ (heap self !! 1%nat) in
  exists more,
    the ∅ (update_config self data (LStr "lamina") c)
    = <["handle" :=
          VHandle (Axes (0%Q, Qmult (inject_Z 4) 1)
                     ([(0%Q, 0%Q, (1 # 100)%Q)] ++ more))]> c.
Proof.
  intros self data c.
  apply (raster_tick_appends self data (LStr "lamina") c).
  - vm_compute. reflexivity.
  - vm_compute. reflexivity.
  - vm_compute. reflexivity.
Defined.

(** A raster panel recomputed under a [key] that has no IndexMap: every
    lookup fails and is skipped. *)
Lemma raster_no_index self data key (c c' : gmap string value) :
  c !! "type" = Some (VInt 4) ->
  _id_to_data_idx self !! key = None ->
  update_config self data key c = Ok c' ->
  c' = c.
Proof.
  intros Hty Hidx H. unfold update_config in H.
  rewrite (dict_get_Some _ _ _ Hty) in H. simpl in H. unbind H.
  rewrite for_each_id in H; [by inversion H|].
  intros [j id] _. rewrite raster_row_skip; [done|].
  unfold id_to_idx. by rewrite Hidx.
Qed.

(** Two panels in a row in the list of one source: the second one is
    recomputed with [key] bound to a key of the first. *)
Lemma update_configs_next self data :
  forall pre key (h h' : gmap nat (gmap string value)) l1 l2 post c1 c2,
    NoDup (pre ++ l1 :: l2 :: post) ->
    h !! l1 = Some c1 -> h !! l2 = Some c2 ->
    update_configs self data key (pre ++ l1 :: l2 :: post) h = Ok h' ->
    exists k c2',
      is_Some (c1 !! k) /\
      update_config self data (LStr k) c2 = Ok c2' /\
      h' !! l2 = Some c2'.
Proof.
  induction pre as [|p pre IH];
    intros key h h' l1 l2 post c1 c2 Hnd H1 H2 H.
  - simpl in Hnd. apply NoDup_cons in Hnd as [Hn1 Hnd].
    apply NoDup_cons in Hnd as [Hn2 Hnd].
    assert (l1 <> l2) by (intros ->; apply Hn1; left).
    change ([] ++ l1 :: l2 :: post) with (l1 :: l2 :: post) in H.
    cbn [update_configs] in H.
    apply bind_Ok in H as (c & Hc & H). apply heap_get_Ok in Hc.
    assert (c = c1) by congruence. subst c.
    apply bind_Ok in H as (c1' & Hu1 & H).
    destruct (update_config_last _ _ _ _ _ Hu1) as (k & Hk & Hk1).
    rewrite Hk in H.
    apply bind_Ok in H as (c0 & Hc0 & H). apply heap_get_Ok in Hc0.
    rewrite lookup_insert_ne in Hc0 by done.
    assert (c0 = c2) by congruence. subst c0.
    apply bind_Ok in H as (c2' & Hu2 & H).
    exists k, c2'. split; [done|]. split; [done|].
    rewrite (update_configs_notin _ _ _ _ _ _ _ Hn2 H).
    by rewrite lookup_insert_eq.
  - change ((p :: pre) ++ l1 :: l2 :: post)
      with (p :: (pre ++ l1 :: l2 :: post)) in *.
    apply NoDup_cons in Hnd as [Hp Hnd].
    assert (p <> l1).
    { intros ->. apply Hp. apply elem_of_app. right. left. }
    assert (p <> l2).
    { intros ->. apply Hp. apply elem_of_app. right. right. left. }
    cbn [update_configs] in H.
    apply bind_Ok in H as (c & _ & H). apply bind_Ok in H as (c' & _ & H).
    eapply (IH _ _ _ _ _ _ c1 c2 Hnd); [| |exact H];
      by rewrite lookup_insert_ne.
Qed.

(** The pass over all sources, seen from the panels of one of them. *)
Lemma update_all_locs self cfg :
  forall (h h' : gmap nat (gmap string value)) LPU locs,
    NoDup (all_locs cfg) -> (LPU, locs) ∈ cfg ->
    for_each cfg
      (fun p h => data ← get_data self (fst p);
                  update_configs self data (fst p) (snd p) h) h = Ok h' ->
    exists data h1 h2,
      update_configs self data LPU locs h1 = Ok h2 /\
      NoDup locs /\
      forall l, l ∈ locs -> h1 !! l = h !! l /\ h' !! l = h2 !! l.
Proof.
  induction cfg as [|p cfg IH]; intros h h' LPU locs Hnd Hin H.
  - by apply elem_of_nil in Hin.
  - rewrite all_locs_cons in Hnd.
    apply NoDup_app in Hnd as (Hnd1 & Hdisj & Hnd2).
    simpl in H. apply bind_Ok in H as (h1 & H1 & H).
    apply bind_Ok in H1 as (data & Hdata & H1).
    apply elem_of_cons in Hin as [<-|Hin]; simpl in *.
    + exists data, h, h1. split; [done|]. split; [done|].
      intros l Hl. split; [done|].
      exact (update_all_notin _ _ _ _ _ (Hdisj _ Hl) H).
    + destruct (IH _ _ _ _ Hnd2 Hin H) as (d & ha & hb & Hu & Hn & Hl).
      exists d, ha, hb. split; [done|]. split; [done|].
      intros l Hll. destruct (Hl l Hll) as [Ha Hb]. split; [|done].
      rewrite Ha.
      refine (update_configs_notin _ _ _ _ _ _ l _ H1).
      intros Hp. apply (Hdisj _ Hp). by apply (elem_of_all_locs cfg LPU locs).
Qed.

(** X15: [_update] rebinds its loop variable [key] in the loop over the
    keys of each configuration.  A raster panel that is not the first panel
    of its source therefore looks its neurons up under a key of the panel
    before it; unless a source with an IndexMap has such a name, every
    lookup fails and the panel gets no marks: the tick leaves it as it
    is. *)
Theorem later_raster_panel_unmarked self self' LPU pre l1 l2 post
    (c1 c2 : gmap string value) :
  NoDup (all_locs (_config self)) ->
  (LPU, pre ++ l1 :: l2 :: post) ∈ _config self ->
  heap self !! l1 = Some c1 ->
  heap self !! l2 = Some c2 ->
  c2 !! "type" = Some (VInt 4) ->
  (forall k, is_Some (c1 !! k) -> _id_to_data_idx self !! LStr k = None) ->
  _update self = Ok self' ->
  heap self' !! l2 = Some c2.
Proof.
  intros Hnd Hin H1 H2 Hty Hnames H. unfold _update in H.
  apply bind_Ok in H as (h' & Hh & H).
  apply bind_Ok in H as (s & _ & H). inversion H; subst self'; clear H.
  simpl.
  destruct (update_all_locs _ _ _ _ _ _ Hnd Hin Hh)
    as (data & ha & hb & Hu & Hn & Hl).
  assert (Hl1 : l1 ∈ pre ++ l1 :: l2 :: post).
  { apply elem_of_app. right. left. }
  assert (Hl2 : l2 ∈ pre ++ l1 :: l2 :: post).
  { apply elem_of_app. right. right. left. }
  destruct (Hl l1 Hl1) as [Ha1 _]. destruct (Hl l2 Hl2) as [Ha2 Hb2].
  rewrite H1 in Ha1. rewrite H2 in Ha2.
  destruct (update_configs_next _ _ _ _ _ _ _ _ _ _ _ Hn Ha1 Ha2 Hu)
    as (k & c2' & Hk & Hu2 & Hh2).
  rewrite Hb2, Hh2.
  by rewrite (raster_no_index _ _ _ _ _ Hty (Hnames k Hk) Hu2).
Qed.

Lemma later_raster_panel_unmarked_witness :
  let self := two_raster_engine in
  heap (the __init__ (_update self)) !! 2%nat
  = Some (default ∅ (heap self !! 2%nat)).
Proof.
  intros self.
  assert (Hcfg : _config self = [(LStr "lamina", [1%nat; 2%nat])])
    by (vm_compute; reflexivity).
  apply (later_raster_panel_unmarked self (the __init__ (_update self))
           (LStr "lamina") [] 1%nat 2%nat []
           (default ∅ (heap self !! 1%nat))).
  - rewrite Hcfg. change (NoDup [1%nat; 2%nat]). apply NoDup_ListNoDup.
    repeat constructor; simpl; intuition discriminate.
  - rewrite Hcfg. left.
  - vm_compute. reflexivity.
  - vm_compute. reflexivity.
  - vm_compute. reflexivity.
  - intros k Hk.
    assert (Hidx : _id_to_data_idx self
                   = <[LStr "lamina" := index_map graph_5_2_9]> ∅)
      by (vm_compute; reflexivity).
    rewrite Hidx. destruct (decide (k = "lamina")) as [->|Hne].
    + exfalso. vm_compute in Hk. by destruct Hk.
    + rewrite lookup_insert_ne by congruence. apply lookup_empty.
  - vm_compute. reflexivity.
Defined.

(** The first panel of the same source does get its marks at that tick. *)
Example first_raster_panel_marked :
  let self := two_raster_engine in
  heap (the __init__ (_update self)) !! 1%nat <> heap self !! 1%nat /\
  heap self !! 1%nat = heap self !! 2%nat.
Proof.
  split; [|vm_compute; reflexivity].
  vm_compute. intros E. discriminate E.
Qed.

(** ** The frame writer *)







(** The number of plots counted by [_initialize] is the number of stored
    configurations. *)
Lemma num_plots_all_locs cfg : num_plots cfg = Z.of_nat (length (all_locs cfg)).
Proof.
  unfold num_plots.
  assert (Hg : forall acc,
            foldl (fun n (p : lpu_key * list nat) =>
                     n + Z.of_nat (length (snd p))) acc cfg
            = acc + Z.of_nat (length (all_locs cfg))).
  { induction cfg as [|p cfg IH]; intros acc; simpl; [lia|].
    rewrite IH, all_locs_cons, length_app. lia. }
  by rewrite Hg.
Qed.

(** ** Failures during a run *)

Lemma ids_group_insert (c : gmap string value) k v j :
  k <> "ids" -> ids_group (<[k := v]> c) j = ids_group c j.
Proof. intros H. unfold ids_group, dict_get. by rewrite lookup_insert_ne. Qed.

Lemma out_of_range_insert data (c : gmap string value) k v :
  k <> "ids" ->
  out_of_range_channel data c -> out_of_range_channel data (<[k := v]> c).
Proof.
  intros Hk (g0 & z & Hg & Hz & Hi). exists g0, z.
  by rewrite ids_group_insert.
Qed.

(** The first draw reads the rows the ticks read: it fails on a channel
    that is out of range. *)
Lemma first_draw_out_of_range self LPU data (c : gmap string value) k :
  c !! "type" = Some (VInt k) ->
  k ∈ [0; 1; 2; 3; 6] ->
  _data self !! LPU = Some data ->
  out_of_range_channel data c ->
  exists e, first_draw self LPU c = Err e.
Proof.
  intros Hty Hk Hdata (g0 & z & Hg & Hz & Hi).
  pose proof (fun t => np_rows_at_Err data g0 z t Hz Hi) as Hat.
  pose proof Hg as Hg'. unfold ids_group in Hg'.
  apply bind_Ok in Hg' as (ids & Hids & Hg').
  apply bind_Ok in Hg' as (g & Hgi & Hgl).
  unfold first_draw. rewrite (dict_get_Some _ _ _ Hty).
  unfold get_data. rewrite Hdata.
  repeat (apply elem_of_cons in Hk as [->|Hk]); [..|by apply elem_of_nil in Hk];
    simpl.
  - rewrite Hg. simpl. destruct (Hat 0) as [e ->]. eauto.
  - rewrite Hg. simpl. destruct (Hat 0) as [e ->]. eauto.
  - destruct (c !! "trans") as [tr|];
      rewrite ?ids_group_insert by done; rewrite Hg; simpl;
      destruct (Hat 0) as [e ->]; eauto.
  - rewrite Hids. simpl. rewrite Hgi. simpl.
    destruct (py_len g) as [n|] eqn:Hn; simpl; [|eauto].
    destruct (n =? 1) eqn:En.
    + apply Z.eqb_eq in En. subst n.
      destruct g as [| | | | |l| |]; try discriminate.
      destruct l as [|x [|y l]]; simpl in Hn; inversion Hn; try lia.
      destruct x as [| |z0| | | | |]; try discriminate.
      simpl in Hgl. inversion Hgl; subst g0.
      apply list_elem_of_singleton in Hz. subst z0.
      simpl. unfold np_item. rewrite Hi. simpl. eauto.
    + rewrite Hgl. simpl. destruct (Hat 0) as [e ->]. eauto.
  - rewrite Hg. simpl. destruct (Hat 0) as [e ->]. eauto.
Qed.

Lemma init_config_out_of_range self LPU data (c : gmap string value) s :
  c !! "type" = Some (VStr s) ->
  s ∈ ["quiver"; "hsv"; "image"; "waveform"; "dome"] ->
  _data self !! LPU = Some data ->
  out_of_range_channel data c ->
  exists e, init_config self LPU c = Err e.
Proof.
  intros Hty Hs Hdata Hoor. unfold init_config.
  destruct (resolve_type self LPU c) as [c1|e] eqn:Hr; [|simpl; eauto].
  apply resolve_type_Ok in Hr as (z & -> & Hz & Hkind).
  destruct (Hkind _ Hty) as (s' & Heq & Hpk). inversion Heq; subst s'.
  assert (Hzk : z ∈ [0; 1; 2; 3; 6]).
  { assert (z = 0 \/ z = 1 \/ z = 2 \/ z = 3 \/ z = 4 \/ z = 5 \/ z = 6)
      as Hc by lia.
    destruct Hc as [->|[->|[->|[->|[->|[->| ->]]]]]];
      try (repeat first [apply list_elem_of_here | apply list_elem_of_further]);
      exfalso; vm_compute in Hpk; inversion Hpk; subst s;
      repeat (apply elem_of_cons in Hs as [Hs|Hs]; [discriminate|]);
      by apply elem_of_nil in Hs. }
  cbn [mbind result_bind].
  destruct (infer_shape _) as [c2|e] eqn:Hi; [|eauto].
  cbn [mbind result_bind].
  apply infer_shape_Ok in Hi as [->|(_ & sh & ->)].
  - apply (first_draw_out_of_range _ _ data _ z);
      [apply lookup_insert_eq | done | done | by apply out_of_range_insert].
  - apply (first_draw_out_of_range _ _ data _ z);
      [by rewrite lookup_insert_ne, lookup_insert_eq | done | done |].
    apply out_of_range_insert; [done|]. by apply out_of_range_insert.
Qed.

(** A panel whose first draw fails makes the first pass fail, and [run]
    with it. *)
Lemma init_panel_fails self LPU locs (l : nat) (c : gmap string value) :
  NoDup (all_locs (_config self)) ->
  (LPU, locs) ∈ _config self -> l ∈ locs ->
  heap self !! l = Some c ->
  (exists e, init_config self LPU c = Err e) ->
  exists e, _initialize self = Err e /\ run self = Err e.
Proof.
  intros Hnd Hin Hl Hc [e He].
  destruct (_initialize self) as [self1|e'] eqn:Hinit.
  - destruct (_initialize_panel _ _ _ _ _ _ Hnd Hin Hl Hc Hinit)
      as (c1 & Hc1 & _). congruence.
  - exists e'. split; [done|]. unfold run. by rewrite Hinit.
Qed.

(** The first panel of a source is recomputed with [key] bound to the
    source. *)
Lemma update_all_first self cfg :
  forall (h h' : gmap nat (gmap string value)) LPU (l : nat) locs c,
    NoDup (all_locs cfg) -> (LPU, l :: locs) ∈ cfg ->
    h !! l = Some c ->
    for_each cfg
      (fun p h => data ← get_data self (fst p);
                  update_configs self data (fst p) (snd p) h) h = Ok h' ->
    exists data c',
      get_data self LPU = Ok data /\
      update_config self data LPU c = Ok c'.
Proof.
  induction cfg as [|p cfg IH]; intros h h' LPU l locs c Hnd Hin Hc H.
  - by apply elem_of_nil in Hin.
  - rewrite all_locs_cons in Hnd.
    apply NoDup_app in Hnd as (Hnd1 & Hdisj & Hnd2).
    simpl in H. apply bind_Ok in H as (h1 & H1 & H).
    apply bind_Ok in H1 as (data & Hdata & H1).
    apply elem_of_cons in Hin as [<-|Hin].
    + cbn [fst snd update_configs] in H1.
      apply bind_Ok in H1 as (c0 & Hc0 & H1). apply heap_get_Ok in Hc0.
      assert (c0 = c) by congruence. subst c0.
      apply bind_Ok in H1 as (c' & Hu & _). eauto.
    + assert (Hl : l ∈ all_locs cfg).
      { apply (elem_of_all_locs cfg LPU (l :: locs)); [done|left]. }
      assert (Hl1 : l ∉ snd p) by (intros Hp; by apply (Hdisj _ Hp)).
      eapply IH; [done | exact Hin | | exact H].
      by rewrite (update_configs_notin _ _ _ _ _ _ _ Hl1 H1).
Qed.

Lemma raster_row_marks self data key s j id idx :
  id_to_idx self key id = Some idx ->
  (idx < shape0 data)%nat ->
  _update_interval self = Some s ->
  raster_row self data key j id = Ok (row_marks self data s j idx).
Proof.
  intros H Hlt Hs. unfold raster_row, row_marks, get_interval, np_row_slice.
  rewrite H, Hs. simpl. by rewrite np_index_lt.
Qed.

(** The loop over the neurons of a raster panel, when no resolved index is
    out of range: the marks of the resolved neurons are appended. *)
Lemma raster_rows_marks self data key s (rows : list (nat * value)) :
  _update_interval self = Some s ->
  forall (c : gmap string value) xlim vs,
    c !! "handle" = Some (VHandle (Axes xlim vs)) ->
    (forall p idx, p ∈ rows -> id_to_idx self key (snd p) = Some idx ->
                   (idx < shape0 data)%nat) ->
    for_each rows
      (fun p c => marks ← raster_row self data key (fst p) (snd p);
                  draw_vlines c marks) c
    = Ok (<["handle" :=
              VHandle (Axes xlim
                (vs ++ concat
                   (map (fun p : nat * value =>
                           match id_to_idx self key (snd p) with
                           | Some idx => row_marks self data s (fst p) idx
                           | None => []
                           end) rows)))]> c).
Proof.
  intros Hs. induction rows as [|p rows IH]; intros c xlim vs Hh Hin.
  - simpl. by rewrite app_nil_r, insert_id.
  - cbn [for_each map concat].
    assert (Hrest : forall q idx, q ∈ rows ->
              id_to_idx self key (snd q) = Some idx -> (idx < shape0 data)%nat).
    { intros q idx Hq. apply Hin. by right. }
    destruct (id_to_idx self key (snd p)) as [idx|] eqn:Hid.
    + rewrite (raster_row_marks _ _ _ s _ _ idx Hid); [|by eapply Hin; [left|]|done].
      cbn [mbind result_bind].
      destruct (draw_vlines c (row_marks self data s (fst p) idx))
        as [c1|e] eqn:Hd.
      * apply (draw_vlines_append _ _ _ _ _ Hh) in Hd. subst c1.
        cbn [mbind result_bind].
        rewrite (IH _ xlim (vs ++ row_marks self data s (fst p) idx)
                   (lookup_insert_eq _ _ _) Hrest).
        by rewrite insert_insert_eq, app_assoc.
      * exfalso. unfold draw_vlines in Hd.
        rewrite (dict_get_Some _ _ _ Hh) in Hd.
        by destruct (row_marks self data s (fst p) idx).
    + rewrite (raster_row_skip _ _ _ _ _ Hid). cbn [mbind result_bind].
      cbn [draw_vlines]. cbn [mbind result_bind].
      by rewrite (IH _ xlim vs Hh Hrest).
Qed.

(** C9, as the code has it.  For a panel [c] of a source with samples
    [data].  A panel of a kind that fetches rows by index (vector field,
    hue-magnitude, image, waveform, dome) with an out-of-range channel
    index makes [run] fail, at the first draw already.  In the first raster
    panel of a source an identifier that the IndexMap resolves outside the
    rows of [data] makes the tick fail, and with it every loop of ticks that
    starts there.  In a raster panel whose resolved identifiers are all
    rows of [data], the identifiers the IndexMap does not resolve are passed
    over: the tick succeeds and adds the marks of the resolved ones only. *)
Theorem tick_failures self data LPU locs (l : nat) (c : gmap string value) :
  NoDup (all_locs (_config self)) ->
  (LPU, locs) ∈ _config self -> l ∈ locs ->
  heap self !! l = Some c ->
  _data self !! LPU = Some data ->
  (forall s, c !! "type" = Some (VStr s) ->
     s ∈ ["quiver"; "hsv"; "image"; "waveform"; "dome"] ->
     out_of_range_channel data c ->
     exists e, _initialize self = Err e /\ run self = Err e) /\
  (forall locs' ids g g0 id idx s,
     locs = l :: locs' ->
     c !! "type" = Some (VInt 4) ->
     c !! "ids" = Some ids -> py_getitem ids 0 = Ok g -> as_list g = Ok g0 ->
     id ∈ g0 -> id_to_idx self LPU id = Some idx ->
     (shape0 data <= idx)%nat -> _update_interval self = Some s ->
     exists e, _update self = Err e /\
       forall ticks : list Z,
         ticks <> [] -> for_each ticks (fun _ st => _update st) self = Err e) /\
  (forall key ids g g0 xlim vs s,
     c !! "type" = Some (VInt 4) ->
     c !! "ids" = Some ids -> py_getitem ids 0 = Ok g -> as_list g = Ok g0 ->
     c !! "handle" = Some (VHandle (Axes xlim vs)) ->
     _update_interval self = Some s ->
     (forall id idx, id ∈ g0 -> id_to_idx self key id = Some idx ->
                     (idx < shape0 data)%nat) ->
     update_config self data key c
     = Ok (<["handle" :=
               VHandle (Axes xlim (vs ++ raster_marks self data key s g0))]>
             c)).
Proof.
  intros Hnd Hin Hl Hc Hdata.
  assert (Hraster : forall key ids g g0,
            c !! "type" = Some (VInt 4) -> c !! "ids" = Some ids ->
            py_getitem ids 0 = Ok g -> as_list g = Ok g0 ->
            update_config self data key c
            = for_each (enumerate g0)
                (fun p c => marks ← raster_row self data key (fst p) (snd p);
                            draw_vlines c marks) c).
  { intros key ids g g0 Hty Hids Hg Hg0. unfold update_config.
    rewrite (dict_get_Some _ _ _ Hty). simpl.
    rewrite (dict_get_Some _ _ _ Hids). simpl. rewrite Hg. simpl.
    by rewrite Hg0. }
  split; [|split].
  - intros s Hty Hs Hoor.
    apply (init_panel_fails self LPU locs l c Hnd Hin Hl Hc).
    by apply (init_config_out_of_range self LPU data c s).
  - intros locs' ids g g0 id idx s -> Hty Hids Hg Hg0 Hid Hidx Hge Hs.
    assert (Herr : exists e, update_config self data LPU c = Err e).
    { rewrite (Hraster LPU ids g g0 Hty Hids Hg Hg0).
      destruct (elem_of_enumerate _ _ Hid) as [j Hj].
      apply (for_each_Err _ _ _ Hj). intros c0. simpl.
      rewrite (raster_row_out_of_range _ _ _ _ _ _ _ Hidx Hge Hs). eauto. }
    destruct (_update self) as [self'|e] eqn:Hu.
    + exfalso. unfold _update in Hu. apply bind_Ok in Hu as (h' & Hh & _).
      destruct (update_all_first _ _ _ _ _ _ _ _ Hnd Hin Hc Hh)
        as (data' & c' & Hd & Hc').
      unfold get_data in Hd. rewrite Hdata in Hd. inversion Hd; subst data'.
      destruct Herr as [e He]. congruence.
    + exists e. split; [done|]. intros [|x ticks] Hne; [done|].
      simpl. by rewrite Hu.
  - intros key ids g g0 xlim vs s Hty Hids Hg Hg0 Hh Hs Hrows.
    rewrite (Hraster key ids g g0 Hty Hids Hg Hg0). unfold raster_marks.
    apply (raster_rows_marks self data key s (enumerate g0) Hs c xlim vs Hh).
    intros [j id] idx Hp. apply elem_of_zip_r in Hp. by apply Hrows.
Qed.

Lemma tick_failures_witness :
  exists e, _update short_raster_engine = Err e /\
    forall ticks : list Z,
      ticks <> [] ->
      for_each ticks (fun _ st => _update st) short_raster_engine = Err e.
Proof.
  assert (Hcfg : _config short_raster_engine = [(LStr "lamina", [1%nat])])
    by (vm_compute; reflexivity).
  destruct (tick_failures short_raster_engine (np_transpose file_4x2)
              (LStr "lamina") [1%nat] 1%nat
              (default ∅ (heap short_raster_engine !! 1%nat)))
    as (_ & H & _).
  - rewrite Hcfg. apply NoDup_singleton.
  - rewrite Hcfg. apply list_elem_of_here.
  - apply list_elem_of_here.
  - vm_compute. reflexivity.
  - vm_compute. reflexivity.
  - apply (H [] (VList [VList [VInt 2; VInt 5; VInt 9]])
             (VList [VInt 2; VInt 5; VInt 9]) [VInt 2; VInt 5; VInt 9]
             (VInt 9) 2%nat 1).
    + reflexivity.
    + vm_compute. reflexivity.
    + vm_compute. reflexivity.
    + reflexivity.
    + reflexivity.
    + do 2 apply list_elem_of_further. apply list_elem_of_here.
    + vm_compute. reflexivity.
    + simpl. lia.
    + vm_compute. reflexivity.
Defined.

(** The short file: the first draw of the raster panel succeeds, the first
    tick fails on the row of identifier 9. *)
Example short_raster_run :
  (exists self1,
     _initialize (the __init__ (engine_of file_4x2 raster_config (Some 1)))
     = Ok self1) /\
  run (the __init__ (engine_of file_4x2 raster_config (Some 1)))
  = Err IndexError.
Proof. split; [eexists|]; vm_compute; reflexivity. Qed.

(** A float that equals an identifier finds it, as the integer does. *)
Example id_to_idx_float :
  id_to_idx (raster_engine (Some 1)) (LStr "lamina") (VFloat (inject_Z 9))
  = Some 2%nat /\
  id_to_idx (raster_engine (Some 1)) (LStr "lamina") (VInt 9) = Some 2%nat /\
  id_to_idx (raster_engine (Some 1)) (LStr "lamina") (VFloat (19 # 2)) = None.
Proof. vm_compute. done. Qed.

(** ** A video without an update interval *)

Lemma truthy_interval_false (i : option Z) :
  truthy_interval i = false -> i = None \/ i = Some 0.
Proof.
  destruct i as [z|]; [|by left]. simpl. intros H. right.
  destruct (Z.eqb_spec z 0); [by subst|discriminate].
Qed.

(** Without a writer and with an output file name, the loop of ticks does
    not get past its first pass. *)
Lemma updates_video_no_writer out_filename ticks st :
  truthy_name out_filename = true ->
  match updates_video out_filename None ticks st with
  | inr st' => ticks = [] /\ st' = st
  | inl (SinkError e) => e = NoWriterAttribute
  | inl (PanelError _) => True
  end.
Proof.
  intros Ho. destruct ticks as [|x ticks]; [done|].
  cbn [updates_video]. unfold update_video.
  destruct (for_each _ _ _); [|done].
  unfold sink_update. by rewrite Ho.
Qed.

(** With an output file name and without a writer, [run] does not
    complete, and the only exception of the writer is the missing
    attribute. *)
Lemma run_video_no_writer out_filename final_frame_name FFMpeg has_ffmpeg
    has_avconv self :
  truthy_name out_filename = true ->
  truthy_interval (_update_interval self) = false ->
  match run_video out_filename final_frame_name FFMpeg has_ffmpeg has_avconv
          self with
  | inr _ => False
  | inl (SinkError e) => e = NoWriterAttribute
  | inl (PanelError _) => True
  end.
Proof.
  intros Ho Hi. unfold run_video.
  destruct (_initialize self) as [self1|e] eqn:Hinit; [|done].
  destruct (_initialize_frame _ _ Hinit) as [h ->].
  unfold sink_initialize, frame_sink.
  change (_update_interval (with_heap h self)) with (_update_interval self).
  rewrite Ho, Hi. cbn [andb].
  destruct (effective_interval (with_heap h self) ≫= _) as [[s ticks]|e];
    [|by destruct (negb _)].
  destruct (negb (truthy_name final_frame_name)); cbv zeta;
    match goal with
    | |- context [updates_video out_filename None ticks ?st] =>
        pose proof (updates_video_no_writer out_filename ticks st Ho) as Hu;
        destruct (updates_video out_filename None ticks st)
          as [[e|e]|[self0 calls0]]
    end; [done | done | reflexivity | done | done | reflexivity].
Qed.

(** X13: with an output file name but an update interval that is unset or
    0, [_initialize] sets up no writer, while [_update] and [_close] use
    [self.writer] whenever the file name is set.  So [run] never completes,
    and the writer is never reported missing as an encoder: with panels of
    the kinds waveform, raster and rate (at least one), when the first pass
    succeeds, the time bound is at least 2 and the panels of the single tick
    are recomputed without error, the run ends in the [AttributeError] of
    the missing attribute. *)
Theorem video_needs_interval out_filename final_frame_name FFMpeg
    has_ffmpeg has_avconv self :
  truthy_name out_filename = true ->
  truthy_interval (_update_interval self) = false ->
  (forall r,
     run_video out_filename final_frame_name FFMpeg has_ffmpeg has_avconv self
     <> inr r) /\
  (forall e,
     run_video out_filename final_frame_name FFMpeg has_ffmpeg has_avconv self
     = inl (SinkError e) -> e = NoWriterAttribute) /\
  (forall maxt self1 self2,
     all_locs (_config self) <> [] ->
     (forall l c, l ∈ all_locs (_config self) -> heap self !! l = Some c ->
        exists k, c !! "type" = Some (VStr k) /\
                  k ∈ ["waveform"; "raster"; "rate"]) ->
     _initialize self = Ok self1 ->
     _maxt self = Some maxt -> 2 <= maxt ->
     _update (with_t (maxt - 1 + 1)
                (with_update_interval (Some (maxt - 1)) self1)) = Ok self2 ->
     run_video out_filename final_frame_name FFMpeg has_ffmpeg has_avconv self
     = inl (SinkError NoWriterAttribute)).
Proof.
  intros Ho Hi.
  pose proof (run_video_no_writer out_filename final_frame_name FFMpeg
                has_ffmpeg has_avconv self Ho Hi) as Hno.
  split; [|split].
  - intros r Hr. by rewrite Hr in Hno.
  - intros e He. by rewrite He in Hno.
  - intros maxt self1 self2 _ _ Hinit Hm Hmaxt Hu.
    destruct (run_unset_interval_ticks self maxt
                (truthy_interval_false _ Hi) Hm Hmaxt) as (He & Ht & _).
    revert Hno. unfold run_video. rewrite Hinit.
    destruct (_initialize_frame _ _ Hinit) as [h ->].
    unfold sink_initialize, frame_sink.
    change (_update_interval (with_heap h self)) with (_update_interval self).
    rewrite Ho, Hi. cbn [andb].
    change (effective_interval (with_heap h self))
      with (effective_interval self).
    change (get_maxt (with_heap h self)) with (get_maxt self).
    rewrite He. cbn [mbind result_bind]. unfold get_maxt. rewrite Hm.
    cbn [mbind result_bind]. rewrite Ht. cbn [mbind result_bind].
    unfold _update in Hu. apply bind_Ok in Hu as (h' & Hh & _).
    destruct (negb (truthy_name final_frame_name));
      cbn [updates_video]; unfold update_video; cbn [fst snd];
      rewrite Hh; unfold sink_update; rewrite Ho; done.
Qed.

Lemma video_needs_interval_witness :
  run_video (Some "test.avi") None None true true (raster_engine (Some 0))
  = inl (SinkError NoWriterAttribute).
Proof.
  destruct (video_needs_interval (Some "test.avi") None None true true
              (raster_engine (Some 0))) as (_ & _ & H).
  - reflexivity.
  - vm_compute. reflexivity.
  - assert (Hl : all_locs (_config (raster_engine (Some 0))) = [1%nat])
      by (vm_compute; reflexivity).
    assert (Hh : heap (raster_engine (Some 0)) !! 1%nat
                 = Some (default ∅ (heap (raster_engine (Some 0)) !! 1%nat)))
      by (vm_compute; reflexivity).
    apply (H 4 (the __init__ (_initialize (raster_engine (Some 0))))
             (the __init__
                (_update
                   (with_t (4 - 1 + 1)
                      (with_update_interval (Some (4 - 1))
                         (the __init__
                            (_initialize (raster_engine (Some 0)))))))));
      [rewrite Hl; discriminate | | vm_compute; reflexivity
      | vm_compute; reflexivity | lia | vm_compute; reflexivity].
    intros l c Hin Hc. rewrite Hl in Hin.
    apply list_elem_of_singleton in Hin. subst l.
    rewrite Hh in Hc. inversion Hc; subst c. exists "raster".
    split; [vm_compute; reflexivity|].
    apply list_elem_of_further. apply list_elem_of_here.
Defined.

(** With a single timestep the same run ends in the [ValueError] of
    [range], before any use of the writer. *)
Example video_single_timestep :
  run_video (Some "test.avi") None None true true one_step_engine
  = inl (PanelError (ValueError "range() step argument must not be zero")).
Proof. vm_compute. reflexivity. Qed.

(** A run that completes has made the calls of [sink_run] for its number
    of ticks, and is a run of [run]. *)
Lemma updates_video_calls out_filename w ticks :
  forall st self' calls',
    updates_video out_filename w ticks st = inr (self', calls') ->
    for_each ticks (fun _ st => _update st) (fst st) = Ok self' /\
    exists more,
      calls' = snd st ++ more /\
      sink_updates out_filename w (length ticks) = inr more.
Proof.
  induction ticks as [|x ticks IH]; intros st self' calls' H.
  - cbn [updates_video] in H. inversion H; subst. simpl.
    split; [done|]. exists []. by rewrite app_nil_r.
  - cbn [updates_video] in H.
    destruct (update_video out_filename w st) as [e|st1] eqn:Hu; [done|].
    destruct (IH _ _ _ H) as (Hrun & more & -> & Hmore).
    unfold update_video in Hu.
    destruct (for_each (_config (fst st)) _ (heap (fst st))) as [h|e] eqn:Hh;
      [|done].
    destruct (sink_update out_filename w) as [e|calls] eqn:Hs; [done|].
    destruct (get_interval _) as [s|e] eqn:Hi; [|done].
    inversion Hu; subst st1; clear Hu. cbn [fst snd] in *.
    split.
    + assert (Hup : _update (fst st)
                    = Ok (with_t (_t (fst st) + s)
                            (with_canvas_draws
                               (canvas_draws (fst st) ++ [_t (fst st)])
                               (with_heap h (fst st))))).
      { unfold _update. rewrite Hh. cbn [mbind result_bind].
        by rewrite Hi. }
      cbn [for_each]. rewrite Hup. exact Hrun.
    + exists (calls ++ more). split; [by rewrite app_assoc|].
      cbn [length sink_updates]. unfold sink_seq. by rewrite Hs, Hmore.
Qed.

Lemma run_video_calls out_filename final_frame_name FFMpeg has_ffmpeg
    has_avconv self self' calls :
  run_video out_filename final_frame_name FFMpeg has_ffmpeg has_avconv self
  = inr (self', calls) ->
  run self = Ok self' /\
  exists ticks,
    sink_run out_filename (_update_interval self) final_frame_name FFMpeg
      has_ffmpeg has_avconv ticks = inr calls.
Proof.
  unfold run_video, run, sink_run. intros H.
  destruct (_initialize self) as [self1|e] eqn:Hinit; [|done].
  destruct (_initialize_frame _ _ Hinit) as [h ->].
  change (_update_interval (with_heap h self)) with (_update_interval self)
    in H.
  destruct (sink_initialize _ _ _ _ _ _) as [e|[w calls0]]; [done|].
  cbn [mbind result_bind].
  destruct (effective_interval (with_heap h self)) as [s|e]; [|done].
  cbn [mbind result_bind] in *.
  destruct (get_maxt (with_heap h self)) as [maxt|e] eqn:Hm; [|done].
  change (get_maxt
            (with_t (s + 1)
               (with_update_interval (Some s) (with_heap h self))))
    with (get_maxt (with_heap h self)).
  rewrite Hm. cbn [mbind result_bind] in *.
  destruct (tick_points s maxt) as [ticks|e]; [|done].
  cbn [mbind result_bind] in *.
  destruct (updates_video out_filename w ticks _) as [e|[self2 calls2]] eqn:Hu;
    [done|].
  apply updates_video_calls in Hu as (Hrun & more & -> & Hmore).
  cbn [fst snd] in *.
  destruct (truthy_name out_filename).
  - destruct (sink_close w) as [e|c]; [done|]. inversion H; subst.
    split; [done|]. exists (length ticks). rewrite Hmore.
    unfold sink_seq. by rewrite <- !app_assoc.
  - inversion H; subst. split; [done|]. exists (length ticks). rewrite Hmore.
    unfold sink_seq. by rewrite app_nil_r, <- !app_assoc.
Qed.
